(** * Formation master: mission state machine and MAVLink bridge

    Shallow embedding of [scripts/master_node.py] and
    [scripts/master_mavlink_bridge.py].

    Conventions of the embedding.
    - Python floats are read as real numbers ([R] of the standard library):
      [np.linalg.norm] is the Euclidean norm, [2**0.5] is [sqrt 2].
    - A numpy array of shape k x 3 is a list of rows, each row a [Vec3].
    - A method of a Python object is a program over the object's record:
      it returns an outcome (a value or a raised exception), the record as
      the method left it (mutations made before an exception persist) and
      the list of effects it performed (warnings, published messages).
    - Two attributes are renamed because their Python names are taken in
      Rocq: [self.S] is [S_param] and [self.R] is [R_robot]. *)

From Stdlib Require Import String Ascii DecimalString List Bool Arith ZArith Reals Lra Lia Permutation.
Import ListNotations.
Open Scope R_scope.

(* ------------------------------------------------------------------ *)
(** ** Numbers, rows and arrays *)

(** [a <= b] and [a > b] on floats, as the booleans Python computes. *)
Definition fle (a b : R) : bool := if Rle_dec a b then true else false.
Definition fgt (a b : R) : bool := if Rgt_dec a b then true else false.
Definition feq (a b : R) : bool := if Req_dec_T a b then true else false.

(** One row of an n x 3 array. *)
Record Vec3 : Type := mkVec3 { vx : R; vy : R; vz : R }.

Definition vzero : Vec3 := mkVec3 0 0 0.

(** [a - b] on rows. *)
Definition vsub (a b : Vec3) : Vec3 :=
  mkVec3 (vx a - vx b) (vy a - vy b) (vz a - vz b).

(** [np.linalg.norm] of a row. *)
Definition norm (a : Vec3) : R :=
  sqrt (vx a * vx a + vy a * vy a + vz a * vz a).

(** The row as the list of its three entries. *)
Definition row_list (a : Vec3) : list R := [vx a; vy a; vz a].

(** [np.zeros((n,3))]. *)
Definition np_zeros (n : nat) : list Vec3 := repeat vzero n.

(** A matrix of floats, by rows. *)
Definition matrix : Type := list (list R).

(** [np.transpose] of a rectangular matrix. *)
Definition np_transpose (A : matrix) : matrix :=
  match A with
  | [] => []
  | r :: _ => map (fun k => map (fun row => nth k row 0) A) (seq 0 (length r))
  end.

(** Sum of the entrywise products of two lists. *)
Fixpoint dotl (a b : list R) : R :=
  match a, b with
  | x :: a', y :: b' => x * y + dotl a' b'
  | _, _ => 0
  end.

(** Column [j] of a matrix. *)
Definition column (B : matrix) (j : nat) : list R :=
  map (fun row => nth j row 0) B.

(** Number of columns of a rectangular matrix. *)
Definition ncols (B : matrix) : nat :=
  match B with [] => O | r :: _ => length r end.

(** [np.dot A B] for two matrices whose inner dimensions agree. *)
Definition np_dot (A B : matrix) : matrix :=
  map (fun a => map (fun j => dotl a (column B j)) (seq 0 (ncols B))) A.

(** [c * A], a scalar times a matrix. *)
Definition mscale (c : R) (A : matrix) : matrix := map (map (Rmult c)) A.

(** Dot product of two rows. *)
Definition dot3 (a b : Vec3) : R := vx a * vx b + vy a * vy b + vz a * vz b.

(** [all(l)] of Python on a list of booleans. *)
Definition all (l : list bool) : bool := forallb (fun b => b) l.

(** [l[i] = v]: [None] stands for the IndexError of an index out of range. *)
Fixpoint list_set {A : Type} (l : list A) (i : nat) (v : A) : option (list A) :=
  match l, i with
  | [], _ => None
  | _ :: l', O => Some (v :: l')
  | a :: l', S i' =>
      match list_set l' i' v with
      | Some r => Some (a :: r)
      | None => None
      end
  end.

(* ------------------------------------------------------------------ *)
(** ** Exceptions, effects and the program monad *)

Inductive exn : Type :=
| IndexError
| NameError (name : string)
| KeyError
| ValueError
| AttributeError (name : string)
| StructError.

Inductive outcome (A : Type) : Type :=
| Ret (a : A)
| Raise (e : exn).
Arguments Ret {A} a.
Arguments Raise {A} e.

(** [geometry_msgs/Point]. *)
Record Point : Type := mkPoint { px : R; py : R; pz : R }.

(** [formation/FormationPositions]: header stamp, goals and [tf]. *)
Record FormationPositions : Type := mkFormationPositions {
  stamp : R;
  goals : list Point;
  tf : R
}.

(** The robot state message the mission callbacks read. *)
Record RobotState : Type := mkRobotState {
  point : Point;
  arrived : bool;
  received_goal : bool
}.

(** Effects of the master node: [rospy.logwarn] with its format string and
    integer arguments, and the two publishers of [main]. *)
Inductive event : Type :=
| LogWarn (fmt : string) (args : list nat)
| FormPub (m : FormationPositions)
| GoPub.

(* ------------------------------------------------------------------ *)
(** ** The mission object

    The attributes of [Mission], in the order [__init__] creates them. *)
Record Mission : Type := mkMission {
  n : nat;
  R_robot : R;
  delta : R;
  vmax : R;
  origin : list R;
  east : list R;
  P : list Vec3;
  S_param : list Vec3;
  S_array : list Vec3;
  G : list Vec3;
  current_P : list Vec3;
  goals_msg : FormationPositions;
  arrival_state : list bool;
  received_goals : list bool;
  formation_completed : bool;
  valid_P : bool;
  valid_S : bool;
  P_is_set : bool;
  S_is_set : bool;
  G_is_set : bool;
  M_START : bool;
  M_END : bool;
  r_loc_topic_names : list string
}.

(** Attribute assignments [self.f = v], one per attribute the code writes. *)
Definition set_P (v : list Vec3) (st : Mission) : Mission :=
  mkMission (n st) (R_robot st) (delta st) (vmax st) (origin st) (east st) v
    (S_param st) (S_array st) (G st) (current_P st) (goals_msg st)
    (arrival_state st) (received_goals st) (formation_completed st) (valid_P
    st) (valid_S st) (P_is_set st) (S_is_set st) (G_is_set st) (M_START st)
    (M_END st) (r_loc_topic_names st).
Definition set_S_param (v : list Vec3) (st : Mission) : Mission :=
  mkMission (n st) (R_robot st) (delta st) (vmax st) (origin st) (east st)
    (P st) v (S_array st) (G st) (current_P st) (goals_msg st) (arrival_state
    st) (received_goals st) (formation_completed st) (valid_P st) (valid_S st)
    (P_is_set st) (S_is_set st) (G_is_set st) (M_START st) (M_END st)
    (r_loc_topic_names st).
Definition set_S_array (v : list Vec3) (st : Mission) : Mission :=
  mkMission (n st) (R_robot st) (delta st) (vmax st) (origin st) (east st)
    (P st) (S_param st) v (G st) (current_P st) (goals_msg st) (arrival_state
    st) (received_goals st) (formation_completed st) (valid_P st) (valid_S st)
    (P_is_set st) (S_is_set st) (G_is_set st) (M_START st) (M_END st)
    (r_loc_topic_names st).
Definition set_G (v : list Vec3) (st : Mission) : Mission :=
  mkMission (n st) (R_robot st) (delta st) (vmax st) (origin st) (east st)
    (P st) (S_param st) (S_array st) v (current_P st) (goals_msg st)
    (arrival_state st) (received_goals st) (formation_completed st) (valid_P
    st) (valid_S st) (P_is_set st) (S_is_set st) (G_is_set st) (M_START st)
    (M_END st) (r_loc_topic_names st).
Definition set_current_P (v : list Vec3) (st : Mission) : Mission :=
  mkMission (n st) (R_robot st) (delta st) (vmax st) (origin st) (east st)
    (P st) (S_param st) (S_array st) (G st) v (goals_msg st) (arrival_state
    st) (received_goals st) (formation_completed st) (valid_P st) (valid_S st)
    (P_is_set st) (S_is_set st) (G_is_set st) (M_START st) (M_END st)
    (r_loc_topic_names st).
Definition set_goals_msg (v : FormationPositions) (st : Mission) : Mission :=
  mkMission (n st) (R_robot st) (delta st) (vmax st) (origin st) (east st)
    (P st) (S_param st) (S_array st) (G st) (current_P st) v (arrival_state
    st) (received_goals st) (formation_completed st) (valid_P st) (valid_S st)
    (P_is_set st) (S_is_set st) (G_is_set st) (M_START st) (M_END st)
    (r_loc_topic_names st).
Definition set_arrival_state (v : list bool) (st : Mission) : Mission :=
  mkMission (n st) (R_robot st) (delta st) (vmax st) (origin st) (east st)
    (P st) (S_param st) (S_array st) (G st) (current_P st) (goals_msg st) v
    (received_goals st) (formation_completed st) (valid_P st) (valid_S st)
    (P_is_set st) (S_is_set st) (G_is_set st) (M_START st) (M_END st)
    (r_loc_topic_names st).
Definition set_received_goals (v : list bool) (st : Mission) : Mission :=
  mkMission (n st) (R_robot st) (delta st) (vmax st) (origin st) (east st)
    (P st) (S_param st) (S_array st) (G st) (current_P st) (goals_msg st)
    (arrival_state st) v (formation_completed st) (valid_P st) (valid_S st)
    (P_is_set st) (S_is_set st) (G_is_set st) (M_START st) (M_END st)
    (r_loc_topic_names st).
Definition set_formation_completed (v : bool) (st : Mission) : Mission :=
  mkMission (n st) (R_robot st) (delta st) (vmax st) (origin st) (east st)
    (P st) (S_param st) (S_array st) (G st) (current_P st) (goals_msg st)
    (arrival_state st) (received_goals st) v (valid_P st) (valid_S st)
    (P_is_set st) (S_is_set st) (G_is_set st) (M_START st) (M_END st)
    (r_loc_topic_names st).
Definition set_valid_P (v : bool) (st : Mission) : Mission :=
  mkMission (n st) (R_robot st) (delta st) (vmax st) (origin st) (east st)
    (P st) (S_param st) (S_array st) (G st) (current_P st) (goals_msg st)
    (arrival_state st) (received_goals st) (formation_completed st) v (valid_S
    st) (P_is_set st) (S_is_set st) (G_is_set st) (M_START st) (M_END st)
    (r_loc_topic_names st).
Definition set_valid_S (v : bool) (st : Mission) : Mission :=
  mkMission (n st) (R_robot st) (delta st) (vmax st) (origin st) (east st)
    (P st) (S_param st) (S_array st) (G st) (current_P st) (goals_msg st)
    (arrival_state st) (received_goals st) (formation_completed st) (valid_P
    st) v (P_is_set st) (S_is_set st) (G_is_set st) (M_START st) (M_END st)
    (r_loc_topic_names st).
Definition set_P_is_set (v : bool) (st : Mission) : Mission :=
  mkMission (n st) (R_robot st) (delta st) (vmax st) (origin st) (east st)
    (P st) (S_param st) (S_array st) (G st) (current_P st) (goals_msg st)
    (arrival_state st) (received_goals st) (formation_completed st) (valid_P
    st) (valid_S st) v (S_is_set st) (G_is_set st) (M_START st) (M_END st)
    (r_loc_topic_names st).
Definition set_S_is_set (v : bool) (st : Mission) : Mission :=
  mkMission (n st) (R_robot st) (delta st) (vmax st) (origin st) (east st)
    (P st) (S_param st) (S_array st) (G st) (current_P st) (goals_msg st)
    (arrival_state st) (received_goals st) (formation_completed st) (valid_P
    st) (valid_S st) (P_is_set st) v (G_is_set st) (M_START st) (M_END st)
    (r_loc_topic_names st).
Definition set_G_is_set (v : bool) (st : Mission) : Mission :=
  mkMission (n st) (R_robot st) (delta st) (vmax st) (origin st) (east st)
    (P st) (S_param st) (S_array st) (G st) (current_P st) (goals_msg st)
    (arrival_state st) (received_goals st) (formation_completed st) (valid_P
    st) (valid_S st) (P_is_set st) (S_is_set st) v (M_START st) (M_END st)
    (r_loc_topic_names st).
Definition set_M_START (v : bool) (st : Mission) : Mission :=
  mkMission (n st) (R_robot st) (delta st) (vmax st) (origin st) (east st)
    (P st) (S_param st) (S_array st) (G st) (current_P st) (goals_msg st)
    (arrival_state st) (received_goals st) (formation_completed st) (valid_P
    st) (valid_S st) (P_is_set st) (S_is_set st) (G_is_set st) v (M_END st)
    (r_loc_topic_names st).
Definition set_M_END (v : bool) (st : Mission) : Mission :=
  mkMission (n st) (R_robot st) (delta st) (vmax st) (origin st) (east st)
    (P st) (S_param st) (S_array st) (G st) (current_P st) (goals_msg st)
    (arrival_state st) (received_goals st) (formation_completed st) (valid_P
    st) (valid_S st) (P_is_set st) (S_is_set st) (G_is_set st) (M_START st) v
    (r_loc_topic_names st).

(* ------------------------------------------------------------------ *)
(** ** Programs over an object

    [St] is the record of the object's attributes, [Ev] the effects. *)

Definition prog (St Ev A : Type) : Type := St -> outcome A * St * list Ev.

Definition ret {St Ev A : Type} (a : A) : prog St Ev A := fun st => (Ret a, st, []).

Definition bind {St Ev A B : Type} (m : prog St Ev A) (k : A -> prog St Ev B)
  : prog St Ev B :=
  fun st =>
    match m st with
    | (Ret a, st1, ev1) =>
        match k a st1 with
        | (r, st2, ev2) => (r, st2, ev1 ++ ev2)
        end
    | (Raise e, st1, ev1) => (Raise e, st1, ev1)
    end.

Definition raise {St Ev A : Type} (e : exn) : prog St Ev A :=
  fun st => (Raise e, st, []).
Definition get {St Ev : Type} : prog St Ev St := fun st => (Ret st, st, []).
Definition modify {St Ev : Type} (f : St -> St) : prog St Ev unit :=
  fun st => (Ret tt, f st, []).
Definition emit {St Ev : Type} (e : Ev) : prog St Ev unit :=
  fun st => (Ret tt, st, [e]).

Declare Scope prog_scope.
Delimit Scope prog_scope with prog.
Notation "x <- c1 ;; c2" := (bind c1 (fun x => c2))
  (at level 61, c1 at next level, right associativity) : prog_scope.
Notation "c1 ;; c2" := (bind c1 (fun _ => c2))
  (at level 61, right associativity) : prog_scope.
Open Scope prog_scope.

(** An indexing that raises IndexError when it has no value. *)
Definition index_or_raise {St Ev A : Type} (o : option A) : prog St Ev A :=
  match o with
  | Some a => ret a
  | None => raise IndexError
  end.

(** A call into a library that returns or raises. *)
Definition call {St Ev A : Type} (o : outcome A) : prog St Ev A :=
  match o with
  | Ret a => ret a
  | Raise e => raise e
  end.

(** [range(n)]. *)
Definition range (k : nat) : list nat := seq 0 k.

(** What a loop body asks for: the next iteration, or [break]. *)
Inductive ctl : Type := Continue | Break.

(** [for i in l: body], where the body may [break]. *)
Fixpoint for_in {St Ev : Type} (l : list nat) (body : nat -> prog St Ev ctl)
  : prog St Ev unit :=
  match l with
  | [] => ret tt
  | i :: l' =>
      c <- body i ;;
      match c with
      | Break => ret tt
      | Continue => for_in l' body
      end
  end.

(** [for i in l: acc = body i acc], a loop that updates a local variable. *)
Fixpoint for_acc {St Ev A : Type} (l : list nat) (acc : A)
  (body : nat -> A -> prog St Ev A) : prog St Ev A :=
  match l with
  | [] => ret acc
  | i :: l' => a <- body i acc ;; for_acc l' a body
  end.

(** The state, the outcome and the effects of a run. *)
Definition state_of {St Ev A : Type} (r : outcome A * St * list Ev) : St :=
  snd (fst r).
Definition outcome_of {St Ev A : Type} (r : outcome A * St * list Ev) : outcome A :=
  fst (fst r).
Definition events_of {St Ev A : Type} (r : outcome A * St * list Ev) : list Ev :=
  snd r.

(** Programs of the master node. *)
Definition mprog (A : Type) : Type := prog Mission event A.

Definition logwarn (fmt : string) (args : list nat) : mprog unit :=
  emit (LogWarn fmt args).

(* ------------------------------------------------------------------ *)
(** ** [Mission.__init__] *)

(** The values of the parameter server that [__init__] reads. *)
Record Params : Type := mkParams {
  nRobots : nat;
  param_R : R;
  param_vmax : R;
  param_origin : list R;
  param_east : list R;
  param_shape : list Vec3
}.

(** [str(i)] for a natural number. *)
Definition str (i : nat) : string := NilEmpty.string_of_uint (Nat.to_uint i).

Definition Mission_init (prm : Params) : Mission :=
  let n0 := nRobots prm in
  {| n := n0;
     R_robot := param_R prm;
     delta := 2 * sqrt 2 * param_R prm;
     vmax := param_vmax prm;
     origin := param_origin prm;
     east := param_east prm;
     P := np_zeros n0;
     S_param := param_shape prm;
     S_array := param_shape prm;
     G := np_zeros n0;
     current_P := np_zeros n0;
     goals_msg := mkFormationPositions 0 (repeat (mkPoint 0 0 0) n0) 0;
     arrival_state := repeat false n0;
     received_goals := repeat false n0;
     formation_completed := false;
     valid_P := false;
     valid_S := false;
     P_is_set := false;
     S_is_set := false;
     G_is_set := false;
     M_START := false;
     M_END := false;
     r_loc_topic_names := map (fun i => ("/robot" ++ str i ++ "/state")%string) (range n0) |}.

(* ------------------------------------------------------------------ *)
(** ** [Mission.validate_positions] *)

Definition validate_positions : mprog unit :=
  modify (set_valid_P true) ;;
  modify (set_valid_S true) ;;
  st0 <- get ;;
  for_in (range (n st0)) (fun i =>
    st <- get ;;
    if negb (valid_P st) then ret Break
    else
      for_in (range (n st)) (fun j =>
        if negb (i =? j)%nat then
          pi <- index_or_raise (nth_error (P st) i) ;;
          pj <- index_or_raise (nth_error (P st) j) ;;
          if fle (norm (vsub pi pj)) (delta st) then
            modify (set_valid_P false) ;;
            logwarn "Robots %s and %s are not well seperated" [i; j] ;;
            ret Break
          else ret Continue
        else ret Continue) ;;
      ret Continue) ;;
  st1 <- get ;;
  for_in (range (n st1)) (fun i =>
    st <- get ;;
    if negb (valid_S st) then ret Break
    else
      for_in (range (n st)) (fun j =>
        if negb (i =? j)%nat then
          si <- index_or_raise (nth_error (S_array st) i) ;;
          sj <- index_or_raise (nth_error (S_array st) j) ;;
          if fle (norm (vsub si sj)) (delta st) then
            modify (set_valid_S false) ;;
            logwarn "Goals %s and %s are not well seperated" [i; j] ;;
            ret Break
          else ret Continue
        else ret Continue) ;;
      ret Continue).

(* ------------------------------------------------------------------ *)
(** ** [Mission.compute_assignment] *)

Definition with_goals (g : list Point) (m : FormationPositions) : FormationPositions :=
  mkFormationPositions (stamp m) g (tf m).
Definition with_tf (t : R) (m : FormationPositions) : FormationPositions :=
  mkFormationPositions (stamp m) (goals m) t.
Definition with_stamp (s : R) (m : FormationPositions) : FormationPositions :=
  mkFormationPositions s (goals m) (tf m).

(** [-1.0*np.dot(P, np.transpose(S_array))]. *)
Definition cost_matrix (P0 S0 : list Vec3) : matrix :=
  mscale (-1) (np_dot (map row_list P0) (np_transpose (map row_list S0))).

Section WithSolver.

(** [lap.lapjv], the assignment solver of the [lap] package: on a cost
    matrix it returns the optimal cost, the column [x[i]] assigned to every
    row [i] and the row [y[j]] assigned to every column [j], or it raises. *)
Variable lapjv : matrix -> outcome (R * list nat * list nat).

Definition compute_assignment (now : R) : mprog unit :=
  st <- get ;;
  (* np.dot refuses an empty shape: the array of an empty list has one axis *)
  K <- match S_array st with
       | [] => raise ValueError
       | _ => ret (cost_matrix (P st) (S_array st))
       end ;;
  logwarn "Solving Assignement Problem...." [] ;;
  sol <- call (lapjv K) ;;
  let x := snd (fst sol) in
  logwarn "Assignment is solved in %s seconds" [] ;;
  tf0 <- for_acc (range (n st)) 0 (fun i tf0 =>
    st1 <- get ;;
    xi <- index_or_raise (nth_error x i) ;;
    row <- index_or_raise (nth_error (S_array st1) xi) ;;
    G1 <- index_or_raise (list_set (G st1) i row) ;;
    modify (set_G G1) ;;
    st2 <- get ;;
    gi <- index_or_raise (nth_error (G st2) i) ;;
    let p := mkPoint (vx gi) (vy gi) (vz gi) in
    goals1 <- index_or_raise (list_set (goals (goals_msg st2)) i p) ;;
    modify (set_goals_msg (with_goals goals1 (goals_msg st2))) ;;
    pi <- index_or_raise (nth_error (P st2) i) ;;
    let v := norm (vsub pi gi) / vmax st2 in
    ret (if fgt v tf0 then v else tf0)) ;;
  st3 <- get ;;
  modify (set_goals_msg (with_tf tf0 (goals_msg st3))) ;;
  st4 <- get ;;
  modify (set_goals_msg (with_stamp now (goals_msg st4))) ;;
  modify (set_G_is_set true).

(* ---------------------------------------------------------------- *)
(** ** Callbacks *)

(** The body shared by [r0Cb] ... [r4Cb]; they differ in [i] only. *)
Definition robotCb (i : nat) (msg : RobotState) : mprog unit :=
  st <- get ;;
  let p := mkVec3 (px (point msg)) (py (point msg)) (pz (point msg)) in
  cur <- index_or_raise (list_set (current_P st) i p) ;;
  modify (set_current_P cur) ;;
  arr <- index_or_raise (list_set (arrival_state st) i (arrived msg)) ;;
  modify (set_arrival_state arr) ;;
  rec <- index_or_raise (list_set (received_goals st) i (received_goal msg)) ;;
  modify (set_received_goals rec).

Definition r0Cb : RobotState -> mprog unit := robotCb 0.
Definition r1Cb : RobotState -> mprog unit := robotCb 1.
Definition r2Cb : RobotState -> mprog unit := robotCb 2.
Definition r3Cb : RobotState -> mprog unit := robotCb 3.
Definition r4Cb : RobotState -> mprog unit := robotCb 4.

Definition set_start_posCb : mprog unit :=
  st <- get ;;
  modify (set_P (current_P st)) ;;
  modify (set_P_is_set true).

(** [shape] is the value of the parameter "shape" when the call is made. *)
Definition set_desired_formation (shape : list Vec3) : mprog unit :=
  modify (set_S_param shape) ;;
  modify (set_S_array shape) ;;
  modify (set_S_is_set true).

(** The bare name [valid_P] of [startCb]: it is bound neither in the
    function nor in the module, so evaluating it raises NameError. *)
Definition name_valid_P : mprog bool := raise (NameError "valid_P").

Definition startCb (shape : list Vec3) (now : R) : mprog unit :=
  st <- get ;;
  if M_START st then logwarn "Mission already started!" []
  else
    set_start_posCb ;;
    set_desired_formation shape ;;
    validate_positions ;;
    st1 <- get ;;
    (* self.valid_S and valid_P *)
    c <- (if valid_S st1 then name_valid_P else ret false) ;;
    if c then
      compute_assignment now ;;
      modify (set_M_START true)
    else ret tt.

Definition landCb : mprog unit :=
  modify (set_M_START false) ;;
  modify (set_P_is_set false) ;;
  modify (set_S_is_set false) ;;
  modify (set_G_is_set false).

Definition holdCb : mprog unit :=
  modify (set_M_START false) ;;
  modify (set_P_is_set false) ;;
  modify (set_S_is_set false) ;;
  modify (set_G_is_set false).

Definition isFormationComplete : mprog bool :=
  st <- get ;;
  modify (set_formation_completed (all (arrival_state st))) ;;
  st1 <- get ;;
  ret (formation_completed st1).

(* ---------------------------------------------------------------- *)
(** ** The control loop of [main] *)

(** One pass through the body of [while not rospy.is_shutdown()]. *)
Definition tick : mprog unit :=
  st <- get ;;
  (if M_START st then
     modify (set_M_END false) ;;
     st1 <- get ;;
     if negb (all (received_goals st1)) then emit (FormPub (goals_msg st1))
     else emit GoPub
   else ret tt) ;;
  c <- isFormationComplete ;;
  if c then
    modify (set_M_END true) ;;
    modify (set_M_START false) ;;
    modify (set_P_is_set false) ;;
    modify (set_S_is_set false) ;;
    modify (set_G_is_set false)
  else ret tt.

(** What the node reacts to: a pass of the control loop, or a message on
    one of the topics [main] subscribes to. *)
Inductive input : Type :=
| Tick
| Start (shape : list Vec3) (now : R)
| Land
| Hold
| Robot0 (msg : RobotState)
| Robot1 (msg : RobotState)
| Robot2 (msg : RobotState)
| Robot3 (msg : RobotState)
| Robot4 (msg : RobotState).

Definition react (i : input) : mprog unit :=
  match i with
  | Tick => tick
  | Start shape now => startCb shape now
  | Land => landCb
  | Hold => holdCb
  | Robot0 msg => r0Cb msg
  | Robot1 msg => r1Cb msg
  | Robot2 msg => r2Cb msg
  | Robot3 msg => r3Cb msg
  | Robot4 msg => r4Cb msg
  end.

(** The mission object after a sequence of inputs.  An exception raised by
    a callback is reported by rospy and the node goes on, with the object
    as the callback left it. *)
Fixpoint run (l : list input) (st : Mission) : Mission :=
  match l with
  | [] => st
  | i :: l' => run l' (state_of (react i st))
  end.

(** The states the node can be in: those some inputs lead to from the
    object [__init__] builds.  ([main] subscribes to the topics of robots 0
    to 4, so it only gets to its loop when [n] is at least 5; the states of
    a smaller [n] are counted in all the same.) *)
Definition reachable (st : Mission) : Prop :=
  exists (prm : Params) (l : list input), st = run l (Mission_init prm).

End WithSolver.

(** The subscriptions of [main] to the state topics of robots 0 to 4: the
    topic and the index of the callback ([r0Cb] ... [r4Cb]). *)
Definition main_subscriptions : mprog (list (string * nat)) :=
  M <- get ;;
  t0 <- index_or_raise (nth_error (r_loc_topic_names M) 0) ;;
  t1 <- index_or_raise (nth_error (r_loc_topic_names M) 1) ;;
  t2 <- index_or_raise (nth_error (r_loc_topic_names M) 2) ;;
  t3 <- index_or_raise (nth_error (r_loc_topic_names M) 3) ;;
  t4 <- index_or_raise (nth_error (r_loc_topic_names M) 4) ;;
  ret [(t0, 0%nat); (t1, 1%nat); (t2, 2%nat); (t3, 3%nat); (t4, 4%nat)].

(* ------------------------------------------------------------------ *)
(** ** The MAVLink bridge, [master_mavlink_bridge.py] *)

Module MasterBridge.

(** A message as [recv_match] returns it, with what [recvCb] reads of it:
    [get_type()] and [get_srcSystem()], which every message has; the
    attribute [target_system], which only some message types have
    (COMMAND_LONG has it, HEARTBEAT and BAD_DATA do not): [None] when the
    object has no such attribute; and [command] and [param1] ... [param7],
    which [recvCb] reads of a COMMAND_LONG only. *)
Record MAVLink_message : Type := mkMAVLink_message {
  get_type : string;
  get_srcSystem : Z;
  target_system : option Z;
  command : Z;
  param1 : R;
  param2 : R;
  param3 : R;
  param4 : R;
  param5 : R;
  param6 : R;
  param7 : R
}.

(** [formation/RobotFormationState], with the values [recvCb] stores. *)
Record RobotFormationState : Type := mkRobotFormationState {
  header_stamp : R;
  received_goal : R;
  mission_started : R;
  arrived : R;
  point_x : R;
  point_y : R;
  point_z : R
}.

(** An argument of a format string. *)
Inductive arg : Type :=
| AInt (z : Z)
| AStr (s : string).

(** Effects of the bridge: warnings, a message published on the topic of a
    publisher, and the two sends of the MAVLink connection. *)
Inductive event : Type :=
| LogWarn (fmt : string) (args : list arg)
| Publish (topic : string) (m : RobotFormationState)
| CommandLongSend (tgt_sys tgt_comp : Z) (cmd confirmation : Z)
    (p1 p2 p3 p4 p5 p6 p7 : R)
| HeartbeatSend.

(** [mavutil.mavlink.MAV_CMD_USER_1]. *)
Definition MAV_CMD_USER_1 : Z := 31010.

(** The opcodes [__init__] defines. *)
Definition ROBOT_STATE : Z := 1.
Definition MASTER_CMD : Z := 2.
Definition MASTER_CMD_ARM : Z := 3.
Definition MASTER_CMD_TKO : Z := 4.
Definition MASTER_CMD_LAND : Z := 5.
Definition MASTER_CMD_POSCTL : Z := 6.
Definition MASTER_CMD_HOLD : Z := 7.
Definition MASTER_CMD_SHUTDOWN : Z := 8.
Definition MASTER_CMD_REBOOT : Z := 9.
Definition MASTER_CMD_SET_ORIGIN : Z := 10.
Definition MASTER_CMD_SET_EAST : Z := 11.
Definition MASTER_CMD_SET_nROBOTS : Z := 12.
Definition MASTER_CMD_GO : Z := 13.
Definition MASTER_CMD_GOAL : Z := 14.
Definition MASTER_CMD_SET_TOALT : Z := 15.
Definition MASTER_CMD_ACK : Z := 16.

Definition CMD_STRING : list (Z * string) :=
  [ (3%Z, "MASTER_CMD_ARM"%string); (4%Z, "MASTER_CMD_TKO"%string); (5%Z, "MASTER_CMD_LAND"%string);
    (6%Z, "MASTER_CMD_POSCTL"%string); (7%Z, "MASTER_CMD_HOLD"%string);
    (8%Z, "MASTER_CMD_SHUTDOWN"%string); (9%Z, "MASTER_CMD_REBOOT"%string);
    (10%Z, "MASTER_CMD_SET_ORIGIN"%string); (11%Z, "MASTER_CMD_SET_EAST"%string);
    (12%Z, "MASTER_CMD_SET_nROBOTS"%string); (13%Z, "MASTER_CMD_GO"%string);
    (14%Z, "MASTER_CMD_GOAL"%string); (15%Z, "MASTER_CMD_SET_TOALT"%string) ].

(** The attributes of the bridge that the callbacks read. *)
Record Bridge : Type := mkBridge {
  DEBUG : bool;
  ENABLE_MASTER_GCS : bool;
  n : nat;
  master_sys_id : Z;
  r_loc_topic_names : list string;
  (** a publisher is known by its topic *)
  robot_state_pub_list : list string
}.

(** The values of the parameter server that [__init__] reads. *)
Record Params : Type := mkParams {
  param_DEBUG : bool;
  param_USE_MASTER_AS_GCS : bool;
  param_nRobots : nat;
  param_master_sys_id : Z
}.

Definition Bridge_init (prm : Params) : Bridge :=
  let names :=
    map (fun i => ("/robot" ++ str i ++ "/state")%string) (range (param_nRobots prm)) in
  {| DEBUG := param_DEBUG prm;
     ENABLE_MASTER_GCS := param_USE_MASTER_AS_GCS prm;
     n := param_nRobots prm;
     master_sys_id := param_master_sys_id prm;
     r_loc_topic_names := names;
     robot_state_pub_list := names |}.

Definition bprog (A : Type) : Type := prog Bridge event A.

Definition logwarn (fmt : string) (args : list arg) : bprog unit :=
  emit (LogWarn fmt args).

(** [l[z]] for a Python integer: a negative index counts from the end. *)
Definition py_index {A : Type} (l : list A) (z : Z) : option A :=
  if (0 <=? z)%Z then nth_error l (Z.to_nat z)
  else if (0 <=? Z.of_nat (length l) + z)%Z
       then nth_error l (Z.to_nat (Z.of_nat (length l) + z))
       else None.

(** [d[key]] for a dictionary with integer keys and a float key. *)
Fixpoint dict_get (d : list (Z * string)) (key : R) : option string :=
  match d with
  | [] => None
  | (k, s) :: d' => if feq key (IZR k) then Some s else dict_get d' key
  end.

Definition key_or_raise {A : Type} (o : option A) : bprog A :=
  match o with
  | Some a => ret a
  | None => raise KeyError
  end.

(** [obj.name]: AttributeError when the object has no such attribute. *)
Definition attribute {A : Type} (name : string) (o : option A) : bprog A :=
  match o with
  | Some a => ret a
  | None => raise (AttributeError name)
  end.

(** One pass through the body of [while (True)] in [recvCb]: [msg] is what
    [recv_match] returned and [now] is [rospy.Time.now()].  [target_system]
    is read of every message, before its type is looked at. *)
Definition recv_one (now : R) (msg : option MAVLink_message) : bprog unit :=
  let cmd := MAV_CMD_USER_1 in
  match msg with
  | Some msg =>
      self <- get ;;
      let cmd_type := get_type msg in
      let src_sys := get_srcSystem msg in
      msg_tgt <- attribute "target_system" (target_system msg) ;;
      if (cmd_type =? "COMMAND_LONG")%string && (0 <? src_sys)%Z
         && (src_sys <=? Z.of_nat (n self))%Z && (command msg =? cmd)%Z
         && (msg_tgt =? master_sys_id self)%Z
      then
        (if feq (param1 msg) (IZR ROBOT_STATE) then
           (if DEBUG self
            then logwarn "[Master]: Received ROBOT_STATE from Robot %s"
                   [AInt (src_sys - 1)]
            else ret tt) ;;
           let state_msg :=
             {| header_stamp := now;
                received_goal := param2 msg;
                mission_started := param3 msg;
                arrived := param4 msg;
                point_x := param5 msg;
                point_y := param6 msg;
                point_z := param7 msg |} in
           pub <- index_or_raise (py_index (robot_state_pub_list self) (src_sys - 1)) ;;
           emit (Publish pub state_msg)
         else ret tt) ;;
        (if feq (param1 msg) (IZR MASTER_CMD_ACK) then
           s <- key_or_raise (dict_get CMD_STRING (param2 msg)) ;;
           logwarn "[Master]: Got acknowledgment of %s from robot %s"
             [AStr s; AInt (src_sys - 1)]
         else ret tt)
      else
        if DEBUG self
        then logwarn "Received unexpected MAVLink msg of type: %s from MAVLink ID = %s"
               [AStr (get_type msg); AInt (get_srcSystem msg)]
        else ret tt
  | None => ret tt
  end.

(** [recvCb] on the messages the connection delivers, each with the time
    of its arrival; an exception ends the loop. *)
Fixpoint recvCb (inbox : list (R * option MAVLink_message)) : bprog unit :=
  match inbox with
  | [] => ret tt
  | (now, msg) :: inbox' => recv_one now msg ;; recvCb inbox'
  end.

Definition goCb : bprog unit :=
  let tgt_sys := 0%Z in
  let tgt_comp_id := 0%Z in
  let p1 := MASTER_CMD in
  let p2 := MASTER_CMD_GO in
  emit (CommandLongSend tgt_sys tgt_comp_id MAV_CMD_USER_1 0
          (IZR p1) (IZR p2) 0 0 0 0 0) ;;
  self <- get ;;
  if DEBUG self then logwarn "[Master]: Sent MASTER_CMD_GO to all systems" []
  else ret tt.

Definition formationCb (msg : FormationPositions) : bprog unit :=
  self <- get ;;
  let tgt_comp_id := 0%Z in
  for_in (range (n self)) (fun i =>
    let tgt_sys := (Z.of_nat i + 1)%Z in
    let p1 := MASTER_CMD in
    let p2 := MASTER_CMD_GOAL in
    g <- index_or_raise (nth_error (goals msg) i) ;;
    let p3 := px g in
    let p4 := py g in
    let p5 := pz g in
    let p6 := tf msg in
    let p7 := 0 in
    emit (CommandLongSend tgt_sys tgt_comp_id MAV_CMD_USER_1 0
            (IZR p1) (IZR p2) p3 p4 p5 p6 p7) ;;
    (if DEBUG self
     then logwarn "[Master]: Sent formation goal to Robot %s" [AInt (Z.of_nat i)]
     else ret tt) ;;
    ret Continue).

(** [send_heartbeat]. *)
Definition send_heartbeat : bprog unit := emit HeartbeatSend.

(** [nRCb], [setOriginCb], [setEastCb], [setTOALTCb]: commands to all
    robots.  [data] is [msg.data]; the float argument of the debug message
    of [setTOALTCb] is not part of the effect. *)
Definition nRCb (data : Z) : bprog unit :=
  let r_id := 0%Z in
  let nR := data in
  let tgt_comp_id := 0%Z in
  let p1 := MASTER_CMD in
  let p2 := MASTER_CMD_SET_nROBOTS in
  let p3 := IZR nR in
  emit (CommandLongSend r_id tgt_comp_id MAV_CMD_USER_1 0
          (IZR p1) (IZR p2) p3 0 0 0 0) ;;
  self <- get ;;
  if DEBUG self
  then logwarn "[Master]: sending number of robots = %s to all robots" [AInt nR]
  else ret tt.

Definition setOriginCb (msg : Point) : bprog unit :=
  let r_id := 0%Z in
  let tgt_comp_id := 0%Z in
  let p1 := MASTER_CMD in
  let p2 := MASTER_CMD_SET_ORIGIN in
  let p3 := px msg in
  let p4 := py msg in
  let p5 := pz msg in
  emit (CommandLongSend r_id tgt_comp_id MAV_CMD_USER_1 0
          (IZR p1) (IZR p2) p3 p4 p5 0 0) ;;
  self <- get ;;
  if DEBUG self
  then logwarn "[Master]: sending Origin coordinates to all robots" []
  else ret tt.

Definition setEastCb (msg : Point) : bprog unit :=
  let r_id := 0%Z in
  let tgt_comp_id := 0%Z in
  let p1 := MASTER_CMD in
  let p2 := MASTER_CMD_SET_EAST in
  let p3 := px msg in
  let p4 := py msg in
  let p5 := pz msg in
  emit (CommandLongSend r_id tgt_comp_id MAV_CMD_USER_1 0
          (IZR p1) (IZR p2) p3 p4 p5 0 0) ;;
  self <- get ;;
  if DEBUG self
  then logwarn "[Master]: sending East coordinates to all robots" []
  else ret tt.

(** [msg] is [None] when the callback is called with [None], and the
    [data] of the message otherwise. *)
Definition setTOALTCb (msg : option R) : bprog unit :=
  match msg with
  | Some data =>
      let r_id := 0%Z in
      let tgt_comp_id := 0%Z in
      let p1 := MASTER_CMD in
      let p2 := MASTER_CMD_SET_TOALT in
      let p3 := data in
      emit (CommandLongSend r_id tgt_comp_id MAV_CMD_USER_1 0
              (IZR p1) (IZR p2) p3 0 0 0 0) ;;
      self <- get ;;
      if DEBUG self
      then logwarn "[Master]: sending TOALT=%s to all robots" []
      else ret tt
  | None => ret tt
  end.

(** [self.mav.mav.command_long_send] with a target taken from a message of
    the operator: the COMMAND_LONG is packed before it is written, the
    target system and the target component as unsigned bytes, and packing
    a value outside 0..255 raises [struct.error]: nothing is sent then.
    The callbacks above send to the constant address 0, or to the addresses
    1 ... n of the robots, which are MAVLink system ids. *)
Definition command_long_send (tgt_sys tgt_comp cmd confirmation : Z)
  (p1 p2 p3 p4 p5 p6 p7 : R) : bprog unit :=
  if (0 <=? tgt_sys)%Z && (tgt_sys <=? 255)%Z
     && (0 <=? tgt_comp)%Z && (tgt_comp <=? 255)%Z
  then emit (CommandLongSend tgt_sys tgt_comp cmd confirmation p1 p2 p3 p4 p5 p6 p7)
  else raise StructError.

(** The debug message of the commands addressed to [r_id]. *)
Definition log_addressed (to_one to_all : string) (r_id : Z) : bprog unit :=
  self <- get ;;
  if DEBUG self then
    if (0 <? r_id)%Z then logwarn to_one [AInt r_id]
    else logwarn to_all []
  else ret tt.

(** [armCb] ... [rebootCb]: commands to the robot [msg.data], or to all
    robots when it is 0. *)
Definition armCb (data : Z) : bprog unit :=
  let r_id := data in
  let tgt_comp_id := 0%Z in
  let p1 := MASTER_CMD in
  let p2 := MASTER_CMD_ARM in
  let p3 := 1 in
  command_long_send r_id tgt_comp_id MAV_CMD_USER_1 0
    (IZR p1) (IZR p2) p3 0 0 0 0 ;;
  log_addressed "[Master]: sending CMD_ARM to robot with MAVLink ID = %s"
    "[Master]: sending CMD_ARM to all robots" r_id.

Definition disarmCb (data : Z) : bprog unit :=
  let r_id := data in
  let tgt_comp_id := 0%Z in
  let p1 := MASTER_CMD in
  let p2 := MASTER_CMD_ARM in
  let p3 := 0 in
  command_long_send r_id tgt_comp_id MAV_CMD_USER_1 0
    (IZR p1) (IZR p2) p3 0 0 0 0 ;;
  log_addressed "[Master]: sending CMD_DISARM to robot with MAVLink ID = %s"
    "[Master]: sending CMD_DISARM to all robots" r_id.

Definition tkoCb (data : Z) : bprog unit :=
  let r_id := data in
  let tgt_comp_id := 0%Z in
  let p1 := MASTER_CMD in
  let p2 := MASTER_CMD_TKO in
  command_long_send r_id tgt_comp_id MAV_CMD_USER_1 0
    (IZR p1) (IZR p2) 0 0 0 0 0 ;;
  log_addressed "[Master]: sending CMD_TAKEOFF to robot with MAVLink ID = %s"
    "[Master]: sending CMD_TAKEOFF to all robots" r_id.

Definition landCb (data : Z) : bprog unit :=
  let r_id := data in
  let tgt_comp_id := 0%Z in
  let p1 := MASTER_CMD in
  let p2 := MASTER_CMD_LAND in
  command_long_send r_id tgt_comp_id MAV_CMD_USER_1 0
    (IZR p1) (IZR p2) 0 0 0 0 0 ;;
  log_addressed "[Master]: sending CMD_LAND to robot with MAVLink ID = %s"
    "[Master]: sending CMD_LAND to all robots" r_id.

Definition holdCb (data : Z) : bprog unit :=
  let r_id := data in
  let tgt_comp_id := 0%Z in
  let p1 := MASTER_CMD in
  let p2 := MASTER_CMD_HOLD in
  command_long_send r_id tgt_comp_id MAV_CMD_USER_1 0
    (IZR p1) (IZR p2) 0 0 0 0 0 ;;
  log_addressed "[Master]: sending CMD_HOLD to robot with MAVLink ID = %s"
    "[Master]: sending CMD_HOLD to all robots" r_id.

Definition posctlCb (data : Z) : bprog unit :=
  let r_id := data in
  let tgt_comp_id := 0%Z in
  let p1 := MASTER_CMD in
  let p2 := MASTER_CMD_POSCTL in
  command_long_send r_id tgt_comp_id MAV_CMD_USER_1 0
    (IZR p1) (IZR p2) 0 0 0 0 0 ;;
  log_addressed "[Master]: sending CMD_POSCTL to robot with MAVLink ID = %s"
    "[Master]: sending CMD_POSCTL to all robots" r_id.

Definition shutdownCb (data : Z) : bprog unit :=
  let r_id := data in
  let tgt_comp_id := 0%Z in
  let p1 := MASTER_CMD in
  let p2 := MASTER_CMD_SHUTDOWN in
  command_long_send r_id tgt_comp_id MAV_CMD_USER_1 0
    (IZR p1) (IZR p2) 0 0 0 0 0 ;;
  log_addressed "[Master]: sending CMD_SHUTDOWN to robot with MAVLink ID = %s"
    "[Master]: sending CMD_SHUTDOWN to all robots" r_id.

Definition rebootCb (data : Z) : bprog unit :=
  let r_id := data in
  let tgt_comp_id := 0%Z in
  let p1 := MASTER_CMD in
  let p2 := MASTER_CMD_REBOOT in
  command_long_send r_id tgt_comp_id MAV_CMD_USER_1 0
    (IZR p1) (IZR p2) 0 0 0 0 0 ;;
  log_addressed "[Master]: sending CMD_REBOOT to robot with MAVLink ID = %s"
    "[Master]: sending CMD_REBOOT to all robots" r_id.

(** A message on one of the topics [__init__] subscribes to. *)
Inductive operator_command : Type :=
| ArmRobot (data : Z)
| DisarmRobot (data : Z)
| TakeoffRobot (data : Z)
| LandRobot (data : Z)
| HoldRobot (data : Z)
| PosctlRobot (data : Z)
| ShutdownRobot (data : Z)
| RebootRobot (data : Z)
| Formation (msg : FormationPositions)
| Go
| SetnRobots (data : Z)
| SetOrigin (msg : Point)
| SetEast (msg : Point)
| SetTOALT (data : R).

(** The topic of a message, as [__init__] names it. *)
Definition topic_of (c : operator_command) : string :=
  match c with
  | ArmRobot _ => "/arm_robot"
  | DisarmRobot _ => "/disarm_robot"
  | TakeoffRobot _ => "/takeoff_robot"
  | LandRobot _ => "/land_robot"
  | HoldRobot _ => "/hold_robot"
  | PosctlRobot _ => "/posctl_robot"
  | ShutdownRobot _ => "/shutdown_robot"
  | RebootRobot _ => "/reboot_robot"
  | Formation _ => "/formation"
  | Go => "/go"
  | SetnRobots _ => "/setnRobots"
  | SetOrigin _ => "/setOrigin"
  | SetEast _ => "/setEast"
  | SetTOALT _ => "/setTOALT"
  end.

(** The callback [__init__] subscribes to the topic of a message. *)
Definition on_command (c : operator_command) : bprog unit :=
  match c with
  | ArmRobot data => armCb data
  | DisarmRobot data => disarmCb data
  | TakeoffRobot data => tkoCb data
  | LandRobot data => landCb data
  | HoldRobot data => holdCb data
  | PosctlRobot data => posctlCb data
  | ShutdownRobot data => shutdownCb data
  | RebootRobot data => rebootCb data
  | Formation msg => formationCb msg
  | Go => goCb
  | SetnRobots data => nRCb data
  | SetOrigin msg => setOriginCb msg
  | SetEast msg => setEastCb msg
  | SetTOALT data => setTOALTCb (Some data)
  end.

(** One pass through the loop of [main]. *)
Definition main_pass : bprog unit :=
  self <- get ;;
  if ENABLE_MASTER_GCS self then send_heartbeat else ret tt.

End MasterBridge.

(* ================================================================== *)
(** * Properties *)

(** ** Examples and helpers *)

(** A solver that assigns row [i] to column [i].  It stands for [lapjv] in
    the examples, whose cost matrices have the identity as their optimum. *)
Definition lapjv_identity (K : matrix) : outcome (R * list nat * list nat) :=
  Ret (0, range (length K), range (length K)).

(** Five robots of radius 1/2, a line of five slots two metres apart. *)
Definition line5 : list Vec3 :=
  [mkVec3 0 2 0; mkVec3 2 2 0; mkVec3 4 2 0; mkVec3 6 2 0; mkVec3 8 2 0].

Definition params5 : Params :=
  {| nRobots := 5; param_R := 1 / 2; param_vmax := 1;
     param_origin := [0; 0]; param_east := [0; 0]; param_shape := line5 |}.

Definition mission5 : Mission := Mission_init params5.

(** The attributes [landCb], [holdCb] and the end of a mission do not write. *)
Definition same_but_phase (st st' : Mission) : Prop :=
  n st' = n st /\ R_robot st' = R_robot st /\ delta st' = delta st /\
  vmax st' = vmax st /\ origin st' = origin st /\ east st' = east st /\
  P st' = P st /\ S_param st' = S_param st /\ S_array st' = S_array st /\
  G st' = G st /\ current_P st' = current_P st /\
  goals_msg st' = goals_msg st /\ arrival_state st' = arrival_state st /\
  received_goals st' = received_goals st /\
  formation_completed st' = formation_completed st /\
  valid_P st' = valid_P st /\ valid_S st' = valid_S st /\
  M_END st' = M_END st /\ r_loc_topic_names st' = r_loc_topic_names st.

(** The bridge of five robots with the default ground-station address. *)
Definition bridge5 : MasterBridge.Bridge :=
  MasterBridge.Bridge_init
    {| MasterBridge.param_DEBUG := false;
       MasterBridge.param_USE_MASTER_AS_GCS := false;
       MasterBridge.param_nRobots := 5;
       MasterBridge.param_master_sys_id := 255 |}.

(** The wire targets of the commands among the effects, in order. *)
Fixpoint sent_targets (ev : list MasterBridge.event) : list Z :=
  match ev with
  | [] => []
  | MasterBridge.CommandLongSend t _ _ _ _ _ _ _ _ _ _ :: ev' => t :: sent_targets ev'
  | _ :: ev' => sent_targets ev'
  end.

(** The commands among the effects, in order. *)
Fixpoint sent_commands (ev : list MasterBridge.event) : list MasterBridge.event :=
  match ev with
  | [] => []
  | MasterBridge.CommandLongSend t c m f p1 p2 p3 p4 p5 p6 p7 :: ev' =>
      MasterBridge.CommandLongSend t c m f p1 p2 p3 p4 p5 p6 p7 :: sent_commands ev'
  | _ :: ev' => sent_commands ev'
  end.

(** The goal command [formationCb] sends to robot [i]. *)
Definition goal_command (msg : FormationPositions) (i : nat) : MasterBridge.event :=
  let g := nth i (goals msg) (mkPoint 0 0 0) in
  MasterBridge.CommandLongSend (Z.of_nat i + 1) 0 MasterBridge.MAV_CMD_USER_1 0
    (IZR MasterBridge.MASTER_CMD) (IZR MasterBridge.MASTER_CMD_GOAL)
    (px g) (py g) (pz g) (tf msg) 0.

(** The effects of one iteration of the loop of [formationCb]. *)
Definition goal_effects (self : MasterBridge.Bridge) (msg : FormationPositions) (i : nat) : list MasterBridge.event :=
  goal_command msg i
  :: (if MasterBridge.DEBUG self
      then [MasterBridge.LogWarn "[Master]: Sent formation goal to Robot %s" [MasterBridge.AInt (Z.of_nat i)]]
      else []).

(** The four checks of [recvCb] on a message. *)
Definition passes_checks (self : MasterBridge.Bridge) (msg : MasterBridge.MAVLink_message)
  : Prop :=
  MasterBridge.get_type msg = "COMMAND_LONG"%string /\
  (1 <= MasterBridge.get_srcSystem msg <= Z.of_nat (MasterBridge.n self))%Z /\
  MasterBridge.command msg = MasterBridge.MAV_CMD_USER_1 /\
  MasterBridge.target_system msg = Some (MasterBridge.master_sys_id self).

(** The state record [recvCb] builds from a message at time [now]. *)
Definition state_record (now : R) (msg : MasterBridge.MAVLink_message)
  : MasterBridge.RobotFormationState :=
  {| MasterBridge.header_stamp := now;
     MasterBridge.received_goal := MasterBridge.param2 msg;
     MasterBridge.mission_started := MasterBridge.param3 msg;
     MasterBridge.arrived := MasterBridge.param4 msg;
     MasterBridge.point_x := MasterBridge.param5 msg;
     MasterBridge.point_y := MasterBridge.param6 msg;
     MasterBridge.point_z := MasterBridge.param7 msg |}.

(** A state report of robot address [s] for the ground station 255. *)
Definition report_from (s : Z) : MasterBridge.MAVLink_message :=
  {| MasterBridge.get_type := "COMMAND_LONG";
     MasterBridge.get_srcSystem := s;
     MasterBridge.target_system := Some 255%Z;
     MasterBridge.command := 31010;
     MasterBridge.param1 := 1;
     MasterBridge.param2 := 1;
     MasterBridge.param3 := 0;
     MasterBridge.param4 := 0;
     MasterBridge.param5 := 3;
     MasterBridge.param6 := 4;
     MasterBridge.param7 := 5 |}.

(** Five start positions two metres apart, and the mission object that has
    them as current positions. *)
Definition start5 : list Vec3 :=
  [mkVec3 0 0 0; mkVec3 2 0 0; mkVec3 4 0 0; mkVec3 6 0 0; mkVec3 8 0 0].

Definition ready5 : Mission := set_P start5 (set_current_P start5 mission5).

(** Distance of rows [i] and [j] of an array. *)
Definition dist (A : list Vec3) (i j : nat) : R :=
  norm (vsub (nth i A vzero) (nth j A vzero)).

(** Among the first [k] rows of [A], two different rows are within [d]. *)
Definition close_pair (A : list Vec3) (d : R) (k : nat) : Prop :=
  exists i j, (i < k)%nat /\ (j < k)%nat /\ i <> j /\ dist A i j <= d.

(** The first [j] of [js] that the inner loop of [validate_positions]
    stops at for row [i], and the first pair the two loops stop at. *)
Definition first_close (A : list Vec3) (d : R) (i : nat) (js : list nat) : option nat :=
  find (fun j => negb (i =? j)%nat && fle (dist A i j) d) js.

Fixpoint first_close_pair (A : list Vec3) (d : R) (k : nat) (rows : list nat)
  : option (nat * nat) :=
  match rows with
  | [] => None
  | i :: rows' =>
      match first_close A d i (range k) with
      | Some j => Some (i, j)
      | None => first_close_pair A d k rows'
      end
  end.

(** The body of the inner loops of [validate_positions], for the array
    [arr], the threshold [d], the assignment [unset] that clears the flag
    and the format [fmt] of the warning. *)
Definition scan_row (arr : list Vec3) (d : R) (unset : Mission -> Mission)
  (fmt : string) (i : nat) : nat -> mprog ctl :=
  fun j =>
    if negb (i =? j)%nat then
      pi <- index_or_raise (nth_error arr i) ;;
      pj <- index_or_raise (nth_error arr j) ;;
      if fle (norm (vsub pi pj)) d then
        modify unset ;;
        logwarn fmt [i; j] ;;
        ret Break
      else ret Continue
    else ret Continue.

(** The body of the outer loops of [validate_positions]. *)
Definition scan_rows (arr_of : Mission -> list Vec3) (flag_of : Mission -> bool)
  (unset : Mission -> Mission) (fmt : string) : nat -> mprog ctl :=
  fun i =>
    st <- get ;;
    if negb (flag_of st) then ret Break
    else
      for_in (range (n st)) (scan_row (arr_of st) (delta st) unset fmt i) ;;
      ret Continue.

(** The flag [validate_positions] leaves for an array, and its warning. *)
Definition separated (A : list Vec3) (d : R) (k : nat) : bool :=
  match first_close_pair A d k (range k) with
  | Some _ => false
  | None => true
  end.

Definition separation_warning (fmt : string) (A : list Vec3) (d : R) (k : nat)
  : list event :=
  match first_close_pair A d k (range k) with
  | Some (i, j) => [LogWarn fmt [i; j]]
  | None => []
  end.

(** A program keeps a property of the mission object, whatever its outcome. *)
Definition preserves {A : Type} (I : Mission -> Prop) (m : mprog A) : Prop :=
  forall s, I s -> I (state_of (m s)).

(** The attributes [validate_positions] does not write. *)
Definition same_but_valid (st st' : Mission) : Prop :=
  n st' = n st /\ R_robot st' = R_robot st /\ delta st' = delta st /\
  vmax st' = vmax st /\ origin st' = origin st /\ east st' = east st /\
  P st' = P st /\ S_param st' = S_param st /\ S_array st' = S_array st /\
  G st' = G st /\ current_P st' = current_P st /\
  goals_msg st' = goals_msg st /\ arrival_state st' = arrival_state st /\
  received_goals st' = received_goals st /\
  formation_completed st' = formation_completed st /\
  P_is_set st' = P_is_set st /\ S_is_set st' = S_is_set st /\
  G_is_set st' = G_is_set st /\ M_START st' = M_START st /\
  M_END st' = M_END st /\ r_loc_topic_names st' = r_loc_topic_names st.

(** The mission object after the two assignments that open [startCb] when
    the mission is not started: the snapshot and the shape. *)
Definition snapshot (shape : list Vec3) (st : Mission) : Mission :=
  set_S_is_set true (set_S_array shape (set_S_param shape
    (set_P_is_set true (set_P (current_P st) st)))).

(** A shape whose slots coincide. *)
Definition heap5 : list Vec3 := np_zeros 5.

(** A state message of a robot at the origin. *)
Definition robot_msg (arr rec : bool) : RobotState :=
  {| point := mkPoint 0 0 0; arrived := arr; received_goal := rec |}.

(** All five robots report their arrival, the control loop runs once, then
    robot 0 reports that it has not arrived. *)
Definition arrive_then_leave : list input :=
  [Robot0 (robot_msg true true); Robot1 (robot_msg true true);
   Robot2 (robot_msg true true); Robot3 (robot_msg true true);
   Robot4 (robot_msg true true); Tick; Robot0 (robot_msg false true)].

(** The attributes a refused start does not write. *)
Definition same_but_snapshot (st st' : Mission) : Prop :=
  n st' = n st /\ R_robot st' = R_robot st /\ delta st' = delta st /\
  vmax st' = vmax st /\ origin st' = origin st /\ east st' = east st /\
  G st' = G st /\ current_P st' = current_P st /\
  goals_msg st' = goals_msg st /\ arrival_state st' = arrival_state st /\
  received_goals st' = received_goals st /\
  formation_completed st' = formation_completed st /\
  G_is_set st' = G_is_set st /\ M_START st' = M_START st /\
  M_END st' = M_END st /\ r_loc_topic_names st' = r_loc_topic_names st.

(** The effect is a warning. *)
Definition is_warning (e : event) : Prop :=
  match e with
  | LogWarn _ _ => True
  | _ => False
  end.

(** [l[i] = v] where the index is in range; the list itself otherwise. *)
Definition list_upd {A : Type} (l : list A) (i : nat) (v : A) : list A :=
  match list_set l i v with
  | Some r => r
  | None => l
  end.

(** The slot [S[x[i]]] and the point message made of a row. *)
Definition goal_of (S0 : list Vec3) (x : list nat) (i : nat) : Vec3 :=
  nth (nth i x O) S0 vzero.

Definition point_of (v : Vec3) : Point := mkPoint (vx v) (vy v) (vz v).

(** [norm(P[i] - S[x[i]]) / vmax], the time robot [i] needs. *)
Definition travel_time (P0 S0 : list Vec3) (x : list nat) (vmax0 : R) (i : nat) : R :=
  norm (vsub (nth i P0 vzero) (goal_of S0 x i)) / vmax0.

(** [if v > tf: tf = v]. *)
Definition later (t v : R) : R := if fgt v t then v else t.

(** The body of the loop of [compute_assignment], for the assignment [x]. *)
Definition assign_body (x : list nat) : nat -> R -> mprog R :=
  fun i tf0 =>
    st1 <- get ;;
    xi <- index_or_raise (nth_error x i) ;;
    row <- index_or_raise (nth_error (S_array st1) xi) ;;
    G1 <- index_or_raise (list_set (G st1) i row) ;;
    modify (set_G G1) ;;
    st2 <- get ;;
    gi <- index_or_raise (nth_error (G st2) i) ;;
    let p := mkPoint (vx gi) (vy gi) (vz gi) in
    goals1 <- index_or_raise (list_set (goals (goals_msg st2)) i p) ;;
    modify (set_goals_msg (with_goals goals1 (goals_msg st2))) ;;
    pi <- index_or_raise (nth_error (P st2) i) ;;
    let v := norm (vsub pi gi) / vmax st2 in
    ret (if fgt v tf0 then v else tf0).

(** What one iteration of that loop does to the mission object. *)
Definition assign_step (x : list nat) (s : Mission) (i : nat) : Mission :=
  set_goals_msg
    (with_goals (list_upd (goals (goals_msg s)) i (point_of (goal_of (S_array s) x i)))
       (goals_msg s))
    (set_G (list_upd (G s) i (goal_of (S_array s) x i)) s).

(** What the callers of [lapjv] rely on: on a square cost matrix it returns,
    and the columns [x] it assigns to the rows are a permutation of the
    indices of the matrix. *)
Definition lapjv_contract (lapjv : matrix -> outcome (R * list nat * list nat)) : Prop :=
  forall K : matrix,
    K <> [] -> Forall (fun r => length r = length K) K ->
    exists c x y, lapjv K = Ret (c, x, y) /\ Permutation x (range (length K)).

(** The arrays of the mission object have [n] rows. *)
Definition arrays_fit (st : Mission) : Prop :=
  length (P st) = n st /\ length (S_array st) = n st /\
  length (G st) = n st /\ length (goals (goals_msg st)) = n st.

(** A program performs only effects with the property [Q]. *)
Definition emits_only {St Ev A : Type} (Q : Ev -> Prop) (m : prog St Ev A) : Prop :=
  forall s, Forall Q (events_of (m s)).

(** A program does not write the object. *)
Definition reads_only {St Ev A : Type} (m : prog St Ev A) : Prop :=
  forall s, state_of (m s) = s.

(** The arrays and lists of the mission object that [__init__] sizes by
    [n] have [n] entries, and [delta] is the threshold of [__init__]. *)
Definition sized (st : Mission) : Prop :=
  length (P st) = n st /\ length (G st) = n st /\
  length (current_P st) = n st /\ length (goals (goals_msg st)) = n st /\
  length (arrival_state st) = n st /\ length (received_goals st) = n st /\
  length (r_loc_topic_names st) = n st /\
  delta st = 2 * sqrt 2 * R_robot st.

(** The attributes a robot callback does not write. *)
Definition same_but_robot (st st' : Mission) : Prop :=
  n st' = n st /\ R_robot st' = R_robot st /\ delta st' = delta st /\
  vmax st' = vmax st /\ origin st' = origin st /\ east st' = east st /\
  P st' = P st /\ S_param st' = S_param st /\ S_array st' = S_array st /\
  G st' = G st /\ goals_msg st' = goals_msg st /\
  formation_completed st' = formation_completed st /\
  valid_P st' = valid_P st /\ valid_S st' = valid_S st /\
  P_is_set st' = P_is_set st /\ S_is_set st' = S_is_set st /\
  G_is_set st' = G_is_set st /\ M_START st' = M_START st /\
  M_END st' = M_END st /\ r_loc_topic_names st' = r_loc_topic_names st.

(** The attributes [compute_assignment] does not write. *)
Definition same_but_goals (st st' : Mission) : Prop :=
  n st' = n st /\ R_robot st' = R_robot st /\ delta st' = delta st /\
  vmax st' = vmax st /\ origin st' = origin st /\ east st' = east st /\
  P st' = P st /\ S_param st' = S_param st /\ S_array st' = S_array st /\
  current_P st' = current_P st /\ arrival_state st' = arrival_state st /\
  received_goals st' = received_goals st /\
  formation_completed st' = formation_completed st /\
  valid_P st' = valid_P st /\ valid_S st' = valid_S st /\
  P_is_set st' = P_is_set st /\ S_is_set st' = S_is_set st /\
  M_START st' = M_START st /\ M_END st' = M_END st /\
  r_loc_topic_names st' = r_loc_topic_names st.

(** The position a robot state message carries, as a row. *)
Definition row_of (msg : RobotState) : Vec3 :=
  mkVec3 (px (point msg)) (py (point msg)) (pz (point msg)).

(** A solver that always fails. *)
Definition lapjv_fails (K : matrix) : outcome (R * list nat * list nat) :=
  Raise ValueError.

(** Six robots, and three slots only. *)
Definition params6 : Params :=
  {| nRobots := 6; param_R := 1 / 2; param_vmax := 1;
     param_origin := [0; 0]; param_east := [0; 0]; param_shape := line5 |}.

Definition line3 : list Vec3 := [mkVec3 0 2 0; mkVec3 2 2 0; mkVec3 4 2 0].

(** Robot 5 has not arrived, no mission has ended and none is started. *)
Definition sixth_absent (st : Mission) : Prop :=
  nth_error (arrival_state st) 5 = Some false /\ M_END st = false /\
  M_START st = false /\ formation_completed st = false.

(** The kinds of operator commands, one per topic of the bridge. *)
Inductive command_kind : Type :=
| KArm | KDisarm | KTakeoff | KLand | KHold | KPosctl | KShutdown | KReboot
| KFormation | KGo | KSetnRobots | KSetOrigin | KSetEast | KSetTOALT.

Definition kind_of (c : MasterBridge.operator_command) : command_kind :=
  match c with
  | MasterBridge.ArmRobot _ => KArm
  | MasterBridge.DisarmRobot _ => KDisarm
  | MasterBridge.TakeoffRobot _ => KTakeoff
  | MasterBridge.LandRobot _ => KLand
  | MasterBridge.HoldRobot _ => KHold
  | MasterBridge.PosctlRobot _ => KPosctl
  | MasterBridge.ShutdownRobot _ => KShutdown
  | MasterBridge.RebootRobot _ => KReboot
  | MasterBridge.Formation _ => KFormation
  | MasterBridge.Go => KGo
  | MasterBridge.SetnRobots _ => KSetnRobots
  | MasterBridge.SetOrigin _ => KSetOrigin
  | MasterBridge.SetEast _ => KSetEast
  | MasterBridge.SetTOALT _ => KSetTOALT
  end.


(** The opcode [p2] and the parameter [p3] of a sent command. *)
Definition sent_opcode (e : MasterBridge.event) : option (R * R) :=
  match e with
  | MasterBridge.CommandLongSend _ _ _ _ _ p2 p3 _ _ _ _ => Some (p2, p3)
  | _ => None
  end.

(** The effect is a warning of the bridge. *)
Definition is_bridge_warning (e : MasterBridge.event) : Prop :=
  match e with
  | MasterBridge.LogWarn _ _ => True
  | _ => False
  end.

(** The effect is a warning, or a COMMAND_LONG for component 0 with the
    command MAV_CMD_USER_1, confirmation 0 and [param1 = MASTER_CMD]. *)
Definition is_master_command (e : MasterBridge.event) : Prop :=
  match e with
  | MasterBridge.LogWarn _ _ => True
  | MasterBridge.CommandLongSend _ comp cmd conf p1 _ _ _ _ _ _ =>
      comp = 0%Z /\ cmd = MasterBridge.MAV_CMD_USER_1 /\ conf = 0%Z /\
      p1 = IZR MasterBridge.MASTER_CMD
  | _ => False
  end.

(** The effect is a warning, or a command whose opcode is [code] and, where
    [p3] is given, whose third parameter is [p3]. *)
Definition has_opcode (code : Z) (p3 : option R) (e : MasterBridge.event) : Prop :=
  match e with
  | MasterBridge.LogWarn _ _ => True
  | MasterBridge.CommandLongSend _ _ _ _ _ q2 q3 _ _ _ _ =>
      q2 = IZR code /\ match p3 with Some v => q3 = v | None => True end
  | _ => False
  end.

(** An acknowledgment of the command [id] by the robot of address [s], for
    the ground station 255. *)
Definition ack_from (s : Z) (id : R) : MasterBridge.MAVLink_message :=
  {| MasterBridge.get_type := "COMMAND_LONG";
     MasterBridge.get_srcSystem := s;
     MasterBridge.target_system := Some 255%Z;
     MasterBridge.command := 31010;
     MasterBridge.param1 := 16;
     MasterBridge.param2 := id;
     MasterBridge.param3 := 0;
     MasterBridge.param4 := 0;
     MasterBridge.param5 := 0;
     MasterBridge.param6 := 0;
     MasterBridge.param7 := 0 |}.

(** A heartbeat of the robot of address [s]: a message without the
    attribute [target_system]. *)
Definition heartbeat_from (s : Z) : MasterBridge.MAVLink_message :=
  {| MasterBridge.get_type := "HEARTBEAT";
     MasterBridge.get_srcSystem := s;
     MasterBridge.target_system := None;
     MasterBridge.command := 0;
     MasterBridge.param1 := 0;
     MasterBridge.param2 := 0;
     MasterBridge.param3 := 0;
     MasterBridge.param4 := 0;
     MasterBridge.param5 := 0;
     MasterBridge.param6 := 0;
     MasterBridge.param7 := 0 |}.

(** The bridge of five robots in debug mode. *)
Definition bridge5_debug : MasterBridge.Bridge :=
  MasterBridge.Bridge_init
    {| MasterBridge.param_DEBUG := true;
       MasterBridge.param_USE_MASTER_AS_GCS := false;
       MasterBridge.param_nRobots := 5;
       MasterBridge.param_master_sys_id := 255 |}.

(** The name of a command identifier in [CMD_STRING]. *)
Fixpoint dict_get_Z (d : list (Z * string)) (key : Z) : option string :=
  match d with
  | [] => None
  | (k, s) :: d' => if (key =? k)%Z then Some s else dict_get_Z d' key
  end.

(** The opcode the bridge sends for each kind of command, and the third
    parameter that tells arming from disarming. *)
Definition opcode_of_kind (k : command_kind) : Z :=
  match k with
  | KArm => 3 | KDisarm => 3 | KTakeoff => 4 | KLand => 5 | KPosctl => 6
  | KHold => 7 | KShutdown => 8 | KReboot => 9 | KSetOrigin => 10
  | KSetEast => 11 | KSetnRobots => 12 | KGo => 13 | KFormation => 14
  | KSetTOALT => 15
  end%Z.

Definition arming_of_kind (k : command_kind) : option R :=
  match k with
  | KArm => Some 1
  | KDisarm => Some 0
  | _ => None
  end.

(** ** Lists of flags and ranges *)

Lemma all_true_iff (l : list bool) :
  all l = true <-> Forall (fun b => b = true) l.
Proof.
  unfold all. rewrite forallb_forall, Forall_forall. reflexivity.
Qed.

Lemma all_false_iff (l : list bool) :
  all l = false <-> Exists (fun b => b = false) l.
Proof.
  unfold all. induction l as [|b l IH]; simpl.
  - split; [discriminate | intros H; inversion H].
  - destruct b; simpl.
    + rewrite IH. split; [intros H; now right | intros H].
      inversion H; subst; [discriminate | assumption].
    + split; [intros _; now left | reflexivity].
Qed.

Lemma nth_error_map_range {A : Type} (f : nat -> A) (k m : nat) :
  (k < m)%nat -> nth_error (map f (range m)) k = Some (f k).
Proof.
  intros H. unfold range. rewrite nth_error_map.
  rewrite nth_error_nth' with (d := O) by (rewrite length_seq; exact H).
  rewrite seq_nth by exact H. reflexivity.
Qed.

(** ** The start command when the mission runs *)

(** C8: with [M_START] true, [startCb] logs the warning and returns; the
    mission object, hence the snapshot [P], the goals [G], the goals
    message with its [tf] and every flag, is the one it was given. *)
Theorem startCb_already_started
  (lapjv : matrix -> outcome (R * list nat * list nat))
  (shape : list Vec3) (now : R) (st : Mission) :
  M_START st = true ->
  startCb lapjv shape now st
  = (Ret tt, st, [LogWarn "Mission already started!" []]).
Proof.
  intros Hs. unfold startCb, bind, get. rewrite Hs. reflexivity.
Qed.

Lemma startCb_already_started_witness :
  M_START (set_M_START true mission5) = true /\
  startCb lapjv_identity [] 7 (set_M_START true mission5)
  = (Ret tt, set_M_START true mission5, [LogWarn "Mission already started!" []]).
Proof.
  split; [reflexivity |].
  apply (startCb_already_started lapjv_identity [] 7 (set_M_START true mission5)).
  reflexivity.
Defined.

(** ** Land and hold *)

Lemma landCb_run (st : Mission) :
  landCb st
  = (Ret tt,
     set_G_is_set false (set_S_is_set false (set_P_is_set false (set_M_START false st))),
     []).
Proof. reflexivity. Qed.

Lemma holdCb_run (st : Mission) : holdCb st = landCb st.
Proof. reflexivity. Qed.

Lemma tick_idle_complete (st : Mission) :
  M_START st = false -> all (arrival_state st) = true ->
  M_END (state_of (tick st)) = true /\ M_START (state_of (tick st)) = false /\
  events_of (tick st) = [].
Proof.
  intros Hs Ha. unfold tick, isFormationComplete, bind, get, modify, ret, state_of, events_of.
  rewrite Hs. simpl. rewrite Ha. simpl. repeat split.
Qed.

(** C10: [landCb] and [holdCb] clear [M_START], [P_is_set], [S_is_set] and
    [G_is_set] and write nothing else, without raising and without any
    effect; so when every arrival flag is already true, the next pass of
    the control loop sets [M_END] although no mission is started. *)
Theorem land_hold_reset_phase_flags_only (st : Mission) :
  let st' := state_of (landCb st) in
  outcome_of (landCb st) = Ret tt /\ events_of (landCb st) = [] /\
  holdCb st = landCb st /\
  M_START st' = false /\ P_is_set st' = false /\ S_is_set st' = false /\
  G_is_set st' = false /\ same_but_phase st st' /\
  (all (arrival_state st) = true ->
   M_START st' = false /\
   M_END (state_of (tick st')) = true /\
   M_START (state_of (tick st')) = false).
Proof.
  cbv zeta.
  do 7 (split; [reflexivity |]).
  split; [unfold same_but_phase; repeat split |].
  intros Ha.
  destruct (tick_idle_complete
    (set_G_is_set false (set_S_is_set false (set_P_is_set false (set_M_START false st))))
    eq_refl Ha) as (He & Hs & _).
  repeat split; assumption.
Qed.

Lemma land_hold_reset_phase_flags_only_witness :
  all (arrival_state (set_arrival_state [true; true; true; true; true] mission5)) = true /\
  M_END (set_arrival_state [true; true; true; true; true] mission5) = false /\
  M_END (state_of (tick (state_of
    (landCb (set_arrival_state [true; true; true; true; true] mission5))))) = true.
Proof.
  split; [reflexivity | split; [reflexivity |]].
  apply (land_hold_reset_phase_flags_only
           (set_arrival_state [true; true; true; true; true] mission5)).
  reflexivity.
Defined.

(** ** The control loop while the mission is started *)

Lemma tick_started_run (st : Mission) :
  M_START st = true ->
  tick st
  = (Ret tt,
     (if all (arrival_state st)
      then set_G_is_set false (set_S_is_set false (set_P_is_set false
             (set_M_START false (set_M_END true
               (set_formation_completed true (set_M_END false st))))))
      else set_formation_completed false (set_M_END false st)),
     (if negb (all (received_goals st)) then [FormPub (goals_msg st)] else [GoPub])).
Proof.
  intros Hs. unfold tick, isFormationComplete, bind, get, modify, ret, emit.
  rewrite Hs. simpl.
  destruct (all (received_goals st)); simpl;
    destruct (all (arrival_state st)); reflexivity.
Qed.

(** C2: in a pass of the control loop with [M_START] true, the pass does not
    raise; the goals message is published exactly when some [received_goals]
    flag is false and the go signal exactly when all of them are true (one
    of the two, once); and the pass leaves [M_END] true with [M_START],
    [P_is_set], [S_is_set] and [G_is_set] false exactly when every
    [arrival_state] flag is true. *)
Theorem tick_started_barriers (st : Mission) :
  M_START st = true ->
  let st' := state_of (tick st) in
  let ev := events_of (tick st) in
  outcome_of (tick st) = Ret tt /\
  ((exists m, In (FormPub m) ev) <-> Exists (fun b => b = false) (received_goals st)) /\
  (forall m, In (FormPub m) ev -> m = goals_msg st) /\
  (In GoPub ev <-> Forall (fun b => b = true) (received_goals st)) /\
  (M_END st' = true /\ M_START st' = false /\ P_is_set st' = false /\
   S_is_set st' = false /\ G_is_set st' = false
   <-> Forall (fun b => b = true) (arrival_state st)).
Proof.
  intros Hs. cbv zeta. rewrite (tick_started_run st Hs).
  unfold state_of, outcome_of, events_of; simpl.
  rewrite <- all_false_iff, <- !all_true_iff.
  split; [reflexivity |].
  destruct (all (received_goals st)); simpl.
  - split; [split; [intros [m [H | []]]; discriminate | discriminate] |].
    split; [intros m [H | []]; discriminate |].
    split; [split; [reflexivity | intros _; now left] |].
    destruct (all (arrival_state st)); simpl.
    + split; [reflexivity | intros _; repeat split].
    + split; [intros [H _]; exact H | discriminate].
  - split; [split; [reflexivity | intros _; eexists; now left] |].
    split; [intros m [H | []]; congruence |].
    split; [split; [intros [H | []]; discriminate | discriminate] |].
    destruct (all (arrival_state st)); simpl.
    + split; [reflexivity | intros _; repeat split].
    + split; [intros [H _]; exact H | discriminate].
Qed.

Lemma tick_started_barriers_witness :
  M_START (set_M_START true mission5) = true /\
  outcome_of (tick (set_M_START true mission5)) = Ret tt.
Proof.
  split; [reflexivity |].
  apply (tick_started_barriers (set_M_START true mission5)).
  reflexivity.
Defined.

(** ** The cost matrix *)

Lemma np_transpose_rows (S0 : list Vec3) :
  S0 <> [] ->
  np_transpose (map row_list S0) = [map vx S0; map vy S0; map vz S0].
Proof.
  destruct S0 as [|s S0]; [congruence | intros _].
  unfold np_transpose. cbn [map row_list length seq].
  rewrite !map_map. reflexivity.
Qed.

Lemma nth_map_field (f : Vec3 -> R) (S0 : list Vec3) (j : nat) (s : Vec3) :
  nth_error S0 j = Some s -> nth j (map f S0) 0 = f s.
Proof.
  intros H. apply nth_error_nth. rewrite nth_error_map, H. reflexivity.
Qed.

Lemma np_dot_rows_entry (P0 S0 : list Vec3) (i j : nat) (p s : Vec3) :
  nth_error P0 i = Some p -> nth_error S0 j = Some s ->
  exists row,
    nth_error (np_dot (map row_list P0) (np_transpose (map row_list S0))) i = Some row /\
    length row = length S0 /\
    nth_error row j = Some (dot3 p s).
Proof.
  intros Hp Hs.
  assert (Hne : S0 <> []) by (intros ->; destruct j; discriminate).
  assert (Hj : (j < length S0)%nat) by (apply nth_error_Some; congruence).
  rewrite (np_transpose_rows S0 Hne). unfold np_dot.
  rewrite nth_error_map, nth_error_map, Hp. cbn [option_map ncols].
  rewrite length_map.
  eexists. split; [reflexivity |]. split; [now rewrite length_map, length_seq |].
  change (seq 0 (length S0)) with (range (length S0)).
  rewrite (nth_error_map_range _ j (length S0) Hj).
  unfold column. cbn [map row_list dotl].
  rewrite (nth_map_field vx S0 j s Hs), (nth_map_field vy S0 j s Hs),
    (nth_map_field vz S0 j s Hs).
  unfold dot3. f_equal. ring.
Qed.

Lemma cost_matrix_entry (P0 S0 : list Vec3) (i j : nat) (p s : Vec3) :
  nth_error P0 i = Some p -> nth_error S0 j = Some s ->
  exists row,
    nth_error (cost_matrix P0 S0) i = Some row /\
    length row = length S0 /\
    nth_error row j = Some (- dot3 p s).
Proof.
  intros Hp Hs.
  destruct (np_dot_rows_entry P0 S0 i j p s Hp Hs) as (row & Hr & Hl & Hj).
  exists (map (Rmult (-1)) row). unfold cost_matrix, mscale.
  rewrite nth_error_map, Hr, nth_error_map, Hj, length_map. cbn [option_map].
  repeat split; [exact Hl | f_equal; ring].
Qed.

Lemma cost_matrix_length (P0 S0 : list Vec3) :
  length (cost_matrix P0 S0) = length P0.
Proof. unfold cost_matrix, mscale, np_dot. now rewrite !length_map. Qed.

(** ** Validation of the spacing *)

Lemma fle_true (a b : R) : fle a b = true <-> a <= b.
Proof. unfold fle. destruct (Rle_dec a b); split; intros; try assumption; try reflexivity; try discriminate; contradiction. Qed.

Lemma fle_false (a b : R) : fle a b = false <-> a > b.
Proof.
  unfold fle. destruct (Rle_dec a b); split; intros H; try discriminate; try reflexivity.
  - lra.
  - lra.
Qed.

Lemma validate_positions_unfold :
  validate_positions
  = (modify (set_valid_P true) ;;
     modify (set_valid_S true) ;;
     st0 <- get ;;
     for_in (range (n st0))
       (scan_rows P valid_P (set_valid_P false) "Robots %s and %s are not well seperated") ;;
     st1 <- get ;;
     for_in (range (n st1))
       (scan_rows S_array valid_S (set_valid_S false) "Goals %s and %s are not well seperated")).
Proof. reflexivity. Qed.

Lemma scan_row_run (arr : list Vec3) (d : R) (unset : Mission -> Mission) (fmt : string)
  (i : nat) (js : list nat) (s : Mission) :
  (i < length arr)%nat -> (forall j, In j js -> (j < length arr)%nat) ->
  for_in js (scan_row arr d unset fmt i) s
  = match first_close arr d i js with
    | Some j => (Ret tt, unset s, [LogWarn fmt [i; j]])
    | None => (Ret tt, s, [])
    end.
Proof.
  intros Hi. induction js as [|j js IH]; intros Hjs; [reflexivity |].
  assert (Hj : (j < length arr)%nat) by (apply Hjs; now left).
  specialize (IH (fun j' H => Hjs j' (or_intror H))).
  destruct (nth_error arr i) as [pi |] eqn:Epi; [| apply nth_error_None in Epi; lia].
  destruct (nth_error arr j) as [pj |] eqn:Epj; [| apply nth_error_None in Epj; lia].
  assert (Hd : dist arr i j = norm (vsub pi pj)).
  { unfold dist. now rewrite (nth_error_nth _ _ _ Epi), (nth_error_nth _ _ _ Epj). }
  cbn [for_in first_close find]. unfold bind at 1.
  replace (scan_row arr d unset fmt i j s)
    with (if negb (i =? j)%nat && fle (dist arr i j) d
          then (Ret Break, unset s, [LogWarn fmt [i; j]])
          else (Ret Continue, s, @nil event)).
  2:{ unfold scan_row. rewrite Hd. destruct (negb (i =? j)%nat); [| reflexivity].
      unfold bind. rewrite Epi, Epj. cbn. destruct (fle (norm (vsub pi pj)) d); reflexivity. }
  destruct (negb (i =? j)%nat && fle (dist arr i j) d); [reflexivity |].
  rewrite IH. fold (first_close arr d i js).
  destruct (first_close arr d i js); reflexivity.
Qed.

Lemma scan_rows_stopped (arr_of : Mission -> list Vec3) (flag_of : Mission -> bool)
  (unset : Mission -> Mission) (fmt : string) (rows : list nat) (s : Mission) :
  flag_of s = false ->
  for_in rows (scan_rows arr_of flag_of unset fmt) s = (Ret tt, s, []).
Proof.
  intros Hf. destruct rows as [|i rows]; [reflexivity |].
  cbn [for_in]. unfold bind at 1, scan_rows, bind at 1. cbn [get]. rewrite Hf. reflexivity.
Qed.

Lemma scan_rows_run (arr_of : Mission -> list Vec3) (flag_of : Mission -> bool)
  (unset : Mission -> Mission) (fmt : string) (rows : list nat) (s : Mission) :
  flag_of s = true -> flag_of (unset s) = false ->
  (n s <= length (arr_of s))%nat ->
  (forall i, In i rows -> (i < length (arr_of s))%nat) ->
  for_in rows (scan_rows arr_of flag_of unset fmt) s
  = match first_close_pair (arr_of s) (delta s) (n s) rows with
    | Some (i, j) => (Ret tt, unset s, [LogWarn fmt [i; j]])
    | None => (Ret tt, s, [])
    end.
Proof.
  intros Hf Hu Hn. induction rows as [|i rows IH]; intros Hrows; [reflexivity |].
  assert (Hi : (i < length (arr_of s))%nat) by (apply Hrows; now left).
  specialize (IH (fun i' H => Hrows i' (or_intror H))).
  cbn [for_in first_close_pair]. unfold bind at 1.
  replace (scan_rows arr_of flag_of unset fmt i s)
    with (match first_close (arr_of s) (delta s) i (range (n s)) with
          | Some j => (Ret Continue, unset s, [LogWarn fmt [i; j]])
          | None => (Ret Continue, s, @nil event)
          end).
  2:{ unfold scan_rows, bind at 1. cbn [get]. rewrite Hf. cbn [negb].
      unfold bind at 1. rewrite scan_row_run.
      - destruct (first_close (arr_of s) (delta s) i (range (n s))); reflexivity.
      - exact Hi.
      - intros j Hj. apply in_seq in Hj. lia. }
  destruct (first_close (arr_of s) (delta s) i (range (n s))) as [j |].
  - rewrite (scan_rows_stopped arr_of flag_of unset fmt rows (unset s) Hu). reflexivity.
  - rewrite IH. destruct (first_close_pair (arr_of s) (delta s) (n s) rows) as [[i' j'] |];
      reflexivity.
Qed.

Lemma first_close_some (A : list Vec3) (d : R) (i j : nat) (js : list nat) :
  first_close A d i js = Some j -> In j js /\ i <> j /\ dist A i j <= d.
Proof.
  unfold first_close. intros H. apply find_some in H. destruct H as (Hin & Hb).
  apply andb_true_iff in Hb. destruct Hb as (Hne & Hle).
  apply negb_true_iff, Nat.eqb_neq in Hne. apply fle_true in Hle. auto.
Qed.

Lemma first_close_none (A : list Vec3) (d : R) (i : nat) (js : list nat) :
  first_close A d i js = None -> forall j, In j js -> i <> j -> dist A i j > d.
Proof.
  unfold first_close. intros H j Hin Hne.
  pose proof (find_none _ _ H j Hin) as Hb. cbn beta in Hb.
  apply andb_false_iff in Hb. destruct Hb as [Hb | Hb].
  - apply negb_false_iff, Nat.eqb_eq in Hb. contradiction.
  - now apply fle_false.
Qed.

Lemma first_close_pair_some (A : list Vec3) (d : R) (k : nat) (rows : list nat) (i j : nat) :
  first_close_pair A d k rows = Some (i, j) ->
  In i rows /\ (j < k)%nat /\ i <> j /\ dist A i j <= d.
Proof.
  induction rows as [|i0 rows IH]; cbn [first_close_pair]; [discriminate |].
  destruct (first_close A d i0 (range k)) as [j0 |] eqn:E.
  - intros H. injection H as <- <-. apply first_close_some in E.
    destruct E as (Hin & Hne & Hle). apply in_seq in Hin.
    repeat split; [now left | lia | exact Hne | exact Hle].
  - intros H. destruct (IH H) as (Hin & Hr). split; [now right | exact Hr].
Qed.

Lemma first_close_pair_none (A : list Vec3) (d : R) (k : nat) (rows : list nat) :
  first_close_pair A d k rows = None ->
  forall i j, In i rows -> (j < k)%nat -> i <> j -> dist A i j > d.
Proof.
  induction rows as [|i0 rows IH]; cbn [first_close_pair]; [intros _ i j [] |].
  destruct (first_close A d i0 (range k)) as [j0 |] eqn:E; [discriminate |].
  intros H i j [<- | Hin] Hj Hne.
  - apply (first_close_none A d i0 (range k) E); [apply in_seq; lia | exact Hne].
  - now apply IH.
Qed.

(** The flag the two loops compute for an array: no pair of rows is close. *)
Lemma first_close_pair_spec (A : list Vec3) (d : R) (k : nat) :
  (exists ij, first_close_pair A d k (range k) = Some ij) <-> close_pair A d k.
Proof.
  split.
  - intros ([i j] & H). apply first_close_pair_some in H.
    destruct H as (Hi & Hj & Hne & Hle). apply in_seq in Hi.
    exists i, j. repeat split; [lia | exact Hj | exact Hne | exact Hle].
  - intros (i & j & Hi & Hj & Hne & Hle).
    destruct (first_close_pair A d k (range k)) as [ij |] eqn:E; [now exists ij |].
    pose proof (first_close_pair_none A d k (range k) E i j) as H.
    assert (dist A i j > d) by (apply H; [apply in_seq; lia | exact Hj | exact Hne]).
    lra.
Qed.

Lemma separated_false (A : list Vec3) (d : R) (k : nat) :
  separated A d k = false <-> close_pair A d k.
Proof.
  rewrite <- first_close_pair_spec. unfold separated.
  destruct (first_close_pair A d k (range k)) as [ij |].
  - split; [intros _; now exists ij | reflexivity].
  - split; [discriminate | intros (ij & H); discriminate].
Qed.

Lemma separated_true (A : list Vec3) (d : R) (k : nat) :
  separated A d k = true <-> ~ close_pair A d k.
Proof.
  rewrite <- separated_false. destruct (separated A d k); split; congruence.
Qed.

Lemma validate_positions_run (st : Mission) :
  (n st <= length (P st))%nat -> (n st <= length (S_array st))%nat ->
  validate_positions st
  = (Ret tt,
     set_valid_S (separated (S_array st) (delta st) (n st))
       (set_valid_P (separated (P st) (delta st) (n st)) st),
     separation_warning "Robots %s and %s are not well seperated" (P st) (delta st) (n st)
     ++ separation_warning "Goals %s and %s are not well seperated" (S_array st) (delta st) (n st)).
Proof.
  intros HP HS. rewrite validate_positions_unfold.
  unfold bind at 1. cbn [modify]. unfold bind at 1. cbn [modify].
  unfold bind at 1. cbn [get]. unfold bind at 1.
  set (s0 := set_valid_S true (set_valid_P true st)).
  rewrite (scan_rows_run P valid_P (set_valid_P false) _ (range (n s0)) s0);
    [| reflexivity | reflexivity | exact HP | intros i Hi; apply in_seq in Hi; cbn in *; lia].
  change (P s0) with (P st). change (delta s0) with (delta st). change (n s0) with (n st).
  unfold separated, separation_warning.
  destruct (first_close_pair (P st) (delta st) (n st) (range (n st))) as [[i j] |].
  - unfold bind at 1. cbn [get].
    set (s1 := set_valid_P false s0).
    rewrite (scan_rows_run S_array valid_S (set_valid_S false) _ (range (n s1)) s1);
      [| reflexivity | reflexivity | exact HS | intros i' Hi; apply in_seq in Hi; cbn in *; lia].
    change (S_array s1) with (S_array st). change (delta s1) with (delta st).
    change (n s1) with (n st).
    destruct (first_close_pair (S_array st) (delta st) (n st) (range (n st))) as [[i' j'] |];
      reflexivity.
  - unfold bind at 1. cbn [get].
    rewrite (scan_rows_run S_array valid_S (set_valid_S false) _ (range (n s0)) s0);
      [| reflexivity | reflexivity | exact HS | intros i' Hi; apply in_seq in Hi; cbn in *; lia].
    change (S_array s0) with (S_array st). change (delta s0) with (delta st).
    change (n s0) with (n st).
    destruct (first_close_pair (S_array st) (delta st) (n st) (range (n st))) as [[i' j'] |];
      reflexivity.
Qed.

Lemma close_pair_perm_impl (A B : list Vec3) (d : R) :
  Permutation A B -> close_pair B d (length B) -> close_pair A d (length A).
Proof.
  intros HP (i & j & Hi & Hj & Hne & Hle).
  apply Permutation_nth_error in HP. destruct HP as (Hlen & f & Hinj & Hnth).
  assert (Hrow : forall k, (k < length B)%nat ->
                   (f k < length A)%nat /\ nth (f k) A vzero = nth k B vzero).
  { intros k Hk. destruct (nth_error B k) as [b |] eqn:Eb;
      [| apply nth_error_None in Eb; lia].
    rewrite Hnth in Eb. split.
    - apply nth_error_Some. congruence.
    - rewrite (nth_error_nth _ _ _ Eb).
      rewrite <- Hnth in Eb. now rewrite (nth_error_nth _ _ _ Eb). }
  destruct (Hrow i Hi) as (Hfi & Ei). destruct (Hrow j Hj) as (Hfj & Ej).
  exists (f i), (f j). repeat split; [exact Hfi | exact Hfj | |].
  - intros Heq. apply Hne. now apply Hinj.
  - unfold dist in *. rewrite Ei, Ej. exact Hle.
Qed.

Lemma separated_perm (A B : list Vec3) (d : R) :
  Permutation A B -> separated B d (length B) = separated A d (length A).
Proof.
  intros HP.
  destruct (separated A d (length A)) eqn:EA.
  - apply separated_true. apply separated_true in EA. intros HB. apply EA.
    now apply (close_pair_perm_impl A B).
  - apply separated_false. apply separated_false in EA.
    apply (close_pair_perm_impl B A); [now apply Permutation_sym | exact EA].
Qed.

(** C5: [__init__] sets [delta] to [2 * sqrt 2 * R] and validation does not
    change it; on an object whose arrays have [n] rows, validation returns
    without raising, clears [valid_P] exactly when two different start
    positions are at a distance [<= delta] and [valid_S] exactly when two
    different slots are, so that the configuration is invalid exactly when
    some pair [i <> j] has [dist P i j <= delta] or [dist S i j <= delta] (a
    pair at exactly [delta] is rejected, a configuration whose pairs are all
    strictly farther apart is accepted), every rejection comes with a
    warning, and the two flags do not change when the rows of [P] are
    permuted. *)
Theorem validate_positions_spacing (st : Mission) :
  length (P st) = n st -> length (S_array st) = n st ->
  let st' := state_of (validate_positions st) in
  outcome_of (validate_positions st) = Ret tt /\
  (forall prm, delta (Mission_init prm) = 2 * sqrt 2 * param_R prm) /\
  delta st' = delta st /\
  (valid_P st' = false <-> close_pair (P st) (delta st) (n st)) /\
  (valid_S st' = false <-> close_pair (S_array st) (delta st) (n st)) /\
  (valid_S st' && valid_P st' = false <->
   exists i j, (i < n st)%nat /\ (j < n st)%nat /\ i <> j /\
     (dist (P st) i j <= delta st \/ dist (S_array st) i j <= delta st)) /\
  ((forall i j, (i < n st)%nat -> (j < n st)%nat -> i <> j ->
      dist (P st) i j > delta st /\ dist (S_array st) i j > delta st) ->
   valid_S st' && valid_P st' = true) /\
  (valid_S st' && valid_P st' = false -> events_of (validate_positions st) <> []) /\
  (forall st2, Permutation (P st) (P st2) -> n st2 = n st -> delta st2 = delta st ->
     S_array st2 = S_array st ->
     valid_P (state_of (validate_positions st2)) = valid_P st' /\
     valid_S (state_of (validate_positions st2)) = valid_S st').
Proof.
  intros HP HS. cbv zeta.
  rewrite (validate_positions_run st) by lia.
  unfold state_of, outcome_of, events_of. cbn [fst snd].
  cbn [valid_P valid_S delta set_valid_P set_valid_S].
  split; [reflexivity |]. split; [reflexivity |]. split; [reflexivity |].
  split; [apply separated_false |]. split; [apply separated_false |].
  assert (Hinv : separated (S_array st) (delta st) (n st)
                 && separated (P st) (delta st) (n st) = false <->
                 exists i j, (i < n st)%nat /\ (j < n st)%nat /\ i <> j /\
                   (dist (P st) i j <= delta st \/ dist (S_array st) i j <= delta st)).
  { rewrite andb_false_iff, !separated_false. unfold close_pair. split.
    - intros [(i & j & Hi & Hj & Hne & Hle) | (i & j & Hi & Hj & Hne & Hle)];
        exists i, j; auto.
    - intros (i & j & Hi & Hj & Hne & [Hle | Hle]); [right | left]; exists i, j; auto. }
  split; [exact Hinv |]. split; [| split].
  - intros Hfar.
    apply not_false_is_true. intros E. apply Hinv in E. destruct E as (i & j & Hi & Hj & Hne & Hle).
    destruct (Hfar i j Hi Hj Hne) as (H1 & H2). destruct Hle; lra.
  - unfold separated, separation_warning.
    destruct (first_close_pair (P st) (delta st) (n st) (range (n st))) as [[i j] |];
      [intros _; discriminate |].
    destruct (first_close_pair (S_array st) (delta st) (n st) (range (n st))) as [[i j] |];
      [intros _; discriminate | discriminate].
  - intros st2 Hperm Hn Hd HS2.
    assert (HP2 : length (P st2) = n st2)
      by (rewrite <- (Permutation_length Hperm); congruence).
    rewrite (validate_positions_run st2) by (rewrite ?HS2; lia).
    cbn [fst snd valid_P valid_S set_valid_P set_valid_S].
    rewrite HS2, Hd, Hn. split; [| reflexivity].
    pose proof (separated_perm (P st) (P st2) (delta st) Hperm) as Hs.
    rewrite <- (Permutation_length Hperm), HP in Hs. exact Hs.
Qed.

Lemma validate_positions_spacing_witness :
  length (P ready5) = n ready5 /\ length (S_array ready5) = n ready5 /\
  (valid_P (state_of (validate_positions ready5)) = false
   <-> close_pair (P ready5) (delta ready5) (n ready5)).
Proof.
  split; [reflexivity |]. split; [reflexivity |].
  apply (validate_positions_spacing ready5); reflexivity.
Defined.

(** ** What a program leaves unchanged *)

Section Preservation.

Variable I : Mission -> Prop.

Lemma preserves_ret {A : Type} (a : A) : preserves I (ret a).
Proof. intros s Hs. exact Hs. Qed.

Lemma preserves_raise {A : Type} (e : exn) : preserves I (@raise Mission event A e).
Proof. intros s Hs. exact Hs. Qed.

Lemma preserves_get : preserves I get.
Proof. intros s Hs. exact Hs. Qed.

Lemma preserves_emit (e : event) : preserves I (emit e).
Proof. intros s Hs. exact Hs. Qed.

Lemma preserves_modify (f : Mission -> Mission) :
  (forall s, I s -> I (f s)) -> preserves I (modify f).
Proof. intros Hf s Hs. apply Hf, Hs. Qed.

Lemma preserves_index_or_raise {A : Type} (o : option A) :
  preserves I (index_or_raise o).
Proof. destruct o; intros s Hs; exact Hs. Qed.

Lemma preserves_call {A : Type} (o : outcome A) : preserves I (call o).
Proof. destruct o; intros s Hs; exact Hs. Qed.

Lemma preserves_bind {A B : Type} (m : mprog A) (k : A -> mprog B) :
  preserves I m -> (forall a, preserves I (k a)) -> preserves I (bind m k).
Proof.
  intros Hm Hk s Hs. unfold bind, state_of.
  specialize (Hm s Hs). unfold state_of in Hm.
  destruct (m s) as [[[a | e] s1] ev1]; cbn [fst snd] in *; [| exact Hm].
  specialize (Hk a s1 Hm). unfold state_of in Hk.
  destruct (k a s1) as [[r s2] ev2]. exact Hk.
Qed.

Lemma preserves_for_in (l : list nat) (body : nat -> mprog ctl) :
  (forall i, preserves I (body i)) -> preserves I (for_in l body).
Proof.
  intros Hb. induction l as [|i l IH]; cbn [for_in]; [apply preserves_ret |].
  apply preserves_bind; [apply Hb |].
  intros [|]; [exact IH | apply preserves_ret].
Qed.

Lemma preserves_for_acc {A : Type} (l : list nat) (acc : A) (body : nat -> A -> mprog A) :
  (forall i a, preserves I (body i a)) -> preserves I (for_acc l acc body).
Proof.
  intros Hb. revert acc. induction l as [|i l IH]; intros acc; cbn [for_acc];
    [apply preserves_ret |].
  apply preserves_bind; [apply Hb | intros a; apply IH].
Qed.

End Preservation.

Ltac preserve :=
  repeat first
    [ apply preserves_bind; [| intros ?]
    | apply preserves_for_in; intros ?
    | apply preserves_for_acc; intros ? ?
    | apply preserves_ret
    | apply preserves_raise
    | apply preserves_get
    | apply preserves_emit
    | apply preserves_index_or_raise
    | apply preserves_call
    | match goal with
      | |- preserves _ (if ?b then _ else _) => destruct b
      | |- preserves _ (match ?o with Ret _ => _ | Raise _ => _ end) => destruct o
      | |- preserves _ (match ?l with [] => _ | _ :: _ => _ end) => destruct l
      end ].

Lemma validate_positions_frame (st : Mission) :
  same_but_valid st (state_of (validate_positions st)).
Proof.
  assert (H : preserves (same_but_valid st) validate_positions).
  { unfold validate_positions, logwarn. preserve;
      apply preserves_modify; intros s Hs; exact Hs. }
  apply H. unfold same_but_valid. repeat split.
Qed.

(** ** The start command when the mission is not started *)

Lemma startCb_not_started (lapjv : matrix -> outcome (R * list nat * list nat))
  (shape : list Vec3) (now : R) (st : Mission) :
  M_START st = false ->
  startCb lapjv shape now st
  = match validate_positions (snapshot shape st) with
    | (Ret _, s, ev) =>
        (if valid_S s then Raise (NameError "valid_P") else Ret tt, s, ev ++ [])
    | (Raise e, s, ev) => (Raise e, s, ev)
    end.
Proof.
  intros Hs. unfold startCb. unfold bind at 1. cbn [get]. rewrite Hs.
  unfold bind at 1. unfold set_start_posCb at 1, bind at 1. cbn [get].
  unfold bind at 1. cbn [modify app].
  unfold bind at 1. unfold set_desired_formation at 1, bind at 1. cbn [modify].
  unfold bind at 1. cbn [modify app].
  unfold bind at 1. fold (snapshot shape st).
  destruct (validate_positions (snapshot shape st)) as [[[[] | e] s] ev];
    [| reflexivity].
  unfold bind at 1. cbn [get]. unfold bind at 1.
  destruct (valid_S s); reflexivity.
Qed.

Lemma startCb_not_started_state (lapjv : matrix -> outcome (R * list nat * list nat))
  (shape : list Vec3) (now : R) (st : Mission) :
  M_START st = false ->
  state_of (startCb lapjv shape now st) = state_of (validate_positions (snapshot shape st)).
Proof.
  intros Hs. rewrite (startCb_not_started lapjv shape now st Hs). unfold state_of.
  destruct (validate_positions (snapshot shape st)) as [[[[] | e] s] ev]; reflexivity.
Qed.

(** With [M_START] false and a shape whose [n] slots are well separated,
    [startCb] raises NameError on the name [valid_P] after the validation:
    the assignment is not computed and [M_START] stays false. *)
Lemma startCb_raises_on_valid_shape (lapjv : matrix -> outcome (R * list nat * list nat))
  (shape : list Vec3) (now : R) (st : Mission) :
  M_START st = false ->
  length (current_P st) = n st -> length shape = n st ->
  ~ close_pair shape (delta st) (n st) ->
  outcome_of (startCb lapjv shape now st) = Raise (NameError "valid_P").
Proof.
  intros Hs HP HS Hsep. rewrite (startCb_not_started lapjv shape now st Hs).
  rewrite (validate_positions_run (snapshot shape st)) by (cbn; lia).
  cbn [valid_S set_valid_S S_array snapshot set_S_is_set set_S_array delta n
       set_S_param set_P_is_set set_P].
  apply separated_true in Hsep. rewrite Hsep. reflexivity.
Qed.

Lemma warnings_only (fmt1 fmt2 : string) (A B : list Vec3) (d : R) (k : nat) :
  Forall is_warning (separation_warning fmt1 A d k ++ separation_warning fmt2 B d k).
Proof.
  apply Forall_app. unfold separation_warning. split.
  - destruct (first_close_pair A d k (range k)) as [[i j] |]; repeat constructor.
  - destruct (first_close_pair B d k (range k)) as [[i j] |]; repeat constructor.
Qed.

(** C3 (as the code has it): with [M_START] false, a start command on a
    configuration that fails validation leaves [M_START] false, does not
    touch the goals [G], the goals message with its [tf], [G_is_set],
    [M_END], the current positions or the per-robot flags, and performs no
    effect other than warnings, at least one; but it does write the mission
    object: [P] becomes the snapshot of the current positions, the shape is
    reloaded, [P_is_set] and [S_is_set] become true and [valid_P], [valid_S]
    hold the verdict of the validation. *)
Theorem startCb_invalid_configuration
  (lapjv : matrix -> outcome (R * list nat * list nat))
  (shape : list Vec3) (now : R) (st : Mission) :
  M_START st = false ->
  length (current_P st) = n st -> length shape = n st ->
  close_pair (current_P st) (delta st) (n st) \/ close_pair shape (delta st) (n st) ->
  let st' := state_of (startCb lapjv shape now st) in
  let ev := events_of (startCb lapjv shape now st) in
  M_START st' = false /\ same_but_snapshot st st' /\
  P st' = current_P st /\ S_param st' = shape /\ S_array st' = shape /\
  P_is_set st' = true /\ S_is_set st' = true /\
  (valid_P st' = false <-> close_pair (current_P st) (delta st) (n st)) /\
  (valid_S st' = false <-> close_pair shape (delta st) (n st)) /\
  valid_S st' && valid_P st' = false /\
  ev <> [] /\ Forall is_warning ev.
Proof.
  intros Hs HP HS Hbad. cbv zeta.
  rewrite (startCb_not_started lapjv shape now st Hs).
  rewrite (validate_positions_run (snapshot shape st)) by (cbn; lia).
  unfold state_of, events_of. cbn [fst snd].
  cbn [valid_S valid_P set_valid_S set_valid_P S_array P snapshot set_S_is_set
       set_S_array delta n set_S_param set_P_is_set set_P M_START P_is_set
       S_is_set S_param].
  split; [exact Hs |]. split; [unfold same_but_snapshot; repeat split |].
  do 5 (split; [reflexivity |]).
  split; [apply separated_false |]. split; [apply separated_false |].
  assert (Hv : separated shape (delta st) (n st)
               && separated (current_P st) (delta st) (n st) = false).
  { apply andb_false_iff. rewrite !separated_false. tauto. }
  split; [exact Hv |]. rewrite app_nil_r. split; [| apply warnings_only].
  apply andb_false_iff in Hv. unfold separated, separation_warning in *.
  destruct (first_close_pair (current_P st) (delta st) (n st) (range (n st))) as [[i j] |];
    [discriminate |].
  destruct (first_close_pair shape (delta st) (n st) (range (n st))) as [[i j] |];
    [discriminate | destruct Hv; discriminate].
Qed.

Lemma startCb_sets_flags (lapjv : matrix -> outcome (R * list nat * list nat))
  (shape : list Vec3) (now : R) (st : Mission) :
  M_START st = false ->
  P_is_set (state_of (startCb lapjv shape now st)) = true /\
  S_is_set (state_of (startCb lapjv shape now st)) = true /\
  M_START (state_of (startCb lapjv shape now st)) = false /\
  M_END (state_of (startCb lapjv shape now st)) = M_END st /\
  arrival_state (state_of (startCb lapjv shape now st)) = arrival_state st.
Proof.
  intros Hs. rewrite (startCb_not_started_state lapjv shape now st Hs).
  pose proof (validate_positions_frame (snapshot shape st)) as H.
  unfold same_but_valid in H.
  destruct H as (_ & _ & _ & _ & _ & _ & _ & _ & _ & _ & _ & _ & Ha & _ & _ & HP & HS & _ & HM & HE & _).
  rewrite HP, HS, HM, HE, Ha. cbn. auto.
Qed.

Lemma norm_vsub_same (a : Vec3) : norm (vsub a a) = 0.
Proof.
  unfold norm, vsub. cbn [vx vy vz].
  replace ((vx a - vx a) * (vx a - vx a) + (vy a - vy a) * (vy a - vy a)
           + (vz a - vz a) * (vz a - vz a)) with 0 by ring.
  apply sqrt_0.
Qed.

Lemma delta_mission5 : delta mission5 = sqrt 2.
Proof. cbn. field. Qed.

Lemma close_pair_zeros5 : close_pair (np_zeros 5) (delta mission5) 5.
Proof.
  exists 0%nat, 1%nat. repeat split; [lia | lia | discriminate |].
  unfold dist. cbn [np_zeros repeat nth]. rewrite norm_vsub_same, delta_mission5.
  apply sqrt_pos.
Qed.

Lemma startCb_invalid_configuration_witness :
  M_START mission5 = false /\
  close_pair (current_P mission5) (delta mission5) (n mission5) /\
  P_is_set (state_of (startCb lapjv_identity line5 0 mission5)) = true.
Proof.
  split; [reflexivity |]. split; [exact close_pair_zeros5 |].
  apply (startCb_invalid_configuration lapjv_identity line5 0 mission5);
    [reflexivity | reflexivity | reflexivity | left; exact close_pair_zeros5].
Defined.

(** C3 (as stated) fails: on the mission object [__init__] builds for five
    robots, none of which has reported a position yet, the start command
    with a shape whose slots coincide returns without raising and leaves
    [P_is_set] and [S_is_set] true, so the object has changed. *)
Lemma startCb_invalid_changes_state :
  M_START mission5 = false /\
  close_pair heap5 (delta mission5) (n mission5) /\
  outcome_of (startCb lapjv_identity heap5 0 mission5) = Ret tt /\
  P_is_set mission5 = false /\
  P_is_set (state_of (startCb lapjv_identity heap5 0 mission5)) = true /\
  S_is_set mission5 = false /\
  S_is_set (state_of (startCb lapjv_identity heap5 0 mission5)) = true /\
  state_of (startCb lapjv_identity heap5 0 mission5) <> mission5.
Proof.
  assert (Hs : M_START mission5 = false) by reflexivity.
  destruct (startCb_sets_flags lapjv_identity heap5 0 mission5 Hs) as (HP & HS & _).
  split; [exact Hs |]. split; [exact close_pair_zeros5 |]. split.
  { rewrite (startCb_not_started lapjv_identity heap5 0 mission5 Hs).
    rewrite (validate_positions_run (snapshot heap5 mission5)) by (cbn; lia).
    cbn [valid_S set_valid_S S_array snapshot set_S_is_set set_S_array delta n
         set_S_param set_P_is_set set_P].
    assert (E : separated heap5 (delta mission5) (n mission5) = false)
      by (apply separated_false; exact close_pair_zeros5).
    rewrite E. reflexivity. }
  split; [reflexivity |]. split; [exact HP |]. split; [reflexivity |].
  split; [exact HS |].
  intros Heq. rewrite Heq in HP. discriminate HP.
Qed.

(** ** The flags along the runs of the node *)

Lemma robotCb_flags (i : nat) (msg : RobotState) (st : Mission) :
  M_START (state_of (robotCb i msg st)) = M_START st /\
  M_END (state_of (robotCb i msg st)) = M_END st.
Proof.
  assert (H : preserves (fun s => M_START s = M_START st /\ M_END s = M_END st)
                (robotCb i msg)).
  { unfold robotCb. preserve; apply preserves_modify; intros s Hs; exact Hs. }
  apply H. split; reflexivity.
Qed.

Lemma tick_stopped_run (st : Mission) :
  M_START st = false ->
  tick st
  = (Ret tt,
     (if all (arrival_state st)
      then set_G_is_set false (set_S_is_set false (set_P_is_set false
             (set_M_START false (set_M_END true (set_formation_completed true st)))))
      else set_formation_completed false st),
     []).
Proof.
  intros Hs. unfold tick, isFormationComplete, bind, get, modify, ret, emit.
  rewrite Hs. cbn. destruct (all (arrival_state st)); reflexivity.
Qed.

Lemma tick_flags (st : Mission) :
  (M_START st = false -> M_START (state_of (tick st)) = false) /\
  (M_END st = false -> M_END (state_of (tick st)) = true ->
   all (arrival_state st) = true) /\
  arrival_state (state_of (tick st)) = arrival_state st.
Proof.
  destruct (M_START st) eqn:Hs.
  - rewrite (tick_started_run st Hs). unfold state_of. cbn [fst snd].
    destruct (all (arrival_state st)); cbn; repeat split; congruence.
  - rewrite (tick_stopped_run st Hs). unfold state_of. cbn [fst snd].
    destruct (all (arrival_state st)); cbn; repeat split; congruence.
Qed.

Lemma react_keeps_stopped (lapjv : matrix -> outcome (R * list nat * list nat))
  (i : input) (st : Mission) :
  M_START st = false -> M_START (state_of (react lapjv i st)) = false.
Proof.
  intros Hs. destruct i as [| shape now | | | msg | msg | msg | msg | msg]; cbn [react].
  - apply tick_flags, Hs.
  - apply (startCb_sets_flags lapjv shape now st Hs).
  - reflexivity.
  - reflexivity.
  - unfold r0Cb. now rewrite (proj1 (robotCb_flags 0 msg st)).
  - unfold r1Cb. now rewrite (proj1 (robotCb_flags 1 msg st)).
  - unfold r2Cb. now rewrite (proj1 (robotCb_flags 2 msg st)).
  - unfold r3Cb. now rewrite (proj1 (robotCb_flags 3 msg st)).
  - unfold r4Cb. now rewrite (proj1 (robotCb_flags 4 msg st)).
Qed.

Lemma run_keeps_stopped (lapjv : matrix -> outcome (R * list nat * list nat))
  (l : list input) (st : Mission) :
  M_START st = false -> M_START (run lapjv l st) = false.
Proof.
  revert st. induction l as [|i l IH]; intros st Hs; [exact Hs |].
  cbn [run]. apply IH, react_keeps_stopped, Hs.
Qed.

Lemma react_sets_M_END (lapjv : matrix -> outcome (R * list nat * list nat))
  (i : input) (st : Mission) :
  M_START st = false -> M_END st = false ->
  M_END (state_of (react lapjv i st)) = true ->
  i = Tick /\ all (arrival_state st) = true /\
  arrival_state (state_of (react lapjv i st)) = arrival_state st.
Proof.
  intros Hs He Ht.
  destruct i as [| shape now | | | msg | msg | msg | msg | msg]; cbn [react] in *.
  - destruct (tick_flags st) as (_ & H & Ha). auto.
  - destruct (startCb_sets_flags lapjv shape now st Hs) as (_ & _ & _ & HE & _). congruence.
  - cbn in Ht. congruence.
  - cbn in Ht. congruence.
  - unfold r0Cb in Ht. rewrite (proj2 (robotCb_flags 0 msg st)) in Ht. congruence.
  - unfold r1Cb in Ht. rewrite (proj2 (robotCb_flags 1 msg st)) in Ht. congruence.
  - unfold r2Cb in Ht. rewrite (proj2 (robotCb_flags 2 msg st)) in Ht. congruence.
  - unfold r3Cb in Ht. rewrite (proj2 (robotCb_flags 3 msg st)) in Ht. congruence.
  - unfold r4Cb in Ht. rewrite (proj2 (robotCb_flags 4 msg st)) in Ht. congruence.
Qed.

(** C4 (as the code has it): in every state the node reaches,
    [M_START] and [M_END] are not both true; [M_END] turns true only
    in a pass of the control loop in which every [arrival_state] flag is
    true, the pass leaving these flags as they are; and no pass of the
    control loop, from any state, ends with both [M_START] and [M_END]
    true.  Nothing clears [M_END] when a robot reports later that it has
    not arrived. *)
Theorem mission_flags_invariant
  (lapjv : matrix -> outcome (R * list nat * list nat)) (st : Mission) :
  reachable lapjv st ->
  ~ (M_START st = true /\ M_END st = true) /\
  (forall i : input,
     M_END st = false -> M_END (state_of (react lapjv i st)) = true ->
     i = Tick /\ all (arrival_state st) = true /\
     arrival_state (state_of (react lapjv i st)) = arrival_state st) /\
  (forall s : Mission,
     ~ (M_START (state_of (tick s)) = true /\ M_END (state_of (tick s)) = true)).
Proof.
  intros (prm & l & ->).
  assert (Hs : M_START (run lapjv l (Mission_init prm)) = false)
    by (apply run_keeps_stopped; reflexivity).
  split; [intros (H & _); congruence |]. split.
  - intros i. apply react_sets_M_END, Hs.
  - intros s. destruct (M_START s) eqn:E.
    + rewrite (tick_started_run s E). unfold state_of. cbn [fst snd].
      destruct (all (arrival_state s)); cbn; intros (H1 & H2); congruence.
    + rewrite (tick_stopped_run s E). unfold state_of. cbn [fst snd].
      destruct (all (arrival_state s)); cbn; intros (H1 & H2); congruence.
Qed.

Lemma mission_flags_invariant_witness :
  reachable lapjv_identity (run lapjv_identity arrive_then_leave mission5) /\
  ~ (M_START (run lapjv_identity arrive_then_leave mission5) = true /\
     M_END (run lapjv_identity arrive_then_leave mission5) = true).
Proof.
  assert (Hr : reachable lapjv_identity (run lapjv_identity arrive_then_leave mission5))
    by (exists params5, arrive_then_leave; reflexivity).
  split; [exact Hr |].
  exact (proj1 (mission_flags_invariant lapjv_identity _ Hr)).
Defined.

(** C4 (as stated) fails: after the five robots have reported their arrival
    and the control loop has run once, [M_END] is true; robot 0 then reports
    that it has not arrived, and the node is in a state where [M_END] is
    true and an [arrival_state] flag is false. *)
Lemma ended_without_all_arrived :
  reachable lapjv_identity (run lapjv_identity arrive_then_leave mission5) /\
  M_END (run lapjv_identity arrive_then_leave mission5) = true /\
  arrival_state (run lapjv_identity arrive_then_leave mission5)
  = [false; true; true; true; true] /\
  all (arrival_state (run lapjv_identity arrive_then_leave mission5)) = false.
Proof.
  split; [exists params5, arrive_then_leave; reflexivity |].
  repeat split.
Qed.

(** ** The assignment *)

Lemma list_set_upd {A : Type} (l : list A) (i : nat) (v : A) :
  (i < length l)%nat -> list_set l i v = Some (list_upd l i v).
Proof.
  unfold list_upd. revert i. induction l as [|a l IH]; intros i Hi; cbn in Hi; [lia |].
  destruct i as [|i]; cbn [list_set]; [reflexivity |].
  specialize (IH i ltac:(lia)). destruct (list_set l i v); [reflexivity | discriminate].
Qed.

Lemma list_upd_cons {A : Type} (a : A) (l : list A) (i : nat) (v : A) :
  list_upd (a :: l) (S i) v = a :: list_upd l i v.
Proof. unfold list_upd. cbn [list_set]. destruct (list_set l i v); reflexivity. Qed.

Lemma list_upd_length {A : Type} (l : list A) (i : nat) (v : A) :
  length (list_upd l i v) = length l.
Proof.
  revert i. induction l as [|a l IH]; intros i; [reflexivity |].
  destruct i as [|i]; [reflexivity |]. rewrite list_upd_cons. cbn. now rewrite IH.
Qed.

Lemma list_upd_same {A : Type} (l : list A) (i : nat) (v : A) :
  (i < length l)%nat -> nth_error (list_upd l i v) i = Some v.
Proof.
  revert i. induction l as [|a l IH]; intros i Hi; cbn in Hi; [lia |].
  destruct i as [|i]; [reflexivity |]. rewrite list_upd_cons. cbn. apply IH. lia.
Qed.

Lemma list_upd_other {A : Type} (l : list A) (i j : nat) (v : A) :
  i <> j -> nth_error (list_upd l i v) j = nth_error l j.
Proof.
  revert i j. induction l as [|a l IH]; intros i j Hne; [reflexivity |].
  destruct i as [|i].
  - destruct j as [|j]; [congruence | reflexivity].
  - rewrite list_upd_cons. destruct j as [|j]; [reflexivity |]. cbn. apply IH. congruence.
Qed.

Lemma compute_assignment_unfold (lapjv : matrix -> outcome (R * list nat * list nat))
  (now : R) :
  compute_assignment lapjv now
  = (st <- get ;;
     K <- match S_array st with
          | [] => raise ValueError
          | _ => ret (cost_matrix (P st) (S_array st))
          end ;;
     logwarn "Solving Assignement Problem...." [] ;;
     sol <- call (lapjv K) ;;
     logwarn "Assignment is solved in %s seconds" [] ;;
     tf0 <- for_acc (range (n st)) 0 (assign_body (snd (fst sol))) ;;
     st3 <- get ;;
     modify (set_goals_msg (with_tf tf0 (goals_msg st3))) ;;
     st4 <- get ;;
     modify (set_goals_msg (with_stamp now (goals_msg st4))) ;;
     modify (set_G_is_set true)).
Proof. reflexivity. Qed.

Lemma assign_body_run (x : list nat) (i : nat) (t : R) (s : Mission) :
  (i < length x)%nat -> (nth i x O < length (S_array s))%nat ->
  (i < length (G s))%nat -> (i < length (goals (goals_msg s)))%nat ->
  (i < length (P s))%nat ->
  assign_body x i t s
  = (Ret (later t (travel_time (P s) (S_array s) x (vmax s) i)), assign_step x s i, []).
Proof.
  intros Hx HS HG Hg HP.
  destruct (nth_error x i) as [xi |] eqn:Ex; [| apply nth_error_None in Ex; lia].
  assert (Exi : nth i x O = xi) by (now apply nth_error_nth).
  rewrite Exi in HS.
  destruct (nth_error (S_array s) xi) as [row |] eqn:Er; [| apply nth_error_None in Er; lia].
  assert (Erow : goal_of (S_array s) x i = row).
  { unfold goal_of. rewrite Exi. now apply nth_error_nth. }
  destruct (nth_error (P s) i) as [pi |] eqn:Ep; [| apply nth_error_None in Ep; lia].
  assert (Epi : nth i (P s) vzero = pi) by (now apply nth_error_nth).
  unfold assign_body, assign_step, travel_time, later. rewrite Erow, Epi.
  unfold bind at 1. cbn [get]. unfold bind at 1. rewrite Ex. cbn [index_or_raise ret].
  unfold bind at 1. rewrite Er. cbn [index_or_raise ret].
  unfold bind at 1. rewrite (list_set_upd (G s) i row HG). cbn [index_or_raise ret].
  unfold bind at 1. cbn [modify]. unfold bind at 1. cbn [get].
  unfold bind at 1. cbn [G set_G]. rewrite (list_upd_same (G s) i row HG).
  cbn [index_or_raise ret]. unfold bind at 1. cbn [goals_msg set_G].
  rewrite (list_set_upd (goals (goals_msg s)) i _ Hg). cbn [index_or_raise ret].
  unfold bind at 1. cbn [modify]. unfold bind at 1. cbn [P set_G set_goals_msg].
  rewrite Ep. cbn [index_or_raise ret vmax set_G app]. reflexivity.
Qed.

Lemma assign_loop_run (x : list nat) (l : list nat) (t : R) (s : Mission) :
  (forall i, In i l ->
     (i < length x)%nat /\ (nth i x O < length (S_array s))%nat /\
     (i < length (G s))%nat /\ (i < length (goals (goals_msg s)))%nat /\
     (i < length (P s))%nat) ->
  for_acc l t (assign_body x) s
  = (Ret (fold_left (fun t i => later t (travel_time (P s) (S_array s) x (vmax s) i)) l t),
     fold_left (assign_step x) l s, []).
Proof.
  revert t s. induction l as [|i l IH]; intros t s Hl; [reflexivity |].
  destruct (Hl i (or_introl eq_refl)) as (Hx & HS & HG & Hg & HP).
  cbn [for_acc fold_left]. unfold bind at 1.
  rewrite (assign_body_run x i t s Hx HS HG Hg HP).
  rewrite IH.
  - reflexivity.
  - intros j Hj. destruct (Hl j (or_intror Hj)) as (Hx' & HS' & HG' & Hg' & HP').
    cbn [S_array G goals_msg goals P assign_step set_goals_msg set_G with_goals].
    rewrite !list_upd_length. auto.
Qed.

Lemma assign_fold_frame (x : list nat) (l : list nat) (s : Mission) :
  let s' := fold_left (assign_step x) l s in
  P s' = P s /\ S_array s' = S_array s /\ vmax s' = vmax s /\ n s' = n s /\
  tf (goals_msg s') = tf (goals_msg s) /\ stamp (goals_msg s') = stamp (goals_msg s) /\
  length (G s') = length (G s) /\
  length (goals (goals_msg s')) = length (goals (goals_msg s)).
Proof.
  revert s. induction l as [|i l IH]; intros s; cbn [fold_left]; [repeat split |].
  destruct (IH (assign_step x s i)) as (H1 & H2 & H3 & H4 & H5 & H6 & H7 & H8).
  cbv zeta. rewrite H1, H2, H3, H4, H5, H6, H7, H8.
  cbn [S_array G goals_msg goals P assign_step set_goals_msg set_G with_goals vmax n tf stamp].
  rewrite !list_upd_length. repeat split.
Qed.

Lemma assign_fold_goal (x : list nat) (l : list nat) (s : Mission) (i : nat) :
  (i < length (G s))%nat -> (i < length (goals (goals_msg s)))%nat ->
  let s' := fold_left (assign_step x) l s in
  (In i l ->
   nth_error (G s') i = Some (goal_of (S_array s) x i) /\
   nth_error (goals (goals_msg s')) i = Some (point_of (goal_of (S_array s) x i))) /\
  (~ In i l ->
   nth_error (G s') i = nth_error (G s) i /\
   nth_error (goals (goals_msg s')) i = nth_error (goals (goals_msg s)) i).
Proof.
  revert s. induction l as [|a l IH]; intros s HG Hg; cbn [fold_left].
  - split; [intros [] | intros _; split; reflexivity].
  - assert (HG1 : (i < length (G (assign_step x s a)))%nat)
      by (cbn [G assign_step set_goals_msg set_G]; now rewrite list_upd_length).
    assert (Hg1 : (i < length (goals (goals_msg (assign_step x s a))))%nat)
      by (cbn [goals goals_msg assign_step set_goals_msg set_G with_goals];
          now rewrite list_upd_length).
    destruct (IH (assign_step x s a) HG1 Hg1) as (Hin & Hout).
    change (S_array (assign_step x s a)) with (S_array s) in Hin.
    cbv zeta. split.
    + intros Hi. destruct (in_dec Nat.eq_dec i l) as [Hl | Hl]; [exact (Hin Hl) |].
      destruct Hi as [-> | Hi]; [| contradiction].
      destruct (Hout Hl) as (E1 & E2). rewrite E1, E2.
      cbn [G goals goals_msg assign_step set_goals_msg set_G with_goals].
      split; apply list_upd_same; assumption.
    + intros Hni. assert (Hne : a <> i) by (intros ->; apply Hni; now left).
      destruct (Hout (fun H => Hni (or_intror H))) as (E1 & E2). rewrite E1, E2.
      cbn [G goals goals_msg assign_step set_goals_msg set_G with_goals].
      split; apply list_upd_other; exact Hne.
Qed.

Lemma later_fold_ge (v : nat -> R) (l : list nat) (t : R) :
  t <= fold_left (fun t i => later t (v i)) l t /\
  forall i, In i l -> v i <= fold_left (fun t i => later t (v i)) l t.
Proof.
  revert t. induction l as [|a l IH]; intros t; cbn [fold_left].
  - split; [lra | intros i []].
  - destruct (IH (later t (v a))) as (Hge & Hall).
    assert (Hl : t <= later t (v a) /\ v a <= later t (v a)).
    { unfold later, fgt. destruct (Rgt_dec (v a) t); lra. }
    split; [lra |]. intros i [<- | Hi]; [lra | now apply Hall].
Qed.

Lemma later_fold_attained (v : nat -> R) (l : list nat) (t : R) :
  fold_left (fun t i => later t (v i)) l t = t \/
  exists i, In i l /\ fold_left (fun t i => later t (v i)) l t = v i.
Proof.
  revert t. induction l as [|a l IH]; intros t; cbn [fold_left]; [now left |].
  destruct (IH (later t (v a))) as [E | (i & Hi & E)].
  - rewrite E. unfold later, fgt. destruct (Rgt_dec (v a) t); [right | now left].
    exists a. split; [now left | reflexivity].
  - right. exists i. split; [now right | exact E].
Qed.

Lemma norm_nonneg (a : Vec3) : 0 <= norm a.
Proof. apply sqrt_pos. Qed.

Lemma cost_matrix_square (P0 S0 : list Vec3) :
  S0 <> [] -> length P0 = length S0 ->
  cost_matrix P0 S0 <> [] /\
  Forall (fun r => length r = length (cost_matrix P0 S0)) (cost_matrix P0 S0).
Proof.
  intros Hne Hlen.
  assert (HL : length (cost_matrix P0 S0) = length P0)
    by (unfold cost_matrix, mscale, np_dot; now rewrite !length_map).
  split.
  - intros E. rewrite E in HL. cbn in HL. destruct S0; [congruence | cbn in Hlen; lia].
  - rewrite HL. unfold cost_matrix, mscale, np_dot.
    rewrite (np_transpose_rows S0 Hne). cbn [ncols]. rewrite length_map.
    apply Forall_forall. intros r Hr.
    apply in_map_iff in Hr. destruct Hr as (r0 & <- & Hr0).
    apply in_map_iff in Hr0. destruct Hr0 as (a & <- & _).
    rewrite !length_map, length_seq. lia.
Qed.

Lemma perm_range_bounds (x : list nat) (k : nat) :
  Permutation x (range k) ->
  length x = k /\ NoDup x /\ forall i, (i < k)%nat -> (nth i x O < k)%nat.
Proof.
  intros Hp. assert (Hlen : length x = k).
  { rewrite (Permutation_length Hp). apply length_seq. }
  split; [exact Hlen |]. split.
  - apply (Permutation_NoDup (Permutation_sym Hp)), seq_NoDup.
  - intros i Hi. assert (Hin : In (nth i x O) x) by (apply nth_In; lia).
    apply (Permutation_in _ Hp) in Hin. apply in_seq in Hin. lia.
Qed.

Lemma nonempty_case {A B : Type} (l : list A) (a b : B) :
  l <> [] -> match l with [] => a | _ :: _ => b end = b.
Proof. destruct l; [congruence | reflexivity]. Qed.

Lemma compute_assignment_run (lapjv : matrix -> outcome (R * list nat * list nat))
  (now : R) (st : Mission) (c : R) (x y : list nat) :
  arrays_fit st -> (1 <= n st)%nat ->
  lapjv (cost_matrix (P st) (S_array st)) = Ret (c, x, y) ->
  Permutation x (range (n st)) ->
  compute_assignment lapjv now st
  = (Ret tt,
     (let sL := fold_left (assign_step x) (range (n st)) st in
      let tfv := fold_left
                   (fun t i => later t (travel_time (P st) (S_array st) x (vmax st) i))
                   (range (n st)) 0 in
      let s4 := set_goals_msg (with_tf tfv (goals_msg sL)) sL in
      set_G_is_set true (set_goals_msg (with_stamp now (goals_msg s4)) s4)),
     [LogWarn "Solving Assignement Problem...." [];
      LogWarn "Assignment is solved in %s seconds" []]).
Proof.
  intros (HP & HS & HG & Hg) Hn Hsol Hperm.
  destruct (perm_range_bounds x (n st) Hperm) as (Hlen & _ & Hb).
  rewrite compute_assignment_unfold.
  assert (Hne : S_array st <> []) by (intros E; rewrite E in HS; cbn in HS; lia).
  unfold bind at 1. cbn [get]. unfold bind at 1.
  rewrite (nonempty_case (S_array st) (@raise Mission event matrix ValueError)
             (ret (cost_matrix (P st) (S_array st))) Hne).
  unfold bind, logwarn, emit, get, modify. cbn [ret].
  rewrite Hsol. cbn [call ret fst snd].
  rewrite (assign_loop_run x (range (n st)) 0 st).
  2:{ intros i Hi. apply in_seq in Hi. specialize (Hb i ltac:(lia)).
      repeat split; lia. }
  reflexivity.
Qed.

(** C1: when the solver returns a permutation on square matrices, the arrays
    of the mission object have [n >= 1] rows and [vmax] is positive,
    [compute_assignment] returns without raising; the assignment [x] it gets
    for the cost matrix is a permutation of [0 .. n-1], so no two robots have
    the same slot; [G[i]] and goal [i] of the goals message are the slot
    [S[x[i]]]; and the [tf] of the goals message is at least
    [norm(P[i] - S[x[i]]) / vmax] for every robot and equal to it for one of
    them, that is the maximum of these times.  The spacing of the
    configuration is not needed. *)
Theorem compute_assignment_correct
  (lapjv : matrix -> outcome (R * list nat * list nat)) (now : R) (st : Mission) :
  lapjv_contract lapjv -> arrays_fit st -> (1 <= n st)%nat -> 0 < vmax st ->
  exists c x y,
    lapjv (cost_matrix (P st) (S_array st)) = Ret (c, x, y) /\
    Permutation x (range (n st)) /\
    (forall i j, (i < n st)%nat -> (j < n st)%nat -> i <> j -> nth i x O <> nth j x O) /\
    let st' := state_of (compute_assignment lapjv now st) in
    outcome_of (compute_assignment lapjv now st) = Ret tt /\
    G_is_set st' = true /\
    (forall i, (i < n st)%nat ->
       nth_error (G st') i = nth_error (S_array st) (nth i x O) /\
       nth_error (goals (goals_msg st')) i = Some (point_of (nth i (G st') vzero))) /\
    (forall i, (i < n st)%nat ->
       norm (vsub (nth i (P st) vzero) (nth i (G st') vzero)) / vmax st
       <= tf (goals_msg st')) /\
    (exists i, (i < n st)%nat /\
       tf (goals_msg st')
       = norm (vsub (nth i (P st) vzero) (nth i (G st') vzero)) / vmax st) /\
    (forall i, (i < n st)%nat ->
       norm (vsub (nth i (P st) vzero) (nth i (G st') vzero)) / vmax st
       = travel_time (P st) (S_array st) x (vmax st) i).
Proof.
  intros Hc Hfit Hn Hv. pose proof Hfit as (HP & HS & HG & Hg).
  assert (Hne : S_array st <> []) by (intros E; rewrite E in HS; cbn in HS; lia).
  destruct (cost_matrix_square (P st) (S_array st) Hne ltac:(lia)) as (HK & Hsq).
  destruct (Hc _ HK Hsq) as (c & x & y & Hsol & Hperm).
  assert (HL : length (cost_matrix (P st) (S_array st)) = n st)
    by (unfold cost_matrix, mscale, np_dot; rewrite !length_map; exact HP).
  rewrite HL in Hperm.
  destruct (perm_range_bounds x (n st) Hperm) as (Hlen & Hnd & Hb).
  exists c, x, y. split; [exact Hsol |]. split; [exact Hperm |]. split.
  { intros i j Hi Hj Hne' E. apply Hne'.
    apply (proj1 (NoDup_nth x O) Hnd i j); [lia | lia | exact E]. }
  cbv zeta. rewrite (compute_assignment_run lapjv now st c x y Hfit Hn Hsol Hperm).
  unfold state_of, outcome_of. cbn [fst snd].
  set (sL := fold_left (assign_step x) (range (n st)) st).
  set (v := travel_time (P st) (S_array st) x (vmax st)).
  set (tfv := fold_left (fun t i => later t (v i)) (range (n st)) 0).
  cbn [G_is_set set_G_is_set G goals goals_msg tf set_goals_msg with_stamp with_tf].
  assert (Hgoal : forall i, (i < n st)%nat ->
            nth_error (G sL) i = Some (goal_of (S_array st) x i) /\
            nth_error (goals (goals_msg sL)) i = Some (point_of (goal_of (S_array st) x i))).
  { intros i Hi.
    apply (assign_fold_goal x (range (n st)) st i); [lia | lia | apply in_seq; lia]. }
  assert (Hnth : forall i, (i < n st)%nat -> nth i (G sL) vzero = goal_of (S_array st) x i).
  { intros i Hi. apply nth_error_nth. apply Hgoal, Hi. }
  assert (Htime : forall i, (i < n st)%nat ->
            norm (vsub (nth i (P st) vzero) (nth i (G sL) vzero)) / vmax st = v i).
  { intros i Hi. unfold v, travel_time. now rewrite (Hnth i Hi). }
  split; [reflexivity |]. split; [reflexivity |]. split; [| split; [| split]].
  - intros i Hi. destruct (Hgoal i Hi) as (E1 & E2). rewrite E1, E2, (Hnth i Hi).
    split; [| reflexivity]. unfold goal_of. symmetry. apply nth_error_nth'.
    specialize (Hb i Hi). lia.
  - intros i Hi. rewrite (Htime i Hi).
    apply (later_fold_ge v (range (n st)) 0). apply in_seq. lia.
  - destruct (later_fold_attained v (range (n st)) 0) as [E | (i & Hi & E)].
    + exists O. split; [lia |]. rewrite (Htime O ltac:(lia)). fold tfv in E |- *.
      assert (H0 : v O <= tfv)
        by (apply (later_fold_ge v (range (n st)) 0); apply in_seq; lia).
      assert (Hpos : 0 <= v O).
      { unfold v, travel_time. apply Rmult_le_pos; [apply norm_nonneg |].
        left. apply Rinv_0_lt_compat, Hv. }
      lra.
    + apply in_seq in Hi. exists i. split; [lia |]. rewrite (Htime i ltac:(lia)). exact E.
  - exact Htime.
Qed.

Lemma lapjv_identity_contract : lapjv_contract lapjv_identity.
Proof.
  intros K _ _. exists 0, (range (length K)), (range (length K)).
  split; [reflexivity | apply Permutation_refl].
Qed.

Lemma arrays_fit_ready5 : arrays_fit ready5.
Proof. repeat split. Qed.

Lemma compute_assignment_correct_witness :
  lapjv_contract lapjv_identity /\ arrays_fit ready5 /\ (1 <= n ready5)%nat /\
  0 < vmax ready5 /\
  exists c x y,
    lapjv_identity (cost_matrix (P ready5) (S_array ready5)) = Ret (c, x, y) /\
    Permutation x (range (n ready5)).
Proof.
  assert (Hn : (1 <= n ready5)%nat) by (cbn; lia).
  assert (Hv : 0 < vmax ready5) by (cbn; lra).
  split; [exact lapjv_identity_contract |]. split; [exact arrays_fit_ready5 |].
  split; [exact Hn |]. split; [exact Hv |].
  destruct (compute_assignment_correct lapjv_identity 0 ready5
              lapjv_identity_contract arrays_fit_ready5 Hn Hv)
    as (c & x & y & Hsol & Hperm & _).
  exists c, x, y. split; [exact Hsol | exact Hperm].
Defined.

(** The five robots of [ready5] each go two metres up to the slot of their
    own index, at one metre per second: [tf] is 2. *)
Example ready5_deadline :
  tf (goals_msg (state_of (compute_assignment lapjv_identity 0 ready5))) = 2.
Proof.
  rewrite (compute_assignment_run lapjv_identity 0 ready5 0 (range 5) (range 5)
             arrays_fit_ready5 ltac:(cbn; lia) eq_refl (Permutation_refl _)).
  unfold state_of. cbn [fst snd tf goals_msg set_G_is_set set_goals_msg with_stamp with_tf].
  assert (Hv : forall i, (i < 5)%nat ->
            travel_time (P ready5) (S_array ready5) (range 5) (vmax ready5) i = 2).
  { intros i Hi.
    assert (Hc : (i = 0 \/ i = 1 \/ i = 2 \/ i = 3 \/ i = 4)%nat) by lia.
    destruct Hc as [-> | [-> | [-> | [-> | ->]]]];
      unfold travel_time, goal_of, norm, vsub; cbn;
      match goal with
      | |- sqrt ?a / 1 = 2 => replace a with (2 * 2) by ring
      end; rewrite sqrt_square by lra; field. }
  change (n ready5) with 5%nat. cbn [range seq fold_left].
  rewrite !Hv by lia. unfold later, fgt.
  repeat match goal with
         | |- context [Rgt_dec ?a ?b] => destruct (Rgt_dec a b); try lra
         end.
Qed.

(** The run of [compute_assignment] up to the answer of the solver: with a
    shape that is not empty, a solver that raises on the cost matrix makes
    [compute_assignment] raise the same exception, after the first warning
    and before anything is written. *)
Lemma compute_assignment_solver_raises
  (lapjv : matrix -> outcome (R * list nat * list nat)) (now : R) (st : Mission) (e : exn) :
  S_array st <> [] ->
  lapjv (cost_matrix (P st) (S_array st)) = Raise e ->
  compute_assignment lapjv now st
  = (Raise e, st, [LogWarn "Solving Assignement Problem...." []]).
Proof.
  intros Hne He. rewrite compute_assignment_unfold.
  unfold bind at 1. cbn [get]. unfold bind at 1.
  rewrite (nonempty_case (S_array st) (@raise Mission event matrix ValueError)
             (ret (cost_matrix (P st) (S_array st))) Hne).
  unfold bind, logwarn, emit. cbn [ret]. rewrite He. reflexivity.
Qed.

(** C6: the matrix [compute_assignment] builds has one row per start
    position and one column per slot, and its entry [i][j] is the negated
    dot product of start position [i] and slot [j]; and this matrix is what
    the solver is called with, whatever the solver is.  The run depends on
    the solver only through its answer on this matrix: two solvers that
    agree on it give the same run.  And it does depend on that answer: when
    the shape is not empty and the solver raises on this matrix,
    [compute_assignment] raises the same exception, after the first warning
    and with the mission object untouched; and when the solver returns the
    assignment [x] for this matrix (a permutation of the robots, the arrays
    having [n >= 1] rows), [compute_assignment] returns and [G[i]] is the
    slot [S[x[i]]] for every robot [i]. *)
Theorem cost_matrix_negated_dot
  (lapjv1 lapjv2 : matrix -> outcome (R * list nat * list nat))
  (now : R) (st : Mission) :
  (forall i j p s,
     nth_error (P st) i = Some p -> nth_error (S_array st) j = Some s ->
     exists row,
       nth_error (cost_matrix (P st) (S_array st)) i = Some row /\
       length row = length (S_array st) /\
       nth_error row j = Some (- dot3 p s)) /\
  length (cost_matrix (P st) (S_array st)) = length (P st) /\
  (lapjv1 (cost_matrix (P st) (S_array st)) = lapjv2 (cost_matrix (P st) (S_array st)) ->
   compute_assignment lapjv1 now st = compute_assignment lapjv2 now st) /\
  (forall e, S_array st <> [] ->
     lapjv1 (cost_matrix (P st) (S_array st)) = Raise e ->
     compute_assignment lapjv1 now st
     = (Raise e, st, [LogWarn "Solving Assignement Problem...." []])) /\
  (forall c x y, arrays_fit st -> (1 <= n st)%nat ->
     lapjv1 (cost_matrix (P st) (S_array st)) = Ret (c, x, y) ->
     Permutation x (range (n st)) ->
     outcome_of (compute_assignment lapjv1 now st) = Ret tt /\
     forall i, (i < n st)%nat ->
       nth_error (G (state_of (compute_assignment lapjv1 now st))) i
       = nth_error (S_array st) (nth i x O)).
Proof.
  split; [| split; [| split; [| split]]].
  - intros i j p s. apply cost_matrix_entry.
  - apply cost_matrix_length.
  - intros Heq. unfold compute_assignment, bind. cbn [get].
    destruct (S_array st) as [|s0 S0]; [reflexivity |].
    cbn [ret logwarn emit]. rewrite Heq. reflexivity.
  - intros e Hne He. apply compute_assignment_solver_raises; assumption.
  - intros c x y Hfit Hn Hsol Hperm. pose proof Hfit as (HP & HS & HG & Hg).
    destruct (perm_range_bounds x (n st) Hperm) as (_ & _ & Hb).
    rewrite (compute_assignment_run lapjv1 now st c x y Hfit Hn Hsol Hperm).
    unfold state_of, outcome_of. cbn [fst snd]. split; [reflexivity |].
    intros i Hi. cbn [G set_G_is_set set_goals_msg].
    destruct (assign_fold_goal x (range (n st)) st i ltac:(lia) ltac:(lia)) as (Hin & _).
    destruct (Hin ltac:(apply in_seq; lia)) as (E & _). rewrite E.
    unfold goal_of. symmetry. apply nth_error_nth'. specialize (Hb i Hi). lia.
Qed.

Lemma cost_matrix_negated_dot_witness :
  (exists row,
     nth_error (cost_matrix (P ready5) (S_array ready5)) 1 = Some row /\
     length row = length (S_array ready5) /\
     nth_error row 2 = Some (- dot3 (mkVec3 2 0 0) (mkVec3 4 2 0)) /\
     - dot3 (mkVec3 2 0 0) (mkVec3 4 2 0) < 0 <= norm (vsub (mkVec3 2 0 0) (mkVec3 4 2 0))) /\
  S_array ready5 <> [] /\
  lapjv_fails (cost_matrix (P ready5) (S_array ready5)) = Raise ValueError /\
  compute_assignment lapjv_fails 0 ready5
  = (Raise ValueError, ready5, [LogWarn "Solving Assignement Problem...." []]).
Proof.
  assert (Hne : S_array ready5 <> []) by discriminate.
  split; [| split; [exact Hne | split; [reflexivity |]]].
  - destruct (cost_matrix_negated_dot lapjv_identity lapjv_identity 0 ready5) as (H & _).
    destruct (H 1%nat 2%nat (mkVec3 2 0 0) (mkVec3 4 2 0) eq_refl eq_refl)
      as (row & Hr & Hl & He).
    exists row. split; [exact Hr |]. split; [exact Hl |]. split; [exact He |].
    split; [unfold dot3; cbn; lra | apply norm_nonneg].
  - destruct (cost_matrix_negated_dot lapjv_fails lapjv_fails 0 ready5)
      as (_ & _ & _ & Hf & _).
    exact (Hf ValueError Hne eq_refl).
Defined.

(** ** The telemetry loop of the bridge *)

Module BridgeProperties.
Import MasterBridge.

Lemma feq_true (a b : R) : a = b -> feq a b = true.
Proof. intros H. unfold feq. destruct (Req_dec_T a b); [reflexivity | contradiction]. Qed.

Lemma feq_false (a b : R) : a <> b -> feq a b = false.
Proof. intros H. unfold feq. destruct (Req_dec_T a b); [contradiction | reflexivity]. Qed.

Lemma checks_bool (self : Bridge) (msg : MAVLink_message) (t : Z) :
  target_system msg = Some t ->
  ((get_type msg =? "COMMAND_LONG")%string && (0 <? get_srcSystem msg)%Z
   && (get_srcSystem msg <=? Z.of_nat (n self))%Z && (command msg =? MAV_CMD_USER_1)%Z
   && (t =? master_sys_id self)%Z) = true
  <-> passes_checks self msg.
Proof.
  intros Ht. unfold passes_checks. rewrite Ht.
  rewrite !andb_true_iff, String.eqb_eq, Z.ltb_lt, Z.leb_le, !Z.eqb_eq.
  split.
  - intros ((((H1 & H2) & H3) & H4) & H5).
    split; [exact H1 |]. split; [lia |]. split; [exact H4 |]. now rewrite H5.
  - intros (H1 & H2 & H4 & H5). injection H5 as H5.
    split; [split; [split; [split |] |] |]; try assumption; lia.
Qed.

Lemma py_index_nonneg {A : Type} (l : list A) (z : Z) :
  (0 <= z)%Z -> py_index l z = nth_error l (Z.to_nat z).
Proof.
  intros H. unfold py_index. destruct (0 <=? z)%Z eqn:E; [reflexivity |].
  apply Z.leb_gt in E. lia.
Qed.

Lemma passes_checks_target (self : Bridge) (msg : MAVLink_message) :
  passes_checks self msg -> target_system msg = Some (master_sys_id self).
Proof. intros (_ & _ & _ & H). exact H. Qed.

(** A message without the attribute [target_system]: the read of l.112
    raises, whatever the type of the message and whatever [DEBUG] is. *)
Lemma recv_one_no_target (self : Bridge) (now : R) (msg : MAVLink_message) :
  target_system msg = None ->
  recv_one now (Some msg) self = (Raise (AttributeError "target_system"), self, []).
Proof.
  intros Hn. unfold recv_one, bind, get, attribute, raise. simpl. rewrite Hn. reflexivity.
Qed.

Lemma recv_one_rejected (self : Bridge) (now : R) (msg : MAVLink_message) (t : Z) :
  target_system msg = Some t ->
  ~ passes_checks self msg ->
  recv_one now (Some msg) self
  = (Ret tt, self,
     if DEBUG self
     then [LogWarn "Received unexpected MAVLink msg of type: %s from MAVLink ID = %s"
             [AStr (get_type msg); AInt (get_srcSystem msg)]]
     else []).
Proof.
  intros Ht Hn. rewrite <- (checks_bool self msg t Ht) in Hn. apply not_true_is_false in Hn.
  unfold recv_one, bind, get, attribute, ret. simpl. rewrite Ht. simpl. rewrite Hn.
  destruct (DEBUG self); reflexivity.
Qed.

Lemma recv_one_state_report (self : Bridge) (now : R) (msg : MAVLink_message) (topic : string) :
  passes_checks self msg ->
  param1 msg = IZR ROBOT_STATE ->
  nth_error (robot_state_pub_list self) (Z.to_nat (get_srcSystem msg - 1)) = Some topic ->
  recv_one now (Some msg) self
  = (Ret tt, self,
     (if DEBUG self
      then [LogWarn "[Master]: Received ROBOT_STATE from Robot %s" [AInt (get_srcSystem msg - 1)]]
      else [])
     ++ [Publish topic (state_record now msg)]).
Proof.
  intros Hc H1 Ht. pose proof Hc as (_ & Hs & _).
  pose proof (passes_checks_target self msg Hc) as Htg.
  rewrite <- (checks_bool self msg _ Htg) in Hc.
  unfold recv_one, bind, get, attribute, ret. simpl. rewrite Htg. simpl. rewrite Hc.
  rewrite (feq_true _ _ H1).
  assert (H16 : feq (param1 msg) (IZR MASTER_CMD_ACK) = false).
  { apply feq_false. rewrite H1. unfold ROBOT_STATE, MASTER_CMD_ACK. lra. }
  rewrite H16. rewrite py_index_nonneg by lia. rewrite Ht.
  unfold state_record. destruct (DEBUG self); reflexivity.
Qed.

Lemma recv_one_state (self : Bridge) (now : R) (msg : option MAVLink_message) :
  state_of (recv_one now msg self) = self.
Proof.
  destruct msg as [msg |]; [| reflexivity].
  unfold recv_one, bind, get, state_of, attribute, index_or_raise, key_or_raise, logwarn,
    emit, ret, raise. simpl.
  repeat match goal with
         | |- context [if ?b then _ else _] => destruct b; simpl
         | |- context [match ?o with Some _ => _ | None => _ end] => destruct o; simpl
         end; reflexivity.
Qed.

Lemma passes_checks_dec (self : Bridge) (msg : MAVLink_message) :
  passes_checks self msg \/ ~ passes_checks self msg.
Proof.
  destruct (target_system msg) as [t |] eqn:Ht.
  - rewrite <- (checks_bool self msg t Ht).
    match goal with |- ?b = true \/ _ => destruct b end;
      [now left | right; discriminate].
  - right. intros Hc. apply passes_checks_target in Hc. congruence.
Qed.

(** Only a message that passes the checks is published. *)
Lemma recv_one_publishes_only_accepted (self : Bridge) (now : R) (msg : MAVLink_message) :
  (exists topic m, In (Publish topic m) (events_of (recv_one now (Some msg) self))) ->
  passes_checks self msg.
Proof.
  intros (topic & m & Hin).
  destruct (passes_checks_dec self msg) as [Hc | Hc]; [exact Hc | exfalso].
  destruct (target_system msg) as [t |] eqn:Ht.
  - rewrite (recv_one_rejected self now msg t Ht Hc) in Hin.
    unfold events_of in Hin; simpl in Hin.
    destruct (DEBUG self); simpl in Hin; [destruct Hin as [H | []]; discriminate | contradiction].
  - rewrite (recv_one_no_target self now msg Ht) in Hin. destruct Hin.
Qed.

(** What the filter of the receive loop does on a message that has the
    attribute [target_system]: a pass never writes an attribute of the
    bridge; it publishes a state record only when the message is a
    COMMAND_LONG whose source is in [1, n], whose command is MAV_CMD_USER_1
    and whose target is the address of the ground station; a message with a
    target that fails one of these checks is dropped without raising, with
    one warning in debug mode and no effect otherwise; and a state report
    that passes them is published on the publisher of its source, with
    [received_goal], [mission_started], [arrived], [x], [y], [z] taken from
    [param2] to [param7] in this order.  A message without the attribute is
    not dropped: the pass raises. *)
Lemma recv_one_filter (self : Bridge) (now : R) (msg : MAVLink_message) :
  let run := recv_one now (Some msg) self in
  state_of run = self /\
  ((exists topic m, In (Publish topic m) (events_of run)) -> passes_checks self msg) /\
  (target_system msg <> None -> ~ passes_checks self msg ->
   outcome_of run = Ret tt /\
   events_of run
   = if DEBUG self
     then [LogWarn "Received unexpected MAVLink msg of type: %s from MAVLink ID = %s"
             [AStr (get_type msg); AInt (get_srcSystem msg)]]
     else []) /\
  (target_system msg = None ->
   outcome_of run = Raise (AttributeError "target_system") /\ events_of run = []) /\
  (passes_checks self msg -> param1 msg = IZR ROBOT_STATE ->
   length (robot_state_pub_list self) = n self ->
   exists topic,
     nth_error (robot_state_pub_list self) (Z.to_nat (get_srcSystem msg - 1)) = Some topic /\
     outcome_of run = Ret tt /\
     events_of run
     = (if DEBUG self
        then [LogWarn "[Master]: Received ROBOT_STATE from Robot %s"
                [AInt (get_srcSystem msg - 1)]]
        else [])
       ++ [Publish topic
             {| header_stamp := now;
                received_goal := param2 msg;
                mission_started := param3 msg;
                arrived := param4 msg;
                point_x := param5 msg;
                point_y := param6 msg;
                point_z := param7 msg |}]).
Proof.
  cbv zeta. split; [apply recv_one_state |].
  split; [apply recv_one_publishes_only_accepted |]. split; [| split].
  - intros Hsome Hc. destruct (target_system msg) as [t |] eqn:Ht; [| contradiction].
    rewrite (recv_one_rejected self now msg t Ht Hc). split; reflexivity.
  - intros Hn. rewrite (recv_one_no_target self now msg Hn). split; reflexivity.
  - intros Hc H1 Hlen.
    destruct (nth_error (robot_state_pub_list self) (Z.to_nat (get_srcSystem msg - 1)))
      as [topic |] eqn:Ht.
    + exists topic. split; [reflexivity |].
      rewrite (recv_one_state_report self now msg topic Hc H1 Ht). split; reflexivity.
    + exfalso. apply nth_error_None in Ht. destruct Hc as (_ & Hs & _). lia.
Qed.

Lemma recv_one_filter_examples :
  passes_checks bridge5 (report_from 3) /\
  ~ passes_checks bridge5 (report_from 6) /\
  events_of (recv_one 9 (Some (report_from 6)) bridge5) = [] /\
  events_of (recv_one 9 (Some (report_from 3)) bridge5)
  = [Publish "/robot2/state"
       {| header_stamp := 9; received_goal := 1; mission_started := 0; arrived := 0;
          point_x := 3; point_y := 4; point_z := 5 |}].
Proof.
  assert (H3 : passes_checks bridge5 (report_from 3)).
  { unfold passes_checks; simpl. repeat split; lia. }
  assert (H6 : ~ passes_checks bridge5 (report_from 6)).
  { unfold passes_checks; simpl. intros (_ & H & _). lia. }
  split; [exact H3 |]. split; [exact H6 |]. split.
  - destruct (recv_one_filter bridge5 9 (report_from 6)) as (_ & _ & Hrej & _).
    destruct (Hrej ltac:(discriminate) H6) as (_ & He). exact He.
  - destruct (recv_one_filter bridge5 9 (report_from 3)) as (_ & _ & _ & _ & Hacc).
    destruct (Hacc H3 eq_refl eq_refl) as (topic & Ht & _ & He).
    simpl in Ht. injection Ht as <-. exact He.
Qed.

(** C9: the receive loop does not drop every message that fails the checks.
    The attribute [target_system] is read of the raw message before its type
    is compared, and a HEARTBEAT has no such attribute: on the heartbeat of
    robot 1 the pass raises AttributeError, in debug mode and out of it,
    without the warning of the branch for unexpected messages; the exception
    ends the loop, so that the state report of robot 3 that follows the
    heartbeat is never published, while the same report is published when
    it arrives alone. *)
Theorem recv_one_heartbeat_raises :
  ~ passes_checks bridge5 (heartbeat_from 1) /\
  recv_one 9 (Some (heartbeat_from 1)) bridge5
  = (Raise (AttributeError "target_system"), bridge5, []) /\
  recv_one 9 (Some (heartbeat_from 1)) bridge5_debug
  = (Raise (AttributeError "target_system"), bridge5_debug, []) /\
  recvCb [(9, Some (heartbeat_from 1)); (10, Some (report_from 3))] bridge5
  = (Raise (AttributeError "target_system"), bridge5, []) /\
  recvCb [(10, Some (report_from 3))] bridge5
  = (Ret tt, bridge5, [Publish "/robot2/state" (state_record 10 (report_from 3))]).
Proof.
  assert (H3 : passes_checks bridge5 (report_from 3)).
  { unfold passes_checks; simpl. repeat split; lia. }
  assert (Hr : recv_one 10 (Some (report_from 3)) bridge5
               = (Ret tt, bridge5, [Publish "/robot2/state" (state_record 10 (report_from 3))])).
  { rewrite (recv_one_state_report bridge5 10 (report_from 3) "/robot2/state" H3 eq_refl eq_refl).
    reflexivity. }
  split; [| split; [| split; [| split]]].
  - intros Hc. apply passes_checks_target in Hc. discriminate Hc.
  - apply recv_one_no_target. reflexivity.
  - apply recv_one_no_target. reflexivity.
  - cbn [recvCb]. unfold bind at 1.
    rewrite (recv_one_no_target bridge5 9 (heartbeat_from 1) eq_refl). reflexivity.
  - cbn [recvCb]. unfold bind at 1. rewrite Hr. reflexivity.
Qed.


(** ** Wire addresses *)

Lemma sent_commands_app (a b : list event) :
  sent_commands (a ++ b) = sent_commands a ++ sent_commands b.
Proof.
  induction a as [|e a IH]; simpl; [reflexivity |].
  destruct e; simpl; rewrite IH; reflexivity.
Qed.

Lemma sent_targets_app (a b : list event) :
  sent_targets (a ++ b) = sent_targets a ++ sent_targets b.
Proof.
  induction a as [|e a IH]; simpl; [reflexivity |].
  destruct e; simpl; rewrite IH; reflexivity.
Qed.

Lemma formation_loop (self : Bridge) (msg : FormationPositions) (l : list nat) :
  (forall i, In i l -> (i < length (goals msg))%nat) ->
  for_in l (fun i =>
      g <- index_or_raise (nth_error (goals msg) i) ;;
      emit (CommandLongSend (Z.of_nat i + 1) 0 MAV_CMD_USER_1 0
              (IZR MASTER_CMD) (IZR MASTER_CMD_GOAL) (px g) (py g) (pz g) (tf msg) 0) ;;
      (if DEBUG self
       then logwarn "[Master]: Sent formation goal to Robot %s" [AInt (Z.of_nat i)]
       else ret tt) ;;
      ret Continue) self
  = (Ret tt, self, flat_map (goal_effects self msg) l).
Proof.
  set (body := fun i : nat => _).
  induction l as [|i l IH]; intros Hl; [reflexivity |].
  assert (Hi : (i < length (goals msg))%nat) by (apply Hl; now left).
  destruct (nth_error (goals msg) i) as [g |] eqn:Hg;
    [| apply nth_error_None in Hg; lia].
  assert (Hn : nth i (goals msg) (mkPoint 0 0 0) = g) by (now apply nth_error_nth).
  cbn [for_in]. unfold bind at 1.
  replace (body i self) with (Ret Continue, self, goal_effects self msg i).
  2:{ unfold body, bind, goal_effects, goal_command. rewrite Hg, Hn. simpl.
      destruct (DEBUG self); reflexivity. }
  rewrite IH by (intros j Hj; apply Hl; now right).
  reflexivity.
Qed.

Lemma formationCb_run (self : Bridge) (msg : FormationPositions) :
  (n self <= length (goals msg))%nat ->
  formationCb msg self
  = (Ret tt, self, flat_map (goal_effects self msg) (range (n self))).
Proof.
  intros Hlen. unfold formationCb, bind at 1. cbn [get].
  rewrite formation_loop; [reflexivity |].
  intros i Hi. apply in_seq in Hi. lia.
Qed.

Lemma sent_commands_goal_effects (self : Bridge) (msg : FormationPositions) (l : list nat) :
  sent_commands (flat_map (goal_effects self msg) l) = map (goal_command msg) l.
Proof.
  induction l as [|i l IH]; [reflexivity |].
  cbn [flat_map map]. rewrite sent_commands_app, IH.
  unfold goal_effects, goal_command. destruct (DEBUG self); reflexivity.
Qed.

Lemma sent_targets_goal_effects (self : Bridge) (msg : FormationPositions) (l : list nat) :
  sent_targets (flat_map (goal_effects self msg) l) = map (fun k => (Z.of_nat k + 1)%Z) l.
Proof.
  induction l as [|i l IH]; [reflexivity |].
  cbn [flat_map map]. rewrite sent_targets_app, IH.
  unfold goal_effects, goal_command. destruct (DEBUG self); reflexivity.
Qed.



(** C7: [formationCb] sends one goal command per robot, in increasing
    RobotId order, the command of RobotId [k] carrying goal [k] and the wire
    target [k+1]; and a state report that passes the checks of [recvCb] with
    wire source [k+1] is published on the publisher of RobotId [k], and on
    no other: the address a goal is sent to decodes to the robot it was
    meant for, for every [k] in [0, n). *)
Theorem address_round_trip (self : Bridge) (msg : FormationPositions) :
  (n self <= length (goals msg))%nat ->
  length (robot_state_pub_list self) = n self ->
  let ev := events_of (formationCb msg self) in
  outcome_of (formationCb msg self) = Ret tt /\
  sent_commands ev = map (goal_command msg) (range (n self)) /\
  sent_targets ev = map (fun k => (Z.of_nat k + 1)%Z) (range (n self)) /\
  forall k : nat, (k < n self)%nat ->
    nth_error (sent_targets ev) k = Some (Z.of_nat k + 1)%Z /\
    forall (now : R) (rep : MAVLink_message),
      passes_checks self rep -> param1 rep = IZR ROBOT_STATE ->
      Some (get_srcSystem rep) = nth_error (sent_targets ev) k ->
      exists topic,
        nth_error (robot_state_pub_list self) k = Some topic /\
        (get_srcSystem rep - 1)%Z = Z.of_nat k /\
        forall t m, In (Publish t m) (events_of (recv_one now (Some rep) self))
                    <-> t = topic /\ m = state_record now rep.
Proof.
  intros Hg Hp. cbv zeta. rewrite (formationCb_run self msg Hg).
  unfold outcome_of, events_of; cbn [fst snd].
  rewrite sent_commands_goal_effects, sent_targets_goal_effects.
  do 3 (split; [reflexivity |]).
  intros k Hk.
  rewrite (nth_error_map_range (fun k => (Z.of_nat k + 1)%Z) k (n self) Hk).
  split; [reflexivity |].
  intros now rep Hc H1 Hsrc. injection Hsrc as Hsrc.
  destruct (nth_error (robot_state_pub_list self) k) as [topic |] eqn:Ht;
    [| apply nth_error_None in Ht; lia].
  exists topic. split; [reflexivity |]. split; [lia |].
  assert (Ht' : nth_error (robot_state_pub_list self) (Z.to_nat (get_srcSystem rep - 1))
                = Some topic).
  { replace (Z.to_nat (get_srcSystem rep - 1)) with k by lia. exact Ht. }
  rewrite (recv_one_state_report self now rep topic Hc H1 Ht').
  intros t m. cbn [snd]. rewrite in_app_iff. split.
  - intros [Hin | [Hin | []]].
    + destruct (DEBUG self); [destruct Hin as [Hin | []]; discriminate | destruct Hin].
    + injection Hin as <- <-. split; reflexivity.
  - intros [-> ->]. right. now left.
Qed.

Lemma address_round_trip_witness :
  nth_error (sent_targets (events_of (formationCb (goals_msg mission5) bridge5))) 2
  = Some 3%Z /\
  exists topic,
    nth_error (robot_state_pub_list bridge5) 2 = Some topic /\
    (get_srcSystem (report_from 3) - 1)%Z = 2%Z /\
    forall t m, In (Publish t m) (events_of (recv_one 9 (Some (report_from 3)) bridge5))
                <-> t = topic /\ m = state_record 9 (report_from 3).
Proof.
  assert (Hg : (n bridge5 <= length (goals (goals_msg mission5)))%nat) by (simpl; lia).
  assert (Hp : length (robot_state_pub_list bridge5) = n bridge5) by reflexivity.
  destruct (address_round_trip bridge5 (goals_msg mission5) Hg Hp) as (_ & _ & _ & Hk).
  destruct (Hk 2%nat ltac:(simpl; lia)) as (Ht & Hdec).
  split; [exact Ht |].
  apply Hdec.
  - unfold passes_checks; simpl. repeat split; lia.
  - reflexivity.
  - rewrite Ht. reflexivity.
Defined.

End BridgeProperties.

(* ================================================================== *)
(** * Further properties of the master node *)

(** ** The robot callbacks *)

Lemma robotCb_run (i : nat) (msg : RobotState) (st : Mission) :
  (i < length (current_P st))%nat -> (i < length (arrival_state st))%nat ->
  (i < length (received_goals st))%nat ->
  robotCb i msg st
  = (Ret tt,
     set_received_goals (list_upd (received_goals st) i (received_goal msg))
       (set_arrival_state (list_upd (arrival_state st) i (arrived msg))
          (set_current_P (list_upd (current_P st) i (row_of msg)) st)),
     []).
Proof.
  intros Hc Ha Hr. unfold robotCb, bind, get, modify, row_of.
  rewrite (list_set_upd (current_P st) i _ Hc). cbn [index_or_raise ret].
  rewrite (list_set_upd (arrival_state st) i _ Ha). cbn [index_or_raise ret].
  rewrite (list_set_upd (received_goals st) i _ Hr). reflexivity.
Qed.

Lemma list_set_none {A : Type} (l : list A) (i : nat) (v : A) :
  (length l <= i)%nat -> list_set l i v = None.
Proof.
  revert i. induction l as [|a l IH]; intros i Hi; [reflexivity |].
  destruct i as [|i]; cbn in Hi; [lia |]. cbn [list_set]. rewrite IH by lia. reflexivity.
Qed.

(** X1: a state message of a robot whose index is within the three per-robot
    arrays replaces entry [i] of [current_P], [arrival_state] and
    [received_goals] by the position and the two flags of the message,
    without raising and without an effect; the other entries, the lengths
    of the arrays and every other attribute are as before. *)
Theorem robotCb_updates_entry (i : nat) (msg : RobotState) (st : Mission) :
  (i < length (current_P st))%nat -> (i < length (arrival_state st))%nat ->
  (i < length (received_goals st))%nat ->
  let st' := state_of (robotCb i msg st) in
  outcome_of (robotCb i msg st) = Ret tt /\ events_of (robotCb i msg st) = [] /\
  nth_error (current_P st') i = Some (row_of msg) /\
  nth_error (arrival_state st') i = Some (arrived msg) /\
  nth_error (received_goals st') i = Some (received_goal msg) /\
  (forall j, j <> i ->
     nth_error (current_P st') j = nth_error (current_P st) j /\
     nth_error (arrival_state st') j = nth_error (arrival_state st) j /\
     nth_error (received_goals st') j = nth_error (received_goals st) j) /\
  length (current_P st') = length (current_P st) /\
  length (arrival_state st') = length (arrival_state st) /\
  length (received_goals st') = length (received_goals st) /\
  same_but_robot st st'.
Proof.
  intros Hc Ha Hr. cbv zeta. rewrite (robotCb_run i msg st Hc Ha Hr).
  unfold state_of, outcome_of, events_of. cbn [fst snd].
  cbn [current_P arrival_state received_goals set_received_goals set_arrival_state
       set_current_P].
  split; [reflexivity |]. split; [reflexivity |].
  split; [now apply list_upd_same |]. split; [now apply list_upd_same |].
  split; [now apply list_upd_same |]. split.
  { intros j Hj. repeat split; apply list_upd_other; congruence. }
  rewrite !list_upd_length. repeat split.
Qed.

Lemma robotCb_updates_entry_witness :
  (2 < length (current_P mission5))%nat /\
  nth_error (arrival_state (state_of (robotCb 2 (robot_msg true false) mission5))) 2
  = Some true.
Proof.
  assert (H : (2 < 5)%nat) by lia.
  split; [exact H |].
  exact (proj1 (proj2 (proj2 (proj2
    (robotCb_updates_entry 2 (robot_msg true false) mission5 H H H))))).
Defined.

(** X2: a state message for an index beyond the rows of [current_P] raises
    IndexError at the first assignment; the mission object is unchanged. *)
Theorem robotCb_out_of_range (i : nat) (msg : RobotState) (st : Mission) :
  (length (current_P st) <= i)%nat ->
  robotCb i msg st = (Raise IndexError, st, []).
Proof.
  intros Hc. unfold robotCb, bind, get.
  rewrite (list_set_none (current_P st) i _ Hc). reflexivity.
Qed.

Lemma robotCb_out_of_range_witness :
  (length (current_P (Mission_init params5)) <= 7)%nat /\
  robotCb 7 (robot_msg true true) (Mission_init params5)
  = (Raise IndexError, Mission_init params5, []).
Proof.
  assert (H : (length (current_P (Mission_init params5)) <= 7)%nat) by (cbn; lia).
  split; [exact H |].
  exact (robotCb_out_of_range 7 (robot_msg true true) (Mission_init params5) H).
Defined.

(** ** The effects of a program *)

Section Effects.

Variables St Ev : Type.
Variable Q : Ev -> Prop.

Lemma emits_ret {A : Type} (a : A) : emits_only Q (@ret St Ev A a).
Proof. intros s. constructor. Qed.

Lemma emits_raise {A : Type} (e : exn) : emits_only Q (@raise St Ev A e).
Proof. intros s. constructor. Qed.

Lemma emits_get : emits_only Q (@get St Ev).
Proof. intros s. constructor. Qed.

Lemma emits_modify (f : St -> St) : emits_only Q (@modify St Ev f).
Proof. intros s. constructor. Qed.

Lemma emits_emit (e : Ev) : Q e -> emits_only Q (@emit St Ev e).
Proof. intros He s. repeat constructor. exact He. Qed.

Lemma emits_index_or_raise {A : Type} (o : option A) : emits_only Q (@index_or_raise St Ev A o).
Proof. destruct o; intros s; constructor. Qed.

Lemma emits_call {A : Type} (o : outcome A) : emits_only Q (@call St Ev A o).
Proof. destruct o; intros s; constructor. Qed.

Lemma emits_bind {A B : Type} (m : prog St Ev A) (k : A -> prog St Ev B) :
  emits_only Q m -> (forall a, emits_only Q (k a)) -> emits_only Q (bind m k).
Proof.
  intros Hm Hk s. unfold bind, events_of.
  specialize (Hm s). unfold events_of in Hm.
  destruct (m s) as [[[a | e] s1] ev1]; cbn [fst snd] in *; [| exact Hm].
  specialize (Hk a s1). unfold events_of in Hk.
  destruct (k a s1) as [[r s2] ev2]. cbn [snd] in *.
  apply Forall_app. split; assumption.
Qed.

Lemma emits_for_in (l : list nat) (body : nat -> prog St Ev ctl) :
  (forall i, emits_only Q (body i)) -> emits_only Q (for_in l body).
Proof.
  intros Hb. induction l as [|i l IH]; cbn [for_in]; [apply emits_ret |].
  apply emits_bind; [apply Hb |].
  intros [|]; [exact IH | apply emits_ret].
Qed.

Lemma emits_for_acc {A : Type} (l : list nat) (acc : A) (body : nat -> A -> prog St Ev A) :
  (forall i a, emits_only Q (body i a)) -> emits_only Q (for_acc l acc body).
Proof.
  intros Hb. revert acc. induction l as [|i l IH]; intros acc; cbn [for_acc];
    [apply emits_ret |].
  apply emits_bind; [apply Hb | intros a; apply IH].
Qed.

End Effects.

Ltac effects :=
  repeat first
    [ apply emits_bind; [| intros ?]
    | apply emits_for_in; intros ?
    | apply emits_for_acc; intros ? ?
    | apply emits_ret
    | apply emits_raise
    | apply emits_get
    | apply emits_modify
    | apply emits_index_or_raise
    | apply emits_call
    | apply emits_emit; exact I
    | match goal with
      | |- emits_only _ (if ?b then _ else _) => destruct b
      | |- emits_only _ (match ?o with Ret _ => _ | Raise _ => _ end) => destruct o
      | |- emits_only _ (match ?l with [] => _ | _ :: _ => _ end) => destruct l
      end ].

Lemma validate_positions_warns : emits_only is_warning validate_positions.
Proof. unfold validate_positions, logwarn. effects. Qed.

Lemma compute_assignment_warns (lapjv : matrix -> outcome (R * list nat * list nat))
  (now : R) : emits_only is_warning (compute_assignment lapjv now).
Proof. unfold compute_assignment, logwarn. effects. Qed.

Lemma compute_assignment_frame (lapjv : matrix -> outcome (R * list nat * list nat))
  (now : R) (st : Mission) :
  same_but_goals st (state_of (compute_assignment lapjv now st)).
Proof.
  assert (H : preserves (same_but_goals st) (compute_assignment lapjv now)).
  { unfold compute_assignment, logwarn. preserve;
      apply preserves_modify; intros s Hs; exact Hs. }
  apply H. unfold same_but_goals. repeat split.
Qed.

(** ** The start command, whatever the configuration *)

Ltac close_pair_cases Hi Hj i j :=
  let Hci := fresh in let Hcj := fresh in
  assert (Hci : (i = 0 \/ i = 1 \/ i = 2 \/ i = 3 \/ i = 4)%nat) by lia;
  assert (Hcj : (j = 0 \/ j = 1 \/ j = 2 \/ j = 3 \/ j = 4)%nat) by lia;
  destruct Hci as [-> | [-> | [-> | [-> | ->]]]];
  destruct Hcj as [-> | [-> | [-> | [-> | ->]]]].

Lemma line5_separated : ~ close_pair line5 (delta mission5) 5.
Proof.
  intros (i & j & Hi & Hj & Hne & Hle). rewrite delta_mission5 in Hle.
  close_pair_cases Hi Hj i j; try congruence;
    unfold dist, norm, vsub in Hle; cbn in Hle;
    apply sqrt_le_0 in Hle; lra.
Qed.

Lemma start5_separated : ~ close_pair start5 (delta mission5) 5.
Proof.
  intros (i & j & Hi & Hj & Hne & Hle). rewrite delta_mission5 in Hle.
  close_pair_cases Hi Hj i j; try congruence;
    unfold dist, norm, vsub in Hle; cbn in Hle;
    apply sqrt_le_0 in Hle; lra.
Qed.

Lemma startCb_not_started_events (lapjv : matrix -> outcome (R * list nat * list nat))
  (shape : list Vec3) (now : R) (st : Mission) :
  M_START st = false ->
  events_of (startCb lapjv shape now st)
  = events_of (validate_positions (snapshot shape st)).
Proof.
  intros Hs. rewrite (startCb_not_started lapjv shape now st Hs). unfold events_of.
  destruct (validate_positions (snapshot shape st)) as [[[[] | e] s] ev];
    cbn [snd]; [apply app_nil_r | reflexivity].
Qed.

Lemma startCb_warns (lapjv : matrix -> outcome (R * list nat * list nat))
  (shape : list Vec3) (now : R) (st : Mission) :
  Forall is_warning (events_of (startCb lapjv shape now st)).
Proof.
  destruct (M_START st) eqn:Hs.
  - assert (E : startCb lapjv shape now st
                = (Ret tt, st, [LogWarn "Mission already started!" []])).
    { unfold startCb, bind, get. rewrite Hs. reflexivity. }
    rewrite E. unfold events_of. cbn [snd]. constructor; [exact I | constructor].
  - rewrite (startCb_not_started_events lapjv shape now st Hs).
    apply validate_positions_warns.
Qed.

Lemma startCb_started_state (lapjv : matrix -> outcome (R * list nat * list nat))
  (shape : list Vec3) (now : R) (st : Mission) :
  M_START st = true -> state_of (startCb lapjv shape now st) = st.
Proof. intros Hs. unfold startCb, bind, get. rewrite Hs. reflexivity. Qed.

(** X3: a start command never computes an assignment and never changes
    [M_START]: whatever the mission object, the shape and the solver, after
    [startCb] the flags [M_START], [G_is_set] and [M_END], the goals [G],
    the goals message, the current positions and the per-robot flags are
    as before, and the only effects are warnings. *)
Theorem startCb_never_assigns
  (lapjv : matrix -> outcome (R * list nat * list nat))
  (shape : list Vec3) (now : R) (st : Mission) :
  let st' := state_of (startCb lapjv shape now st) in
  M_START st' = M_START st /\ G_is_set st' = G_is_set st /\
  M_END st' = M_END st /\ G st' = G st /\ goals_msg st' = goals_msg st /\
  current_P st' = current_P st /\ arrival_state st' = arrival_state st /\
  received_goals st' = received_goals st /\
  Forall is_warning (events_of (startCb lapjv shape now st)).
Proof.
  cbv zeta. destruct (M_START st) eqn:Hs.
  - assert (E : startCb lapjv shape now st
                = (Ret tt, st, [LogWarn "Mission already started!" []])).
    { unfold startCb, bind, get. rewrite Hs. reflexivity. }
    rewrite E. unfold state_of, events_of. cbn [fst snd].
    do 8 (split; [first [exact Hs | reflexivity] |]).
    constructor; [exact I | constructor].
  - rewrite (startCb_not_started_events lapjv shape now st Hs).
    rewrite (startCb_not_started_state lapjv shape now st Hs).
    pose proof (validate_positions_frame (snapshot shape st)) as F.
    unfold same_but_valid in F.
    destruct F as (_ & _ & _ & _ & _ & _ & _ & _ & _ & FG & Fc & Fm & Fa & Fr & _ & _
                   & _ & Fgs & Fs & Fe & _).
    rewrite FG, Fc, Fm, Fa, Fr, Fgs, Fs, Fe.
    do 8 (split; [first [exact Hs | reflexivity] |]).
    apply validate_positions_warns.
Qed.

(** X4: with [M_START] false, [n] current positions and a shape of [n]
    well-separated slots, [startCb] raises NameError for the name [valid_P]
    after the validation, whether the start positions are well separated or
    not: it has taken the snapshot, [valid_S] is true, [valid_P] holds the
    verdict on the start positions, the assignment is not computed and
    [M_START] is false. *)
Theorem startCb_valid_shape_raises
  (lapjv : matrix -> outcome (R * list nat * list nat))
  (shape : list Vec3) (now : R) (st : Mission) :
  M_START st = false ->
  length (current_P st) = n st -> length shape = n st ->
  ~ close_pair shape (delta st) (n st) ->
  let st' := state_of (startCb lapjv shape now st) in
  outcome_of (startCb lapjv shape now st) = Raise (NameError "valid_P") /\
  M_START st' = false /\ G_is_set st' = G_is_set st /\
  goals_msg st' = goals_msg st /\
  P st' = current_P st /\ S_array st' = shape /\ valid_S st' = true /\
  (valid_P st' = true <-> ~ close_pair (current_P st) (delta st) (n st)).
Proof.
  intros Hs HP HS Hsep. cbv zeta.
  rewrite (startCb_not_started lapjv shape now st Hs).
  rewrite (validate_positions_run (snapshot shape st)) by (cbn; lia).
  cbn [valid_S set_valid_S S_array snapshot set_S_is_set set_S_array delta n
       set_S_param set_P_is_set set_P P].
  pose proof Hsep as Hsep'. apply separated_true in Hsep'. rewrite Hsep'.
  unfold state_of, outcome_of. cbn [fst snd].
  cbn [M_START G_is_set goals_msg P S_array valid_S valid_P set_valid_S set_valid_P].
  split; [reflexivity |]. split; [exact Hs |]. do 5 (split; [reflexivity |]).
  apply separated_true.
Qed.

Lemma startCb_valid_shape_raises_witness :
  M_START ready5 = false /\
  ~ close_pair line5 (delta ready5) (n ready5) /\
  outcome_of (startCb lapjv_identity line5 0 ready5) = Raise (NameError "valid_P").
Proof.
  split; [reflexivity |]. split; [exact line5_separated |].
  apply (startCb_valid_shape_raises lapjv_identity line5 0 ready5);
    [reflexivity | reflexivity | reflexivity | exact line5_separated].
Defined.

(** ** What every run of the node keeps *)

Lemma sized_init (prm : Params) : sized (Mission_init prm).
Proof.
  unfold sized, Mission_init, np_zeros, range.
  cbn [P G current_P goals_msg goals arrival_state received_goals r_loc_topic_names
       n delta R_robot].
  rewrite !repeat_length, length_map, length_seq. repeat split.
Qed.

Lemma robotCb_sized (i : nat) (msg : RobotState) (st : Mission) :
  sized st -> sized (state_of (robotCb i msg st)).
Proof.
  intros H. pose proof H as (HP & HG & Hc & Hg & Ha & Hr & Ht & Hd).
  destruct (Nat.lt_ge_cases i (n st)) as [Hi | Hi].
  - rewrite (robotCb_run i msg st) by lia. unfold state_of, sized. cbn [fst snd].
    cbn [P G current_P goals_msg arrival_state received_goals r_loc_topic_names
         n delta R_robot set_received_goals set_arrival_state set_current_P].
    rewrite !list_upd_length. repeat split; assumption.
  - assert (E : robotCb i msg st = (Raise IndexError, st, [])).
    { unfold robotCb, bind, get. rewrite (list_set_none (current_P st) i) by lia.
      reflexivity. }
    rewrite E. exact H.
Qed.

Lemma react_sized (lapjv : matrix -> outcome (R * list nat * list nat))
  (i : input) (st : Mission) :
  sized st -> sized (state_of (react lapjv i st)).
Proof.
  intros H. destruct i as [| shape now | | | msg | msg | msg | msg | msg]; cbn [react];
    try (apply robotCb_sized; exact H); try exact H.
  - destruct (M_START st) eqn:Hs.
    + rewrite (tick_started_run st Hs). unfold state_of. cbn [fst snd].
      destruct (all (arrival_state st)); exact H.
    + rewrite (tick_stopped_run st Hs). unfold state_of. cbn [fst snd].
      destruct (all (arrival_state st)); exact H.
  - destruct (M_START st) eqn:Hs.
    + rewrite (startCb_started_state lapjv shape now st Hs). exact H.
    + rewrite (startCb_not_started_state lapjv shape now st Hs).
      pose proof (validate_positions_frame (snapshot shape st)) as F.
      unfold same_but_valid in F.
      destruct F as (Fn & FR & Fd & _ & _ & _ & FP & _ & _ & FG & Fc & Fm & Fa & Fr & _
                     & _ & _ & _ & _ & _ & Ft).
      destruct H as (HP & HG & Hc & Hg & Ha & Hr & Ht & Hd).
      unfold sized. rewrite Fn, FR, Fd, FP, FG, Fc, Fm, Fa, Fr, Ft.
      repeat split; assumption.
Qed.

Lemma run_sized (lapjv : matrix -> outcome (R * list nat * list nat))
  (l : list input) (st : Mission) :
  sized st -> sized (run lapjv l st).
Proof.
  revert st. induction l as [|i l IH]; intros st H; [exact H |].
  cbn [run]. apply IH, react_sized, H.
Qed.

(** X5: in every state the node reaches, the arrays [P], [G] and
    [current_P], the goals of the goals message, the two lists of per-robot
    flags and the list of topic names have [n] entries, and [delta] is
    [2 * sqrt 2 * R]: no input changes a size or the threshold. *)
Theorem reachable_sized
  (lapjv : matrix -> outcome (R * list nat * list nat)) (st : Mission) :
  reachable lapjv st -> sized st.
Proof.
  intros (prm & l & ->). apply run_sized, sized_init.
Qed.

Lemma reachable_sized_witness :
  reachable lapjv_identity (run lapjv_identity arrive_then_leave mission5) /\
  length (arrival_state (run lapjv_identity arrive_then_leave mission5)) = 5%nat.
Proof.
  assert (Hr : reachable lapjv_identity (run lapjv_identity arrive_then_leave mission5))
    by (exists params5, arrive_then_leave; reflexivity).
  split; [exact Hr |].
  destruct (reachable_sized lapjv_identity _ Hr) as (_ & _ & _ & _ & Ha & _).
  exact Ha.
Defined.

Lemma robotCb_silent (i : nat) (msg : RobotState) (st : Mission) :
  events_of (robotCb i msg st) = [].
Proof.
  assert (H : emits_only (fun _ => False) (robotCb i msg)).
  { unfold robotCb. effects. }
  specialize (H st). destruct (events_of (robotCb i msg st)) as [|e ev];
    [reflexivity | inversion H; contradiction].
Qed.

(** X6: the node never publishes.  In every state it reaches [M_START] is
    false, and whatever input comes next, the only effects are warnings: no
    goals message and no go signal leaves the node. *)
Theorem node_never_publishes
  (lapjv : matrix -> outcome (R * list nat * list nat)) (st : Mission) (i : input) :
  reachable lapjv st ->
  M_START st = false /\
  Forall is_warning (events_of (react lapjv i st)) /\
  (forall m, ~ In (FormPub m) (events_of (react lapjv i st))) /\
  ~ In GoPub (events_of (react lapjv i st)).
Proof.
  intros (prm & l & ->).
  assert (Hs : M_START (run lapjv l (Mission_init prm)) = false)
    by (apply run_keeps_stopped; reflexivity).
  set (st := run lapjv l (Mission_init prm)) in *.
  assert (W : Forall is_warning (events_of (react lapjv i st))).
  { destruct i as [| shape now | | | msg | msg | msg | msg | msg]; cbn [react].
    - rewrite (tick_stopped_run st Hs). constructor.
    - apply startCb_warns.
    - constructor.
    - constructor.
    - unfold r0Cb. rewrite robotCb_silent. constructor.
    - unfold r1Cb. rewrite robotCb_silent. constructor.
    - unfold r2Cb. rewrite robotCb_silent. constructor.
    - unfold r3Cb. rewrite robotCb_silent. constructor.
    - unfold r4Cb. rewrite robotCb_silent. constructor. }
  split; [exact Hs |]. split; [exact W |].
  rewrite Forall_forall in W. split.
  - intros m Hin. exact (W _ Hin).
  - intros Hin. exact (W _ Hin).
Qed.

Lemma node_never_publishes_witness :
  reachable lapjv_identity (run lapjv_identity arrive_then_leave mission5) /\
  ~ In GoPub
      (events_of (react lapjv_identity Tick
                    (run lapjv_identity arrive_then_leave mission5))).
Proof.
  assert (Hr : reachable lapjv_identity (run lapjv_identity arrive_then_leave mission5))
    by (exists params5, arrive_then_leave; reflexivity).
  split; [exact Hr |].
  exact (proj2 (proj2 (proj2 (node_never_publishes lapjv_identity _ Tick Hr)))).
Defined.

(** ** The control loop *)

Lemma set_formation_completed_same (s : Mission) (v : bool) :
  formation_completed s = v -> set_formation_completed v s = s.
Proof. intros <-. destruct s. reflexivity. Qed.

Lemma set_M_END_same (s : Mission) (v : bool) : M_END s = v -> set_M_END v s = s.
Proof. intros <-. destruct s. reflexivity. Qed.

Lemma set_M_START_same (s : Mission) (v : bool) : M_START s = v -> set_M_START v s = s.
Proof. intros <-. destruct s. reflexivity. Qed.

Lemma set_P_is_set_same (s : Mission) (v : bool) : P_is_set s = v -> set_P_is_set v s = s.
Proof. intros <-. destruct s. reflexivity. Qed.

Lemma set_S_is_set_same (s : Mission) (v : bool) : S_is_set s = v -> set_S_is_set v s = s.
Proof. intros <-. destruct s. reflexivity. Qed.

Lemma set_G_is_set_same (s : Mission) (v : bool) : G_is_set s = v -> set_G_is_set v s = s.
Proof. intros <-. destruct s. reflexivity. Qed.

Lemma tick_again_complete (A : Mission) :
  M_START A = false -> all (arrival_state A) = true ->
  formation_completed A = true -> M_END A = true -> P_is_set A = false ->
  S_is_set A = false -> G_is_set A = false ->
  tick A = (Ret tt, A, []).
Proof.
  intros Hs Ha Hf He HP HS HG. rewrite (tick_stopped_run A Hs), Ha.
  rewrite (set_formation_completed_same A true Hf), (set_M_END_same A true He),
    (set_M_START_same A false Hs), (set_P_is_set_same A false HP),
    (set_S_is_set_same A false HS), (set_G_is_set_same A false HG).
  reflexivity.
Qed.

(** X7: a second pass of the control loop with no input in between leaves
    the mission object as the first pass left it, and once a pass has found
    every robot arrived the next one publishes nothing. *)
Theorem tick_idempotent (st : Mission) :
  state_of (tick (state_of (tick st))) = state_of (tick st) /\
  (all (arrival_state st) = true -> events_of (tick (state_of (tick st))) = []).
Proof.
  destruct (M_START st) eqn:Hs.
  - rewrite (tick_started_run st Hs). unfold state_of at 2 3 4. cbn [fst snd].
    destruct (all (arrival_state st)) eqn:Ha.
    + rewrite tick_again_complete by (try reflexivity; exact Ha).
      split; reflexivity.
    + set (A := set_formation_completed false (set_M_END false st)).
      rewrite (tick_started_run A Hs).
      change (arrival_state A) with (arrival_state st). rewrite Ha.
      unfold state_of. cbn [fst snd].
      rewrite (set_M_END_same A false eq_refl),
        (set_formation_completed_same A false eq_refl).
      split; [reflexivity | discriminate].
  - rewrite (tick_stopped_run st Hs). unfold state_of at 2 3 4. cbn [fst snd].
    destruct (all (arrival_state st)) eqn:Ha.
    + rewrite tick_again_complete by (try reflexivity; exact Ha).
      split; reflexivity.
    + set (A := set_formation_completed false st).
      rewrite (tick_stopped_run A Hs).
      change (arrival_state A) with (arrival_state st). rewrite Ha.
      unfold state_of. cbn [fst snd].
      rewrite (set_formation_completed_same A false eq_refl).
      split; [reflexivity | discriminate].
Qed.

Lemma tick_idempotent_witness :
  all (arrival_state (set_arrival_state [true; true; true; true; true] mission5)) = true /\
  events_of (tick (state_of (tick
    (set_arrival_state [true; true; true; true; true] mission5)))) = [].
Proof.
  split; [reflexivity |].
  apply (tick_idempotent (set_arrival_state [true; true; true; true; true] mission5)).
  reflexivity.
Defined.

(** ** More than five robots *)

Lemma all_false_entry (l : list bool) (k : nat) :
  nth_error l k = Some false -> all l = false.
Proof.
  intros H. apply all_false_iff. apply Exists_exists. exists false.
  split; [eapply nth_error_In; exact H | reflexivity].
Qed.

Lemma list_set_other {A : Type} (l r : list A) (i j : nat) (v : A) :
  list_set l i v = Some r -> i <> j -> nth_error r j = nth_error l j.
Proof.
  intros H Hne. assert (E : list_upd l i v = r) by (unfold list_upd; now rewrite H).
  rewrite <- E. now apply list_upd_other.
Qed.

Lemma robotCb_other_arrival (i j : nat) (msg : RobotState) (st : Mission) :
  i <> j ->
  nth_error (arrival_state (state_of (robotCb i msg st))) j
  = nth_error (arrival_state st) j.
Proof.
  intros Hne. unfold robotCb, bind, get, modify, state_of.
  destruct (list_set (current_P st) i _) as [cur |]; cbn [index_or_raise ret raise fst snd];
    [| reflexivity].
  destruct (list_set (arrival_state st) i (arrived msg)) as [arr |] eqn:Ea;
    cbn [index_or_raise ret raise fst snd]; [| reflexivity].
  destruct (list_set (received_goals st) i (received_goal msg)) as [rec |];
    cbn [index_or_raise ret raise fst snd arrival_state set_received_goals
         set_arrival_state set_current_P];
    exact (list_set_other _ _ i j _ Ea Hne).
Qed.

Lemma react_sixth_absent (lapjv : matrix -> outcome (R * list nat * list nat))
  (i : input) (st : Mission) :
  sixth_absent st -> sixth_absent (state_of (react lapjv i st)).
Proof.
  intros (H5 & He & Hs & Hf). unfold sixth_absent.
  destruct i as [| shape now | | | msg | msg | msg | msg | msg]; cbn [react].
  - rewrite (tick_stopped_run st Hs). rewrite (all_false_entry _ 5 H5).
    unfold state_of. cbn [fst snd]. repeat split; assumption.
  - rewrite (startCb_not_started_state lapjv shape now st Hs).
    pose proof (validate_positions_frame (snapshot shape st)) as F.
    unfold same_but_valid in F.
    destruct F as (_ & _ & _ & _ & _ & _ & _ & _ & _ & _ & _ & _ & Fa & _ & Ff & _
                   & _ & _ & Fs & Fe & _).
    rewrite Fa, Ff, Fs, Fe. repeat split; assumption.
  - repeat split; assumption.
  - repeat split; assumption.
  - unfold r0Cb. rewrite robotCb_other_arrival by lia.
    destruct (robotCb_flags 0 msg st) as (E1 & E2). rewrite E1, E2.
    repeat split; try assumption.
    assert (P0 : preserves (fun s => formation_completed s = false) (robotCb 0 msg))
      by (unfold robotCb; preserve; apply preserves_modify; intros s Hs'; exact Hs').
    apply P0, Hf.
  - unfold r1Cb. rewrite robotCb_other_arrival by lia.
    destruct (robotCb_flags 1 msg st) as (E1 & E2). rewrite E1, E2.
    repeat split; try assumption.
    assert (P0 : preserves (fun s => formation_completed s = false) (robotCb 1 msg))
      by (unfold robotCb; preserve; apply preserves_modify; intros s Hs'; exact Hs').
    apply P0, Hf.
  - unfold r2Cb. rewrite robotCb_other_arrival by lia.
    destruct (robotCb_flags 2 msg st) as (E1 & E2). rewrite E1, E2.
    repeat split; try assumption.
    assert (P0 : preserves (fun s => formation_completed s = false) (robotCb 2 msg))
      by (unfold robotCb; preserve; apply preserves_modify; intros s Hs'; exact Hs').
    apply P0, Hf.
  - unfold r3Cb. rewrite robotCb_other_arrival by lia.
    destruct (robotCb_flags 3 msg st) as (E1 & E2). rewrite E1, E2.
    repeat split; try assumption.
    assert (P0 : preserves (fun s => formation_completed s = false) (robotCb 3 msg))
      by (unfold robotCb; preserve; apply preserves_modify; intros s Hs'; exact Hs').
    apply P0, Hf.
  - unfold r4Cb. rewrite robotCb_other_arrival by lia.
    destruct (robotCb_flags 4 msg st) as (E1 & E2). rewrite E1, E2.
    repeat split; try assumption.
    assert (P0 : preserves (fun s => formation_completed s = false) (robotCb 4 msg))
      by (unfold robotCb; preserve; apply preserves_modify; intros s Hs'; exact Hs').
    apply P0, Hf.
Qed.

(** X8: with more than five robots the formation is never complete.  The
    node has callbacks for robots 0 to 4 only, so the arrival flag of
    robot 5 stays false: in every state reached from the object of
    [__init__], [all(arrival_state)], [formation_completed] and [M_END] are
    false. *)
Theorem six_robots_never_complete
  (lapjv : matrix -> outcome (R * list nat * list nat))
  (prm : Params) (l : list input) :
  (5 < nRobots prm)%nat ->
  let st := run lapjv l (Mission_init prm) in
  all (arrival_state st) = false /\ formation_completed st = false /\
  M_END st = false.
Proof.
  intros Hn. cbv zeta.
  assert (H0 : sixth_absent (Mission_init prm)).
  { unfold sixth_absent, Mission_init.
    cbn [arrival_state M_END M_START formation_completed].
    split; [| repeat split].
    rewrite nth_error_repeat by lia. reflexivity. }
  assert (H : sixth_absent (run lapjv l (Mission_init prm))).
  { revert H0. generalize (Mission_init prm). induction l as [|i l IH]; intros st H0;
      [exact H0 |]. cbn [run]. apply IH, react_sixth_absent, H0. }
  destruct H as (H5 & He & _ & Hf).
  split; [exact (all_false_entry _ 5 H5) |]. split; assumption.
Qed.

Lemma six_robots_never_complete_witness :
  (5 < nRobots params6)%nat /\
  M_END (run lapjv_identity arrive_then_leave (Mission_init params6)) = false.
Proof.
  assert (H : (5 < nRobots params6)%nat) by (cbn; lia).
  split; [exact H |].
  exact (proj2 (proj2 (six_robots_never_complete lapjv_identity params6
                         arrive_then_leave H))).
Defined.

(** ** The subscriptions of [main] *)

Lemma topic_name (prm : Params) (k : nat) :
  (k < nRobots prm)%nat ->
  nth_error (r_loc_topic_names (Mission_init prm)) k
  = Some ("/robot" ++ str k ++ "/state")%string.
Proof.
  intros H. unfold Mission_init. cbn [r_loc_topic_names].
  apply (nth_error_map_range (fun i => ("/robot" ++ str i ++ "/state")%string)), H.
Qed.

Lemma main_subscriptions_run (M : Mission) :
  main_subscriptions M
  = match nth_error (r_loc_topic_names M) 0, nth_error (r_loc_topic_names M) 1,
          nth_error (r_loc_topic_names M) 2, nth_error (r_loc_topic_names M) 3,
          nth_error (r_loc_topic_names M) 4 with
    | Some t0, Some t1, Some t2, Some t3, Some t4 =>
        (Ret [(t0, 0%nat); (t1, 1%nat); (t2, 2%nat); (t3, 3%nat); (t4, 4%nat)], M, [])
    | _, _, _, _, _ => (Raise IndexError, M, [])
    end.
Proof.
  unfold main_subscriptions, bind, get.
  destruct (nth_error (r_loc_topic_names M) 0); [| reflexivity].
  destruct (nth_error (r_loc_topic_names M) 1); [| reflexivity].
  destruct (nth_error (r_loc_topic_names M) 2); [| reflexivity].
  destruct (nth_error (r_loc_topic_names M) 3); [| reflexivity].
  destruct (nth_error (r_loc_topic_names M) 4); reflexivity.
Qed.

(** X9: [main] gets to its control loop only with five robots or more.  On
    the object of [__init__] the five subscriptions to the robot topics are
    made, to "/robot0/state" ... "/robot4/state" for [r0Cb] ... [r4Cb], when
    [n >= 5]; with fewer robots looking up the topic of robot [n] raises
    IndexError.  The mission object is not written. *)
Theorem main_needs_five_robots (prm : Params) :
  state_of (main_subscriptions (Mission_init prm)) = Mission_init prm /\
  ((5 <= nRobots prm)%nat ->
   outcome_of (main_subscriptions (Mission_init prm))
   = Ret [("/robot0/state"%string, 0%nat); ("/robot1/state"%string, 1%nat);
          ("/robot2/state"%string, 2%nat); ("/robot3/state"%string, 3%nat);
          ("/robot4/state"%string, 4%nat)]) /\
  ((nRobots prm < 5)%nat ->
   outcome_of (main_subscriptions (Mission_init prm)) = Raise IndexError).
Proof.
  rewrite main_subscriptions_run.
  destruct (Nat.lt_ge_cases (nRobots prm) 5) as [Hlt | Hge].
  - assert (Hnone : nth_error (r_loc_topic_names (Mission_init prm)) (nRobots prm) = None).
    { apply nth_error_None. unfold Mission_init, range.
      cbn [r_loc_topic_names]. rewrite length_map, length_seq. lia. }
    assert (Hc : (nRobots prm = 0 \/ nRobots prm = 1 \/ nRobots prm = 2 \/
                  nRobots prm = 3 \/ nRobots prm = 4)%nat) by lia.
    destruct (nth_error (r_loc_topic_names (Mission_init prm)) 0) eqn:E0;
      [| split; [reflexivity | split; [intros; lia | intros; reflexivity]]].
    destruct (nth_error (r_loc_topic_names (Mission_init prm)) 1) eqn:E1;
      [| split; [reflexivity | split; [intros; lia | intros; reflexivity]]].
    destruct (nth_error (r_loc_topic_names (Mission_init prm)) 2) eqn:E2;
      [| split; [reflexivity | split; [intros; lia | intros; reflexivity]]].
    destruct (nth_error (r_loc_topic_names (Mission_init prm)) 3) eqn:E3;
      [| split; [reflexivity | split; [intros; lia | intros; reflexivity]]].
    destruct (nth_error (r_loc_topic_names (Mission_init prm)) 4) eqn:E4;
      [| split; [reflexivity | split; [intros; lia | intros; reflexivity]]].
    exfalso. destruct Hc as [Hc | [Hc | [Hc | [Hc | Hc]]]]; rewrite Hc in Hnone; congruence.
  - rewrite !topic_name by lia.
    split; [reflexivity |]. split; [intros _; reflexivity | lia].
Qed.

Lemma main_needs_five_robots_witness :
  (5 <= nRobots params6)%nat /\
  exists subs, outcome_of (main_subscriptions (Mission_init params6)) = Ret subs /\
               length subs = 5%nat.
Proof.
  assert (H : (5 <= nRobots params6)%nat) by (cbn; lia).
  split; [exact H |].
  destruct (main_needs_five_robots params6) as (_ & Hok & _).
  eexists. split; [exact (Hok H) | reflexivity].
Defined.

(** ** The assignment that fails *)

(** X10: [compute_assignment] fails before it writes anything.  With an
    empty shape it raises ValueError without any effect; with a non-empty
    shape and a solver that raises, the exception of the solver is raised
    after the first warning; in both cases the mission object is
    unchanged, so [G_is_set] keeps its value. *)
Theorem compute_assignment_failures
  (lapjv : matrix -> outcome (R * list nat * list nat)) (now : R) (st : Mission) :
  (S_array st = [] ->
   compute_assignment lapjv now st = (Raise ValueError, st, [])) /\
  (forall e, S_array st <> [] ->
     lapjv (cost_matrix (P st) (S_array st)) = Raise e ->
     compute_assignment lapjv now st
     = (Raise e, st, [LogWarn "Solving Assignement Problem...." []])).
Proof.
  split.
  - intros E. unfold compute_assignment, bind at 1. cbn [get].
    unfold bind at 1. rewrite E. reflexivity.
  - intros e Hne Hsol. rewrite compute_assignment_unfold.
    unfold bind at 1. cbn [get]. unfold bind at 1.
    rewrite (nonempty_case (S_array st) (@raise Mission event matrix ValueError)
               (ret (cost_matrix (P st) (S_array st))) Hne).
    cbn [ret]. unfold bind at 1. cbn [logwarn emit]. unfold bind at 1.
    rewrite Hsol. reflexivity.
Qed.

Lemma compute_assignment_failures_witness :
  S_array ready5 <> [] /\
  compute_assignment lapjv_fails 0 ready5
  = (Raise ValueError, ready5, [LogWarn "Solving Assignement Problem...." []]).
Proof.
  assert (H : S_array ready5 <> []) by discriminate.
  split; [exact H |].
  exact (proj2 (compute_assignment_failures lapjv_fails 0 ready5) ValueError H eq_refl).
Defined.

(** X11: whatever the mission object and the solver, and whether it returns
    or raises, [compute_assignment] writes only [G], the goals message and
    [G_is_set]: the snapshot [P], the shape, the current positions, the
    per-robot flags and the flags [M_START], [M_END], [P_is_set],
    [S_is_set], [valid_P], [valid_S] are as before, and its only effects
    are warnings. *)
Theorem compute_assignment_writes_goals_only
  (lapjv : matrix -> outcome (R * list nat * list nat)) (now : R) (st : Mission) :
  same_but_goals st (state_of (compute_assignment lapjv now st)) /\
  Forall is_warning (events_of (compute_assignment lapjv now st)).
Proof.
  split; [apply compute_assignment_frame | apply compute_assignment_warns].
Qed.

(** ** Validation at the edges *)

Lemma scan_rows_single (arr_of : Mission -> list Vec3) (flag_of : Mission -> bool)
  (unset : Mission -> Mission) (fmt : string) (s : Mission) :
  flag_of s = true -> (n s <= 1)%nat ->
  for_in (range (n s)) (scan_rows arr_of flag_of unset fmt) s = (Ret tt, s, []).
Proof.
  intros Hf Hn. destruct (n s) as [|[|k]] eqn:En; [reflexivity | | lia].
  cbn [range seq for_in]. unfold bind at 1, scan_rows, bind at 1. cbn [get].
  rewrite Hf, En. reflexivity.
Qed.

(** X12: with at most one robot there is no pair to check: whatever the
    arrays hold, even if they are empty, [validate_positions] returns
    without raising and without a warning, and sets [valid_P] and
    [valid_S] to true. *)
Theorem validate_positions_single_robot (st : Mission) :
  (n st <= 1)%nat ->
  validate_positions st = (Ret tt, set_valid_S true (set_valid_P true st), []).
Proof.
  intros Hn. rewrite validate_positions_unfold.
  unfold bind at 1. cbn [modify]. unfold bind at 1. cbn [modify].
  unfold bind at 1. cbn [get]. unfold bind at 1.
  rewrite (scan_rows_single P valid_P (set_valid_P false) _
             (set_valid_S true (set_valid_P true st)) eq_refl Hn).
  unfold bind at 1. cbn [get].
  rewrite (scan_rows_single S_array valid_S (set_valid_S false) _
             (set_valid_S true (set_valid_P true st)) eq_refl Hn).
  reflexivity.
Qed.

Lemma validate_positions_single_robot_witness :
  (n (set_S_array [] (Mission_init
        {| nRobots := 1; param_R := 1 / 2; param_vmax := 1; param_origin := [];
           param_east := []; param_shape := [] |})) <= 1)%nat /\
  outcome_of (validate_positions (set_S_array [] (Mission_init
        {| nRobots := 1; param_R := 1 / 2; param_vmax := 1; param_origin := [];
           param_east := []; param_shape := [] |}))) = Ret tt.
Proof.
  split; [cbn; lia |].
  rewrite (validate_positions_single_robot (set_S_array [] (Mission_init
        {| nRobots := 1; param_R := 1 / 2; param_vmax := 1; param_origin := [];
           param_east := []; param_shape := [] |}))) by (cbn; lia).
  reflexivity.
Defined.

Lemma scan_row_index_error (arr : list Vec3) (d : R) (unset : Mission -> Mission)
  (fmt : string) (i : nat) (js1 : list nat) (j : nat) (js2 : list nat) (s : Mission) :
  (forall j', In j' js1 ->
     j' = i \/ ((i < length arr)%nat /\ (j' < length arr)%nat /\ dist arr i j' > d)) ->
  j <> i -> (length arr <= i \/ length arr <= j)%nat ->
  for_in (js1 ++ j :: js2) (scan_row arr d unset fmt i) s = (Raise IndexError, s, []).
Proof.
  intros H1 Hj Hlen. induction js1 as [|j' js1 IH].
  - cbn [app for_in]. unfold bind at 1, scan_row.
    assert (E : (i =? j)%nat = false) by (apply Nat.eqb_neq; congruence).
    rewrite E. cbn [negb]. unfold bind.
    destruct (nth_error arr i) as [pi |] eqn:Ei; cbn [index_or_raise ret raise];
      [| reflexivity].
    assert (Hi : (i < length arr)%nat) by (apply nth_error_Some; congruence).
    assert (Ej : nth_error arr j = None) by (apply nth_error_None; lia).
    rewrite Ej. reflexivity.
  - cbn [app for_in]. unfold bind at 1.
    replace (scan_row arr d unset fmt i j' s) with (Ret Continue, s, @nil event).
    + rewrite IH; [reflexivity |]. intros k Hk. apply H1. now right.
    + unfold scan_row. destruct (H1 j' (or_introl eq_refl)) as [-> | (Hi & Hj' & Hd)].
      * rewrite Nat.eqb_refl. reflexivity.
      * destruct (negb (i =? j')%nat); [| reflexivity].
        destruct (nth_error arr i) as [pi |] eqn:Ei; [| apply nth_error_None in Ei; lia].
        destruct (nth_error arr j') as [pj |] eqn:Ej; [| apply nth_error_None in Ej; lia].
        unfold bind. cbn [index_or_raise ret].
        assert (Hdd : dist arr i j' = norm (vsub pi pj)).
        { unfold dist. now rewrite (nth_error_nth _ _ _ Ei), (nth_error_nth _ _ _ Ej). }
        rewrite <- Hdd. rewrite (proj2 (fle_false _ _) Hd). reflexivity.
Qed.

Lemma range_split (k j : nat) :
  (j < k)%nat -> range k = seq 0 j ++ j :: seq (S j) (k - S j).
Proof.
  intros H. unfold range. replace k with (j + S (k - S j))%nat at 1 by lia.
  rewrite seq_app. reflexivity.
Qed.

(** X13: a shape with fewer slots than robots is not rejected, it makes the
    validation raise.  When the start positions fit, the shape has fewer
    than [n] rows, [n] is at least 2 and no slot is within [delta] of slot
    0, [validate_positions] raises IndexError in the loop over the shape,
    after the verdict on the start positions: [valid_S] is left true. *)
Theorem validate_positions_short_shape (st : Mission) :
  (n st <= length (P st))%nat -> (length (S_array st) < n st)%nat -> (2 <= n st)%nat ->
  (forall j, (0 < j < length (S_array st))%nat -> dist (S_array st) 0 j > delta st) ->
  validate_positions st
  = (Raise IndexError,
     set_valid_S true (set_valid_P (separated (P st) (delta st) (n st)) st),
     separation_warning "Robots %s and %s are not well seperated" (P st) (delta st) (n st)).
Proof.
  intros HP HS Hn Hfar. rewrite validate_positions_unfold.
  unfold bind at 1. cbn [modify]. unfold bind at 1. cbn [modify].
  unfold bind at 1. cbn [get]. unfold bind at 1.
  set (s0 := set_valid_S true (set_valid_P true st)).
  rewrite (scan_rows_run P valid_P (set_valid_P false) _ (range (n s0)) s0);
    [| reflexivity | reflexivity | exact HP | intros i Hi; apply in_seq in Hi; cbn in *; lia].
  change (P s0) with (P st). change (delta s0) with (delta st). change (n s0) with (n st).
  assert (Hloop : forall s : Mission,
            valid_S s = true -> S_array s = S_array st -> delta s = delta st ->
            n s = n st ->
            for_in (range (n s))
              (scan_rows S_array valid_S (set_valid_S false)
                 "Goals %s and %s are not well seperated") s
            = (Raise IndexError, s, [])).
  { intros s Hv HSs Hds Hns. rewrite Hns.
    destruct (n st) as [|k] eqn:En; [lia |].
    cbn [range seq for_in]. unfold bind at 1, scan_rows, bind at 1. cbn [get].
    rewrite Hv. cbn [negb]. unfold bind at 1. rewrite HSs, Hds, Hns.
    set (j := Nat.max (length (S_array st)) 1).
    change (0%nat :: seq 1 k) with (range (S k)).
    rewrite (range_split (S k) j) by (unfold j; lia).
    rewrite scan_row_index_error; [reflexivity | | unfold j; lia | unfold j; lia].
    intros j' Hj'. apply in_seq in Hj'.
    destruct j' as [|j']; [now left | right].
    assert (Hjm : (S j' < length (S_array st))%nat) by (unfold j in Hj'; lia).
    repeat split; [lia | exact Hjm | apply Hfar; lia]. }
  unfold separated, separation_warning.
  destruct (first_close_pair (P st) (delta st) (n st) (range (n st))) as [[i j] |].
  - unfold bind at 1. cbn [get]. rewrite Hloop by reflexivity. reflexivity.
  - unfold bind at 1. cbn [get]. rewrite Hloop by reflexivity. reflexivity.
Qed.

Lemma validate_positions_short_shape_witness :
  (length (S_array (set_S_array line3 ready5)) < n (set_S_array line3 ready5))%nat /\
  outcome_of (validate_positions (set_S_array line3 ready5)) = Raise IndexError /\
  valid_S (state_of (validate_positions (set_S_array line3 ready5))) = true.
Proof.
  assert (H1 : (n (set_S_array line3 ready5)
                <= length (P (set_S_array line3 ready5)))%nat) by (cbn; lia).
  assert (H2 : (length (S_array (set_S_array line3 ready5))
                < n (set_S_array line3 ready5))%nat) by (cbn; lia).
  assert (H3 : (2 <= n (set_S_array line3 ready5))%nat) by (cbn; lia).
  assert (H4 : forall j, (0 < j < length (S_array (set_S_array line3 ready5)))%nat ->
                 dist (S_array (set_S_array line3 ready5)) 0 j
                 > delta (set_S_array line3 ready5)).
  { intros j Hj. change (delta (set_S_array line3 ready5)) with (delta mission5).
    rewrite delta_mission5. cbn in Hj.
    assert (Hc : (j = 1 \/ j = 2)%nat) by lia.
    destruct Hc as [-> | ->]; unfold dist, norm, vsub; cbn;
      apply sqrt_lt_1; lra. }
  split; [exact H2 |].
  rewrite (validate_positions_short_shape (set_S_array line3 ready5) H1 H2 H3 H4).
  split; reflexivity.
Defined.

(* ================================================================== *)
(** * Further properties of the bridge *)

Module BridgeMore.
Import MasterBridge.

(** ** Programs that only read the object *)

Section ReadOnly.

Variables St Ev : Type.

Lemma reads_ret {A : Type} (a : A) : reads_only (@ret St Ev A a).
Proof. intros s. reflexivity. Qed.

Lemma reads_raise {A : Type} (e : exn) : reads_only (@raise St Ev A e).
Proof. intros s. reflexivity. Qed.

Lemma reads_get : reads_only (@get St Ev).
Proof. intros s. reflexivity. Qed.

Lemma reads_emit (e : Ev) : reads_only (@emit St Ev e).
Proof. intros s. reflexivity. Qed.

Lemma reads_index_or_raise {A : Type} (o : option A) :
  reads_only (@index_or_raise St Ev A o).
Proof. destruct o; intros s; reflexivity. Qed.

Lemma reads_bind {A B : Type} (m : prog St Ev A) (k : A -> prog St Ev B) :
  reads_only m -> (forall a, reads_only (k a)) -> reads_only (bind m k).
Proof.
  intros Hm Hk s. unfold bind, state_of.
  specialize (Hm s). unfold state_of in Hm.
  destruct (m s) as [[[a | e] s1] ev1]; cbn [fst snd] in *; [| exact Hm].
  subst s1. specialize (Hk a s). unfold state_of in Hk.
  destruct (k a s) as [[r s2] ev2]. exact Hk.
Qed.

Lemma reads_for_in (l : list nat) (body : nat -> prog St Ev ctl) :
  (forall i, reads_only (body i)) -> reads_only (for_in l body).
Proof.
  intros Hb. induction l as [|i l IH]; cbn [for_in]; [apply reads_ret |].
  apply reads_bind; [apply Hb |].
  intros [|]; [exact IH | apply reads_ret].
Qed.

End ReadOnly.

Ltac readonly :=
  repeat first
    [ apply reads_bind; [| intros ?]
    | apply reads_for_in; intros ?
    | apply reads_ret
    | apply reads_raise
    | apply reads_get
    | apply reads_emit
    | apply reads_index_or_raise
    | match goal with
      | |- reads_only (if ?b then _ else _) => destruct b
      | |- reads_only (match ?o with Some _ => _ | None => _ end) => destruct o
      end ].

Lemma recv_one_reads (now : R) (msg : option MAVLink_message) :
  reads_only (recv_one now msg).
Proof.
  intros self. apply BridgeProperties.recv_one_state.
Qed.

Lemma recvCb_reads (inbox : list (R * option MAVLink_message)) : reads_only (recvCb inbox).
Proof.
  induction inbox as [|[now msg] inbox IH]; cbn [recvCb]; [apply reads_ret |].
  apply reads_bind; [apply recv_one_reads | intros _; exact IH].
Qed.

Lemma on_command_reads (c : operator_command) : reads_only (on_command c).
Proof.
  destruct c; cbn [on_command];
    unfold armCb, disarmCb, tkoCb, landCb, holdCb, posctlCb, shutdownCb, rebootCb,
      formationCb, goCb, nRCb, setOriginCb, setEastCb, setTOALTCb, log_addressed,
      command_long_send, logwarn, key_or_raise;
    readonly.
Qed.

(** X14: the bridge object is never written: whatever the operator command,
    the inbox of the receive loop or the pass of [main], and whether the
    callback returns or raises, the bridge is afterwards as it was. *)
Theorem bridge_is_read_only (self : Bridge) :
  (forall c, state_of (on_command c self) = self) /\
  (forall inbox, state_of (recvCb inbox self) = self) /\
  state_of (main_pass self) = self.
Proof.
  split; [intros c; apply on_command_reads |].
  split; [intros inbox; apply recvCb_reads |].
  unfold main_pass, send_heartbeat, bind, get, state_of. cbn [fst snd].
  destruct (ENABLE_MASTER_GCS self); reflexivity.
Qed.

(** ** The commands of the operator *)





Ltac command_effects :=
  repeat first
    [ apply emits_bind; [| intros ?]
    | apply emits_for_in; intros ?
    | apply emits_ret
    | apply emits_raise
    | apply emits_get
    | apply emits_index_or_raise
    | apply emits_emit; first [exact I | repeat split]
    | match goal with
      | |- emits_only _ (if ?b then _ else _) => destruct b
      | |- emits_only _ (match ?o with Some _ => _ | None => _ end) => destruct o
      end ].

Lemma on_command_opcode (c : operator_command) :
  emits_only (has_opcode (opcode_of_kind (kind_of c)) (arming_of_kind (kind_of c)))
    (on_command c).
Proof.
  destruct c; cbn [on_command kind_of opcode_of_kind arming_of_kind];
    unfold armCb, disarmCb, tkoCb, landCb, holdCb, posctlCb, shutdownCb, rebootCb,
      formationCb, goCb, nRCb, setOriginCb, setEastCb, setTOALTCb, log_addressed,
      command_long_send, logwarn;
    command_effects.
Qed.

Lemma on_command_master (c : operator_command) :
  emits_only is_master_command (on_command c).
Proof.
  destruct c; cbn [on_command];
    unfold armCb, disarmCb, tkoCb, landCb, holdCb, posctlCb, shutdownCb, rebootCb,
      formationCb, goCb, nRCb, setOriginCb, setEastCb, setTOALTCb, log_addressed,
      command_long_send, logwarn;
    command_effects.
Qed.

Lemma opcode_of_kind_inj (k1 k2 : command_kind) :
  opcode_of_kind k1 = opcode_of_kind k2 ->
  k1 = k2 \/ (k1 = KArm /\ k2 = KDisarm) \/ (k1 = KDisarm /\ k2 = KArm).
Proof.
  destruct k1, k2; cbn [opcode_of_kind]; intros H;
    first [discriminate H | now left | right; left; split; reflexivity
          | right; right; split; reflexivity].
Qed.

(** X16: the opcode of a command on the wire tells which kind of operator
    command it comes from.  Every COMMAND_LONG the bridge sends has
    [param1 = MASTER_CMD]; two commands sent with the same opcode [param2]
    come from operator commands of the same kind, except that arming and
    disarming share opcode 3 and differ in [param3], 1 to arm and 0 to
    disarm. *)
Theorem opcode_identifies_command
  (c1 c2 : operator_command) (self1 self2 : Bridge) (e1 e2 : event)
  (q2 q3 q3' : R) :
  In e1 (events_of (on_command c1 self1)) ->
  In e2 (events_of (on_command c2 self2)) ->
  sent_opcode e1 = Some (q2, q3) -> sent_opcode e2 = Some (q2, q3') ->
  is_master_command e1 /\ is_master_command e2 /\
  (kind_of c1 = kind_of c2 \/
   (kind_of c1 = KArm /\ kind_of c2 = KDisarm /\ q3 = 1 /\ q3' = 0) \/
   (kind_of c1 = KDisarm /\ kind_of c2 = KArm /\ q3 = 0 /\ q3' = 1)).
Proof.
  intros H1 H2 E1 E2.
  pose proof (on_command_opcode c1 self1) as O1.
  pose proof (on_command_opcode c2 self2) as O2.
  pose proof (on_command_master c1 self1) as M1.
  pose proof (on_command_master c2 self2) as M2.
  rewrite Forall_forall in O1, O2, M1, M2.
  specialize (O1 _ H1). specialize (O2 _ H2).
  split; [exact (M1 _ H1) |]. split; [exact (M2 _ H2) |].
  destruct e1; try discriminate E1. destruct e2; try discriminate E2.
  cbn [sent_opcode] in E1, E2. injection E1 as -> ->. injection E2 as E2 ->.
  cbn [has_opcode] in O1, O2. destruct O1 as (C1 & A1). destruct O2 as (C2 & A2).
  assert (Hc : opcode_of_kind (kind_of c1) = opcode_of_kind (kind_of c2)).
  { apply eq_IZR. congruence. }
  destruct (opcode_of_kind_inj _ _ Hc) as [Hk | [(Ha & Hd) | (Hd & Ha)]].
  - now left.
  - right; left. rewrite Ha in A1. rewrite Hd in A2. cbn in A1, A2. auto.
  - right; right. rewrite Hd in A1. rewrite Ha in A2. cbn in A1, A2. auto.
Qed.

Lemma opcode_identifies_command_witness :
  kind_of (ArmRobot 2) = kind_of (DisarmRobot 4) \/
  (kind_of (ArmRobot 2) = KArm /\ kind_of (DisarmRobot 4) = KDisarm /\ 1 = 1 /\ 0 = 0) \/
  (kind_of (ArmRobot 2) = KDisarm /\ kind_of (DisarmRobot 4) = KArm /\ 1 = 0 /\ 0 = 1).
Proof.
  refine (proj2 (proj2 (opcode_identifies_command (ArmRobot 2) (DisarmRobot 4)
    bridge5 bridge5
    (CommandLongSend 2 0 MAV_CMD_USER_1 0 (IZR MASTER_CMD) (IZR MASTER_CMD_ARM) 1 0 0 0 0)
    (CommandLongSend 4 0 MAV_CMD_USER_1 0 (IZR MASTER_CMD) (IZR MASTER_CMD_ARM) 0 0 0 0 0)
    (IZR MASTER_CMD_ARM) 1 0 _ _ eq_refl eq_refl))).
  - left. reflexivity.
  - left. reflexivity.
Defined.

(** ** Acknowledgments and other accepted messages *)

Lemma feq_IZR (a b : Z) : feq (IZR a) (IZR b) = (a =? b)%Z.
Proof.
  destruct (Z.eqb_spec a b) as [-> | Hne].
  - now apply BridgeProperties.feq_true.
  - apply BridgeProperties.feq_false. intros H. apply Hne. now apply eq_IZR.
Qed.

Lemma dict_get_IZR (d : list (Z * string)) (k : Z) :
  dict_get d (IZR k) = dict_get_Z d k.
Proof.
  induction d as [|[k' s] d IH]; [reflexivity |].
  cbn [dict_get dict_get_Z]. rewrite feq_IZR, IH. reflexivity.
Qed.

Lemma recv_one_accepted (self : Bridge) (now : R) (msg : MAVLink_message) :
  passes_checks self msg -> param1 msg <> IZR ROBOT_STATE ->
  recv_one now (Some msg) self
  = if feq (param1 msg) (IZR MASTER_CMD_ACK)
    then match dict_get CMD_STRING (param2 msg) with
         | Some s =>
             (Ret tt, self,
              [LogWarn "[Master]: Got acknowledgment of %s from robot %s"
                 [AStr s; AInt (get_srcSystem msg - 1)]])
         | None => (Raise KeyError, self, [])
         end
    else (Ret tt, self, []).
Proof.
  intros Hc H1. pose proof (BridgeProperties.passes_checks_target self msg Hc) as Htg.
  rewrite <- (BridgeProperties.checks_bool self msg _ Htg) in Hc.
  unfold recv_one, bind, get, attribute. cbv beta iota zeta. rewrite Htg.
  unfold ret at 1. cbv beta iota zeta. rewrite Hc.
  rewrite (BridgeProperties.feq_false _ _ H1).
  destruct (feq (param1 msg) (IZR MASTER_CMD_ACK)); [| reflexivity].
  destruct (dict_get CMD_STRING (param2 msg)); reflexivity.
Qed.

Lemma CMD_STRING_known (id : Z) :
  (3 <= id <= 15)%Z -> exists name, dict_get_Z CMD_STRING id = Some name.
Proof.
  intros H.
  assert (Hc : (id = 3 \/ id = 4 \/ id = 5 \/ id = 6 \/ id = 7 \/ id = 8 \/ id = 9 \/
                id = 10 \/ id = 11 \/ id = 12 \/ id = 13 \/ id = 14 \/ id = 15)%Z) by lia.
  repeat (destruct Hc as [-> | Hc]; [eexists; reflexivity |]).
  subst id. eexists; reflexivity.
Qed.

Lemma CMD_STRING_unknown (id : Z) :
  (id < 3 \/ 15 < id)%Z -> dict_get_Z CMD_STRING id = None.
Proof.
  intros H. unfold CMD_STRING. cbn [dict_get_Z].
  repeat match goal with
         | |- context [(id =? ?k)%Z] =>
             destruct (Z.eqb_spec id k) as [E | _]; [lia |]
         end.
  reflexivity.
Qed.

(** X17: an acknowledgment that passes the checks, with an integer command
    identifier: for an identifier from 3 to 15 the receive loop logs the
    name of the acknowledged command and the robot [source - 1], and
    publishes nothing; for any other identifier (the acknowledgment opcode
    16 itself, or 2) the lookup in [CMD_STRING] raises KeyError. *)
Theorem recv_one_acknowledgment (self : Bridge) (now : R) (msg : MAVLink_message) (id : Z) :
  passes_checks self msg -> param1 msg = IZR MASTER_CMD_ACK -> param2 msg = IZR id ->
  ((3 <= id <= 15)%Z ->
   exists name,
     dict_get_Z CMD_STRING id = Some name /\
     recv_one now (Some msg) self
     = (Ret tt, self,
        [LogWarn "[Master]: Got acknowledgment of %s from robot %s"
           [AStr name; AInt (get_srcSystem msg - 1)]])) /\
  ((id < 3 \/ 15 < id)%Z -> recv_one now (Some msg) self = (Raise KeyError, self, [])).
Proof.
  intros Hc H1 H2.
  assert (Hn1 : param1 msg <> IZR ROBOT_STATE).
  { rewrite H1. unfold ROBOT_STATE, MASTER_CMD_ACK. lra. }
  rewrite (recv_one_accepted self now msg Hc Hn1).
  rewrite (BridgeProperties.feq_true _ _ H1), H2, dict_get_IZR.
  split.
  - intros Hid. destruct (CMD_STRING_known id Hid) as (name & E).
    exists name. split; [exact E |]. rewrite E. reflexivity.
  - intros Hid. rewrite (CMD_STRING_unknown id Hid). reflexivity.
Qed.

Lemma recv_one_acknowledgment_witness :
  passes_checks bridge5 (ack_from 2 16) /\
  recv_one 9 (Some (ack_from 2 16)) bridge5 = (Raise KeyError, bridge5, []) /\
  exists name,
    dict_get_Z CMD_STRING 4 = Some name /\
    recv_one 9 (Some (ack_from 2 4)) bridge5
    = (Ret tt, bridge5,
       [LogWarn "[Master]: Got acknowledgment of %s from robot %s"
          [AStr name; AInt (get_srcSystem (ack_from 2 4) - 1)]]).
Proof.
  assert (H16 : passes_checks bridge5 (ack_from 2 16))
    by (unfold passes_checks; simpl; repeat split; lia).
  assert (H4 : passes_checks bridge5 (ack_from 2 4))
    by (unfold passes_checks; simpl; repeat split; lia).
  split; [exact H16 |]. split.
  - apply (recv_one_acknowledgment bridge5 9 (ack_from 2 16) 16 H16 eq_refl eq_refl). lia.
  - apply (recv_one_acknowledgment bridge5 9 (ack_from 2 4) 4 H4 eq_refl eq_refl). lia.
Defined.

(** X18: the receive loop publishes exactly the state reports.  With one
    publisher per robot, a message leads to a publication if and only if
    it passes the four checks and [param1] is ROBOT_STATE; a message that
    passes the checks with a [param1] that is neither ROBOT_STATE nor the
    acknowledgment opcode is dropped without any effect, also in debug
    mode. *)
Theorem recv_one_publishes_iff (self : Bridge) (now : R) (msg : MAVLink_message) :
  length (robot_state_pub_list self) = n self ->
  ((exists topic m, In (Publish topic m) (events_of (recv_one now (Some msg) self)))
   <-> passes_checks self msg /\ param1 msg = IZR ROBOT_STATE) /\
  (passes_checks self msg -> param1 msg <> IZR ROBOT_STATE ->
   param1 msg <> IZR MASTER_CMD_ACK ->
   recv_one now (Some msg) self = (Ret tt, self, [])).
Proof.
  intros Hlen. split; [split |].
  - intros Hpub.
    pose proof (BridgeProperties.recv_one_publishes_only_accepted self now msg Hpub) as Hc.
    destruct Hpub as (topic & m & Hin).
    split; [exact Hc |].
    destruct (Req_dec_T (param1 msg) (IZR ROBOT_STATE)) as [E | Hne]; [exact E | exfalso].
    rewrite (recv_one_accepted self now msg Hc Hne) in Hin. unfold events_of in Hin.
    destruct (feq (param1 msg) (IZR MASTER_CMD_ACK)); [| destruct Hin].
    destruct (dict_get CMD_STRING (param2 msg)); cbn [snd] in Hin;
      [destruct Hin as [H | []]; discriminate | destruct Hin].
  - intros (Hc & H1).
    destruct (nth_error (robot_state_pub_list self) (Z.to_nat (get_srcSystem msg - 1)))
      as [topic |] eqn:Ht.
    + exists topic, (state_record now msg).
      rewrite (BridgeProperties.recv_one_state_report self now msg topic Hc H1 Ht).
      unfold events_of. cbn [snd]. apply in_or_app. right. now left.
    + exfalso. apply nth_error_None in Ht. destruct Hc as (_ & Hs & _). lia.
  - intros Hc H1 H16. rewrite (recv_one_accepted self now msg Hc H1).
    rewrite (BridgeProperties.feq_false _ _ H16). reflexivity.
Qed.

Lemma recv_one_publishes_iff_witness :
  length (robot_state_pub_list bridge5) = n bridge5 /\
  ((exists topic m, In (Publish topic m)
      (events_of (recv_one 9 (Some (report_from 3)) bridge5)))
   <-> passes_checks bridge5 (report_from 3) /\ param1 (report_from 3) = IZR ROBOT_STATE).
Proof.
  assert (H : length (robot_state_pub_list bridge5) = n bridge5) by reflexivity.
  split; [exact H |].
  exact (proj1 (recv_one_publishes_iff bridge5 9 (report_from 3) H)).
Defined.

(** ** The receive loop on an inbox *)

Lemma recv_one_shape (now : R) (msg : option MAVLink_message) (self : Bridge) :
  recv_one now msg self
  = (outcome_of (recv_one now msg self), self, events_of (recv_one now msg self)).
Proof.
  pose proof (recv_one_reads now msg self) as H. unfold state_of, outcome_of, events_of in *.
  destruct (recv_one now msg self) as [[o s] ev]. cbn [fst snd] in *. now subst s.
Qed.

Lemma recvCb_shape (inbox : list (R * option MAVLink_message)) (self : Bridge) :
  recvCb inbox self
  = (outcome_of (recvCb inbox self), self, events_of (recvCb inbox self)).
Proof.
  pose proof (recvCb_reads inbox self) as H. unfold state_of, outcome_of, events_of in *.
  destruct (recvCb inbox self) as [[o s] ev]. cbn [fst snd] in *. now subst s.
Qed.

Lemma recvCb_cons (now : R) (msg : option MAVLink_message)
  (inbox : list (R * option MAVLink_message)) (self : Bridge) :
  recvCb ((now, msg) :: inbox) self
  = match outcome_of (recv_one now msg self) with
    | Ret _ =>
        (outcome_of (recvCb inbox self), self,
         events_of (recv_one now msg self) ++ events_of (recvCb inbox self))
    | Raise e => (Raise e, self, events_of (recv_one now msg self))
    end.
Proof.
  cbn [recvCb]. unfold bind.
  pose proof (recv_one_reads now msg self) as H1.
  pose proof (recvCb_reads inbox self) as H2.
  unfold state_of, outcome_of, events_of in *.
  destruct (recv_one now msg self) as [[o s] ev]. cbn [fst snd] in *. subst s.
  destruct o as [[] | e]; [| reflexivity].
  destruct (recvCb inbox self) as [[o2 s2] ev2]. cbn [fst snd] in *. subst s2.
  reflexivity.
Qed.

(** X19: an exception ends the receive loop.  When the loop has gone
    through the messages [pre] without raising and the next message makes
    the body raise, the loop raises the same exception with the effects so
    far, and the messages after it are never looked at: their reports are
    not published. *)
Theorem recvCb_stops_at_exception
  (pre rest : list (R * option MAVLink_message)) (now : R)
  (msg : option MAVLink_message) (e : exn) (self : Bridge) :
  outcome_of (recvCb pre self) = Ret tt ->
  outcome_of (recv_one now msg self) = Raise e ->
  recvCb (pre ++ (now, msg) :: rest) self
  = (Raise e, self, events_of (recvCb pre self) ++ events_of (recv_one now msg self)).
Proof.
  intros Hpre Hmsg. induction pre as [|[t m] pre IH].
  - cbn [app]. rewrite recvCb_cons, Hmsg. reflexivity.
  - rewrite recvCb_cons in Hpre. cbn [app]. rewrite !recvCb_cons.
    destruct (outcome_of (recv_one t m self)) as [[] | e'].
    + unfold outcome_of at 1 in Hpre. cbn [fst] in Hpre. rewrite (IH Hpre).
      unfold outcome_of, events_of. cbn [fst snd]. now rewrite app_assoc.
    + unfold outcome_of in Hpre. cbn [fst] in Hpre. discriminate Hpre.
Qed.

Lemma recvCb_stops_at_exception_witness :
  outcome_of (recv_one 2 (Some (ack_from 2 16)) bridge5) = Raise KeyError /\
  recvCb ([(1, Some (report_from 6))] ++ (2, Some (ack_from 2 16))
           :: [(3, Some (report_from 3))]) bridge5
  = (Raise KeyError, bridge5,
     events_of (recvCb [(1, Some (report_from 6))] bridge5)
     ++ events_of (recv_one 2 (Some (ack_from 2 16)) bridge5)).
Proof.
  assert (H6 : ~ passes_checks bridge5 (report_from 6)).
  { unfold passes_checks; simpl. intros (_ & H & _). lia. }
  assert (H16 : passes_checks bridge5 (ack_from 2 16))
    by (unfold passes_checks; simpl; repeat split; lia).
  assert (Hn1 : param1 (ack_from 2 16) <> IZR ROBOT_STATE).
  { cbn. unfold ROBOT_STATE. lra. }
  assert (Hpre : outcome_of (recvCb [(1, Some (report_from 6))] bridge5) = Ret tt).
  { rewrite recvCb_cons.
    rewrite (BridgeProperties.recv_one_rejected bridge5 1 (report_from 6) 255 eq_refl H6).
    reflexivity. }
  assert (Hmsg : outcome_of (recv_one 2 (Some (ack_from 2 16)) bridge5) = Raise KeyError).
  { rewrite (recv_one_accepted bridge5 2 (ack_from 2 16) H16 Hn1).
    rewrite (BridgeProperties.feq_true (param1 (ack_from 2 16)) (IZR MASTER_CMD_ACK) eq_refl).
    change (param2 (ack_from 2 16)) with (IZR 16).
    rewrite dict_get_IZR. reflexivity. }
  split; [exact Hmsg |].
  exact (recvCb_stops_at_exception [(1, Some (report_from 6))] [(3, Some (report_from 3))]
           2 (Some (ack_from 2 16)) KeyError bridge5 Hpre Hmsg).
Defined.

(** ** Goals for fewer robots than [n] *)

Lemma formation_loop_short (self : Bridge) (msg : FormationPositions)
  (l1 : list nat) (j : nat) (l2 : list nat) :
  (forall i, In i l1 -> (i < length (goals msg))%nat) ->
  (length (goals msg) <= j)%nat ->
  for_in (l1 ++ j :: l2) (fun i =>
      g <- index_or_raise (nth_error (goals msg) i) ;;
      emit (CommandLongSend (Z.of_nat i + 1) 0 MAV_CMD_USER_1 0
              (IZR MASTER_CMD) (IZR MASTER_CMD_GOAL) (px g) (py g) (pz g) (tf msg) 0) ;;
      (if DEBUG self
       then logwarn "[Master]: Sent formation goal to Robot %s" [AInt (Z.of_nat i)]
       else ret tt) ;;
      ret Continue) self
  = (Raise IndexError, self, flat_map (goal_effects self msg) l1).
Proof.
  set (body := fun i : nat => _).
  intros Hl Hj. induction l1 as [|i l1 IH].
  - cbn [app for_in flat_map]. unfold bind at 1.
    assert (E : body j self = (Raise IndexError, self, [])).
    { unfold body, bind. rewrite (proj2 (nth_error_None (goals msg) j) Hj). reflexivity. }
    rewrite E. reflexivity.
  - assert (Hi : (i < length (goals msg))%nat) by (apply Hl; now left).
    destruct (nth_error (goals msg) i) as [g |] eqn:Hg;
      [| apply nth_error_None in Hg; lia].
    assert (Hn : nth i (goals msg) (mkPoint 0 0 0) = g) by (now apply nth_error_nth).
    cbn [app for_in flat_map]. unfold bind at 1.
    replace (body i self) with (Ret Continue, self, goal_effects self msg i).
    2:{ unfold body, bind, goal_effects, goal_command. rewrite Hg, Hn. simpl.
        destruct (DEBUG self); reflexivity. }
    rewrite IH by (intros k Hk; apply Hl; now right).
    reflexivity.
Qed.

(** X20: a goals message with fewer goals than the bridge has robots: the
    robots that have a goal are sent theirs, in order, then the lookup of
    the next goal raises IndexError; the remaining robots get nothing. *)
Theorem formationCb_short_goals (self : Bridge) (msg : FormationPositions) :
  (length (goals msg) < n self)%nat ->
  formationCb msg self
  = (Raise IndexError, self,
     flat_map (goal_effects self msg) (range (length (goals msg)))) /\
  sent_targets (events_of (formationCb msg self))
  = map (fun k => (Z.of_nat k + 1)%Z) (range (length (goals msg))).
Proof.
  intros Hlen.
  assert (E : formationCb msg self
              = (Raise IndexError, self,
                 flat_map (goal_effects self msg) (range (length (goals msg))))).
  { unfold formationCb, bind at 1. cbn [get].
    rewrite (range_split (n self) (length (goals msg)) Hlen).
    rewrite formation_loop_short; [reflexivity | | lia].
    intros i Hi. apply in_seq in Hi. lia. }
  split; [exact E |]. rewrite E. unfold events_of. cbn [snd].
  apply BridgeProperties.sent_targets_goal_effects.
Qed.

Lemma formationCb_short_goals_witness :
  (length (goals (with_goals [mkPoint 1 2 3; mkPoint 4 5 6] (goals_msg mission5)))
   < n bridge5)%nat /\
  sent_targets (events_of (formationCb
    (with_goals [mkPoint 1 2 3; mkPoint 4 5 6] (goals_msg mission5)) bridge5))
  = [1%Z; 2%Z].
Proof.
  assert (H : (length (goals (with_goals [mkPoint 1 2 3; mkPoint 4 5 6]
                 (goals_msg mission5))) < n bridge5)%nat) by (cbn; lia).
  split; [exact H |].
  exact (proj2 (formationCb_short_goals bridge5 _ H)).
Defined.

End BridgeMore.

(* ================================================================== *)
(** * The node and the bridge together *)

(** X21: the goals of an assignment reach the robots they are meant for.
    When [compute_assignment] has run on an object of [n] robots with the
    permutation [x] of the solver, and the bridge has the same [n], the
    callback of the bridge on the goals message returns without raising and
    the command it sends to wire address [k+1] carries the slot [S[x[k]]]
    and the [tf] of the message, for every robot [k]. *)
Theorem assignment_reaches_robots
  (lapjv : matrix -> outcome (R * list nat * list nat)) (now : R) (st : Mission)
  (c : R) (x y : list nat) (self : MasterBridge.Bridge) :
  arrays_fit st -> (1 <= n st)%nat ->
  lapjv (cost_matrix (P st) (S_array st)) = Ret (c, x, y) ->
  Permutation x (range (n st)) ->
  MasterBridge.n self = n st ->
  let msg := goals_msg (state_of (compute_assignment lapjv now st)) in
  outcome_of (MasterBridge.formationCb msg self) = Ret tt /\
  forall k, (k < n st)%nat ->
    nth_error (sent_commands (events_of (MasterBridge.formationCb msg self))) k
    = Some (MasterBridge.CommandLongSend (Z.of_nat k + 1) 0 MasterBridge.MAV_CMD_USER_1 0
              (IZR MasterBridge.MASTER_CMD) (IZR MasterBridge.MASTER_CMD_GOAL)
              (vx (goal_of (S_array st) x k)) (vy (goal_of (S_array st) x k))
              (vz (goal_of (S_array st) x k)) (tf msg) 0).
Proof.
  intros Hfit Hn Hsol Hperm Hself. cbv zeta.
  rewrite (compute_assignment_run lapjv now st c x y Hfit Hn Hsol Hperm).
  unfold state_of at 1 2 3. cbn [fst snd].
  set (sL := fold_left (assign_step x) (range (n st)) st).
  set (tfv := fold_left _ (range (n st)) 0).
  cbn [goals_msg set_G_is_set set_goals_msg].
  set (msg := with_stamp now (with_tf tfv (goals_msg sL))).
  destruct Hfit as (HP & HS & HG & Hg).
  destruct (assign_fold_frame x (range (n st)) st) as (_ & _ & _ & _ & _ & _ & _ & HgL).
  fold sL in HgL.
  assert (Hlen : length (goals msg) = n st) by (unfold msg; cbn; lia).
  rewrite (BridgeProperties.formationCb_run self msg) by lia.
  unfold outcome_of, events_of. cbn [fst snd]. split; [reflexivity |].
  intros k Hk. rewrite BridgeProperties.sent_commands_goal_effects, Hself.
  rewrite (nth_error_map_range (goal_command msg) k (n st) Hk).
  unfold goal_command. f_equal.
  assert (Egoal : nth_error (goals msg) k = Some (point_of (goal_of (S_array st) x k))).
  { unfold msg. cbn [goals with_stamp with_tf].
    apply (assign_fold_goal x (range (n st)) st k); [lia | lia | apply in_seq; lia]. }
  rewrite (nth_error_nth _ _ _ Egoal). reflexivity.
Qed.

Lemma assignment_reaches_robots_witness :
  MasterBridge.n bridge5 = n ready5 /\
  outcome_of (MasterBridge.formationCb
    (goals_msg (state_of (compute_assignment lapjv_identity 0 ready5))) bridge5) = Ret tt.
Proof.
  split; [reflexivity |].
  exact (proj1 (assignment_reaches_robots lapjv_identity 0 ready5 0 (range 5) (range 5)
                  bridge5 arrays_fit_ready5 ltac:(cbn; lia) eq_refl (Permutation_refl _)
                  eq_refl)).
Defined.

(** X22: the node listens where the bridge publishes.  With the same number
    [n >= 5] of robots, the publishers of the bridge have the topic names
    of the node, and for [k] from 0 to 4 a state report that passes the
    checks of the bridge with wire source [k+1] is published on the topic
    [main] subscribes the callback of robot [k] to. *)
Theorem state_topics_agree (prm : Params) (bprm : MasterBridge.Params) (k : nat) :
  MasterBridge.param_nRobots bprm = nRobots prm -> (5 <= nRobots prm)%nat ->
  (k < 5)%nat ->
  MasterBridge.robot_state_pub_list (MasterBridge.Bridge_init bprm)
  = r_loc_topic_names (Mission_init prm) /\
  exists topic subs,
    outcome_of (main_subscriptions (Mission_init prm)) = Ret subs /\
    nth_error subs k = Some (topic, k) /\
    forall (now : R) (rep : MasterBridge.MAVLink_message),
      passes_checks (MasterBridge.Bridge_init bprm) rep ->
      MasterBridge.param1 rep = IZR MasterBridge.ROBOT_STATE ->
      MasterBridge.get_srcSystem rep = (Z.of_nat k + 1)%Z ->
      In (MasterBridge.Publish topic (state_record now rep))
        (events_of (MasterBridge.recv_one now (Some rep) (MasterBridge.Bridge_init bprm))).
Proof.
  intros Hn H5 Hk.
  assert (Hpub : MasterBridge.robot_state_pub_list (MasterBridge.Bridge_init bprm)
                 = r_loc_topic_names (Mission_init prm)).
  { unfold MasterBridge.Bridge_init, Mission_init.
    cbn [MasterBridge.robot_state_pub_list r_loc_topic_names]. now rewrite Hn. }
  split; [exact Hpub |].
  exists ("/robot" ++ str k ++ "/state")%string.
  rewrite main_subscriptions_run, !topic_name by lia.
  eexists. split; [reflexivity |]. split.
  - assert (Hc : (k = 0 \/ k = 1 \/ k = 2 \/ k = 3 \/ k = 4)%nat) by lia.
    destruct Hc as [-> | [-> | [-> | [-> | ->]]]]; reflexivity.
  - intros now rep Hc H1 Hsrc.
    assert (Ht : nth_error (MasterBridge.robot_state_pub_list (MasterBridge.Bridge_init bprm))
                   (Z.to_nat (MasterBridge.get_srcSystem rep - 1))
                 = Some ("/robot" ++ str k ++ "/state")%string).
    { rewrite Hpub, Hsrc. replace (Z.to_nat (Z.of_nat k + 1 - 1)) with k by lia.
      apply topic_name. lia. }
    rewrite (BridgeProperties.recv_one_state_report _ now rep _ Hc H1 Ht).
    unfold events_of. cbn [snd]. apply in_or_app. right. now left.
Qed.

Lemma state_topics_agree_witness :
  MasterBridge.robot_state_pub_list bridge5 = r_loc_topic_names mission5.
Proof.
  exact (proj1 (state_topics_agree params5
    {| MasterBridge.param_DEBUG := false;
       MasterBridge.param_USE_MASTER_AS_GCS := false;
       MasterBridge.param_nRobots := 5;
       MasterBridge.param_master_sys_id := 255 |} 2
    eq_refl ltac:(cbn; lia) ltac:(lia))).
Defined.
